(** * BatchBook API: realtime entry synchronisation and version history

    A shallow embedding of the journaling backend's realtime gateway
    (realtime/socketServer.js), its journal and versioning controllers
    (controllers/journalController.js, controllers/versionController.js)
    and the two Mongoose models they work on (models/Entry.js,
    models/Version.js), followed by the properties of the specification
    that concern them.

    Conventions.
    - JavaScript strings that carry user text (titles, contents, tags,
      typing previews) are sequences of UTF-16 code units, [list N], so
      that [String.prototype.trim] and [.length] mean what ECMAScript
      says.  Identifiers (ObjectIds in hexadecimal, socket ids, room
      names), schema path names and messages are Rocq strings.
    - The document database is explicit state.  A handler runs to
      completion on the state it is given: interleaving of handlers at
      their [await]s is not modelled.
    - Reads always answer.  A write may be rejected by the storage
      driver; the per-request environment says which one.
    - An identifier named by a request stands for the ObjectId it
      casts to.  A parameter that is not a well-formed ObjectId makes
      the query reject with a CastError, which the error handler
      answers 500 and the socket's save handler with [saveError]; that
      path is not part of the model.  *)

From Stdlib Require Import ZArith NArith Ascii String List Sorted Permutation.
From stdpp Require Import base decidable option list strings pretty gmap.

Local Open Scope string_scope.
Local Open Scope list_scope.
Local Open Scope Z_scope.

(* ================================================================== *)
(** * JavaScript values                                                *)
(* ================================================================== *)

Module JS.

(** A string of user text: its UTF-16 code units. *)
Abbreviation jsstring := (list N).

(** The code units of an ASCII literal. *)
Definition js (s : string) : jsstring :=
  List.map N_of_ascii (list_ascii_of_string s).

(** ECMAScript's WhiteSpace and LineTerminator code points, the ones
    [String.prototype.trim] strips. *)
Definition isWhiteSpace (c : N) : bool :=
  ((9 <=? c) && (c <=? 13)            (* TAB, LF, VT, FF, CR *)
   || (c =? 32)                       (* SPACE *)
   || (c =? 160)                      (* NO-BREAK SPACE *)
   || (c =? 5760)                     (* OGHAM SPACE MARK *)
   || ((8192 <=? c) && (c <=? 8202))  (* EN QUAD .. HAIR SPACE *)
   || (c =? 8232) || (c =? 8233)      (* LINE / PARAGRAPH SEPARATOR *)
   || (c =? 8239)                     (* NARROW NO-BREAK SPACE *)
   || (c =? 8287)                     (* MEDIUM MATHEMATICAL SPACE *)
   || (c =? 12288)                    (* IDEOGRAPHIC SPACE *)
   || (c =? 65279))%N.                (* ZERO WIDTH NO-BREAK SPACE *)

Fixpoint trimStart (s : jsstring) : jsstring :=
  match s with
  | c :: s' => if isWhiteSpace c then trimStart s' else s
  | [] => []
  end.

Definition trimEnd (s : jsstring) : jsstring :=
  rev (trimStart (rev s)).

(** [s.trim()] *)
Definition trim (s : jsstring) : jsstring := trimEnd (trimStart s).

(** A value of a parsed JSON request body, or [undefined] for a key
    the body does not have.  Numbers are the integers a double holds
    exactly, those of absolute value at most 2^53: a longer literal is
    rounded by [JSON.parse] before a handler sees it.  [JOther] stands
    for arrays and objects. *)
Inductive value :=
| JUndefined
| JNull
| JBool (b : bool)
| JNum (n : Z)
| JStr (s : jsstring)
| JOther.

(** ToBoolean. *)
Definition truthy (v : value) : bool :=
  match v with
  | JUndefined | JNull => false
  | JBool b => b
  | JNum n => negb (n =? 0)
  | JStr s => negb (bool_decide (s = []))
  | JOther => true
  end.

(** [a || b]. *)
Definition or (a b : value) : value := if truthy a then a else b.

(** Truthiness of an identifier received in a payload: [undefined]
    and the empty string are falsy. *)
Definition truthy_id (x : option string) : bool :=
  match x with
  | None => false
  | Some s => negb (bool_decide (s = ""))
  end.

End JS.
Export JS.

(** MongoDB ObjectIds, written in hexadecimal, and timestamps in
    milliseconds.  A value of this type is an identifier that has
    been cast. *)
Abbreviation ObjectId := string.
Abbreviation Time := Z.

(** What a request finds around it: the clock, the identifier the
    driver gives to a document it inserts, and whether the storage
    driver rejects the request's [k]-th write. *)
Record Env := mkEnv {
  now : Time;
  newId : ObjectId;
  writeFails : nat -> bool;
}.

(** An awaited call either resolves to a value or rejects with an
    [Error] carrying a message. *)
Inductive result (A : Type) :=
| Throw (message : string)
| Return (a : A).
Arguments Throw {A} message.
Arguments Return {A} a.

(* ================================================================== *)
(** * Mongoose: schemas, casting, validation, queries                  *)
(* ================================================================== *)

Module Mongoose.

(** Values held by the paths of a document. *)
Inductive value :=
| VStr (s : jsstring)
| VOid (o : ObjectId)
| VArr (l : list jsstring).

#[global] Instance value_eq_dec : EqDecision value.
Proof. solve_decision. Defined.

(** An object literal handed to [create] or used as a query filter. *)
Abbreviation object := (list (string * value)).

Definition get (o : object) (path : string) : option value :=
  (list_to_map o : gmap string value) !! path.

Inductive SType := TString | TObjectId | TStringArray.

(** The options of one schema path. *)
Record SchemaType := mkPath {
  type : SType;
  required : bool;
  trimmed : bool;                       (* trim: true *)
  enum : option (list jsstring);
  default : option value;
}.

(** A compiled model: its name and the paths of its schema.  Both
    schemas of this program set [timestamps: true], which is built
    into [Document] below. *)
Record Model := mkModel {
  modelName : string;
  schema : list (string * SchemaType);
}.

Record Document := mkDocument {
  _id : ObjectId;
  fields : gmap string value;
  createdAt : Time;
  updatedAt : Time;
}.

(** Reading a property of a document: a path the document does not
    hold reads as [undefined]. *)
Definition prop (d : Document) (path : string) : option value :=
  fields d !! path.

(** [value.toString()] *)
Definition toString (v : value) : jsstring :=
  match v with
  | VStr s => s
  | VOid o => js o
  | VArr l => List.concat (List.map (fun s => s ++ js ",") l)
  end.

(** Casting a value to the type of a path; [None] is a CastError.
    The [trim] setter of a String path runs here. *)
Definition cast (t : SchemaType) (v : value) : option value :=
  let setter s := if trimmed t then trim s else s in
  match type t, v with
  | TString, VStr s => Some (VStr (setter s))
  | TString, VOid o => Some (VStr (setter (js o)))
  | TObjectId, VOid o => Some (VOid o)
  | TStringArray, VArr l => Some (VArr l)
  | TStringArray, VStr s => Some (VArr [s])
  | TStringArray, VOid o => Some (VArr [js o])
  | TString, VArr _ | TObjectId, VStr _ | TObjectId, VArr _ => None
  end.

(** [new Model(raw)] under the default [strict: true]: only the
    paths of the schema are kept, each cast to its type, and a path
    the literal does not give takes its default, if it has one. *)
Fixpoint build (S : list (string * SchemaType)) (raw : object)
  : option (gmap string value) :=
  match S with
  | [] => Some ∅
  | (p, t) :: S' =>
      match build S' raw with
      | None => None
      | Some rest =>
          match get raw p with
          | Some v =>
              match cast t v with
              | Some v' => Some (<[p := v']> rest)
              | None => None
              end
          | None =>
              match default t with
              | Some d => Some (<[p := d]> rest)
              | None => Some rest
              end
          end
      end
  end.

(** The [required] validator: the path holds a value, and a string
    is not empty. *)
Definition checkRequired (v : option value) : bool :=
  match v with
  | None => false
  | Some (VStr s) => negb (bool_decide (s = []))
  | Some _ => true
  end.

Definition validPath (d : gmap string value) (pt : string * SchemaType) : bool :=
  (if required pt.2 then checkRequired (d !! pt.1) else true)
  && match enum pt.2, d !! pt.1 with
     | Some allowed, Some (VStr s) => bool_decide (s ∈ allowed)
     | _, _ => true
     end.

Definition validate (M : Model) (d : gmap string value) : bool :=
  forallb (validPath d) (schema M).

(** [Model.create(raw)], the request's [k]-th write: build, validate,
    stamp, insert. *)
Definition create (M : Model) (env : Env) (k : nat) (raw : object)
    (coll : list Document) : result (list Document * Document) :=
  match build (schema M) raw with
  | None => Throw (modelName M +:+ " validation failed: Cast failed")
  | Some d =>
      if negb (validate M d) then Throw (modelName M +:+ " validation failed")
      else if writeFails env k then Throw "storage error"
      else
        let doc := mkDocument (newId env) d (now env) (now env) in
        Return (coll ++ [doc], doc)
  end.

(** [Model.findById(id)] *)
Definition findById (id : ObjectId) (coll : list Document) : option Document :=
  List.find (fun d => bool_decide (_id d = id)) coll.

(** Casting a query filter.  [_id] is cast to an ObjectId and a path
    of the schema to its type.  A path the schema does not have is
    dropped from the filter when [strictQuery] is on, and sent to the
    database as it is when off.  [None] is a CastError. *)
Fixpoint castFilter (M : Model) (strictQuery : bool) (filter : object)
  : option object :=
  match filter with
  | [] => Some []
  | (p, v) :: filter' =>
      match castFilter M strictQuery filter' with
      | None => None
      | Some rest =>
          if bool_decide (p = "_id") then
            match v with VOid _ => Some ((p, v) :: rest) | _ => None end
          else
            match (list_to_map (schema M) : gmap string SchemaType) !! p with
            | Some t =>
                match cast t v with
                | Some v' => Some ((p, v') :: rest)
                | None => None
                end
            | None => if strictQuery then Some rest else Some ((p, v) :: rest)
            end
      end
  end.

(** Whether a stored document satisfies a cast filter. *)
Definition matches (filter : object) (d : Document) : bool :=
  forallb (fun c : string * value =>
             if bool_decide (c.1 = "_id") then bool_decide (VOid (_id d) = c.2)
             else bool_decide (fields d !! c.1 = Some c.2))
          filter.

(** [Model.find(filter)] *)
Definition find (M : Model) (strictQuery : bool) (filter : object)
    (coll : list Document) : result (list Document) :=
  match castFilter M strictQuery filter with
  | None => Throw "Cast failed"
  | Some f => Return (List.filter (matches f) coll)
  end.

(** [Model.findOne(filter)] *)
Definition findOne (M : Model) (strictQuery : bool) (filter : object)
    (coll : list Document) : result (option Document) :=
  match find M strictQuery filter coll with
  | Throw m => Throw m
  | Return l => Return (head l)
  end.

(** [.sort({ createdAt: -1 })]: newest first, ties in collection
    order. *)
Fixpoint insertNewestFirst (d : Document) (l : list Document) : list Document :=
  match l with
  | [] => [d]
  | x :: l' =>
      if createdAt x <=? createdAt d then d :: l
      else x :: insertNewestFirst d l'
  end.

Definition sortNewestFirst (l : list Document) : list Document :=
  foldr insertNewestFirst [] l.

End Mongoose.

(* ================================================================== *)
(** * models/User.js                                                   *)
(* ================================================================== *)

Module User.

(** A user document as the controllers see it: the password hash is
    never selected. *)
Record doc := mk {
  _id : ObjectId;
  name : jsstring;
  email : jsstring;
  role : jsstring;
}.

(** [User.findById(id)]: the document whose [_id] is [id]. *)
Definition findById (id : ObjectId) (coll : gmap ObjectId doc) : option doc :=
  match coll !! id with
  | Some u => if bool_decide (_id u = id) then Some u else None
  | None => None
  end.

End User.

(* ================================================================== *)
(** * models/Entry.js                                                  *)
(* ================================================================== *)

Module Entry.

Record doc := mk {
  _id : ObjectId;
  user : ObjectId;
  title : jsstring;
  content : jsstring;
  mood : option jsstring;
  tags : list jsstring;
  createdAt : Time;
  updatedAt : Time;
}.

Definition moods : list jsstring :=
  List.map js ["happy"; "sad"; "neutral"; "angry"; "excited"; "anxious";
               "grateful"; "tired"; "other"].

(** A document held by a handler: its current values, whether it has
    yet to be inserted, the paths assigned since it was loaded, and
    the paths that were assigned [undefined] or a value that does not
    cast to the path's type. *)
Record live := mkLive {
  cur : doc;
  isNew : bool;
  modifiedPaths : list string;
  invalidPaths : list string;
}.

(** A document as a query returns it. *)
Definition hydrate (e : doc) : live := mkLive e false [] [].

Definition isModified (path : string) (d : live) : bool :=
  bool_decide (path ∈ modifiedPaths d).

Definition with_title (t : jsstring) (e : doc) : doc :=
  mk (_id e) (user e) t (content e) (mood e) (tags e) (createdAt e) (updatedAt e).
Definition with_content (c : jsstring) (e : doc) : doc :=
  mk (_id e) (user e) (title e) c (mood e) (tags e) (createdAt e) (updatedAt e).
Definition with_tags (l : list jsstring) (e : doc) : doc :=
  mk (_id e) (user e) (title e) (content e) (mood e) l (createdAt e) (updatedAt e).
Definition with_createdAt (t : Time) (e : doc) : doc :=
  mk (_id e) (user e) (title e) (content e) (mood e) (tags e) t (updatedAt e).
Definition with_updatedAt (t : Time) (e : doc) : doc :=
  mk (_id e) (user e) (title e) (content e) (mood e) (tags e) (createdAt e) t.

(** Assigning a path.  A new document marks every path it is given;
    a loaded one marks a path when the value differs from the one it
    holds. *)
Definition assign (path : string) (changed : bool) (e : doc) (d : live) : live :=
  if isNew d || changed
  then mkLive e (isNew d) (path :: modifiedPaths d) (invalidPaths d)
  else d.

(** [doc.title = v]; the schema's [trim: true] is a setter.  [None] is
    [undefined], [null] or a value that does not cast to a string. *)
Definition set_title (v : option jsstring) (d : live) : live :=
  match v with
  | Some s =>
      assign "title" (negb (bool_decide (trim s = title (cur d))))
             (with_title (trim s) (cur d)) d
  | None =>
      mkLive (cur d) (isNew d) ("title" :: modifiedPaths d)
             ("title" :: invalidPaths d)
  end.

(** [doc.content = v] *)
Definition set_content (v : option jsstring) (d : live) : live :=
  match v with
  | Some s =>
      assign "content" (negb (bool_decide (s = content (cur d))))
             (with_content s (cur d)) d
  | None =>
      mkLive (cur d) (isNew d) ("content" :: modifiedPaths d)
             ("content" :: invalidPaths d)
  end.


(** The validators of [entrySchema]; the answer is the message of
    the ValidationError, if one is raised. *)
Definition validate (d : live) : option string :=
  if bool_decide (invalidPaths d ≠ [])
  then Some "Entry validation failed"
  else if bool_decide (title (cur d) = [])
  then Some "Entry validation failed: title: Please provide a title for your entry."
  else if (100 <? length (title (cur d)))%nat
  then Some "Entry validation failed: title: Title cannot be more than 100 characters."
  else if bool_decide (content (cur d) = [])
  then Some "Entry validation failed: content: Please provide content for your entry."
  else match mood (cur d) with
       | Some m =>
           if bool_decide (m ∈ moods) then None
           else Some "Entry validation failed: mood: not a valid enum value"
       | None => None
       end.

(** [this.tags.map(tag => tag.trim()).filter(tag => tag.length > 0)] *)
Definition sanitizeTags (l : list jsstring) : list jsstring :=
  List.filter (fun tag => (0 <? length tag)%nat) (List.map trim l).

(** [entrySchema.pre('save', ...)] *)
Definition preSave (d : live) : live :=
  if isModified "tags" d
  then mkLive (with_tags (sanitizeTags (tags (cur d))) (cur d))
              (isNew d) (modifiedPaths d) (invalidPaths d)
  else d.

(** [timestamps: true] on save: a new document gets both stamps, a
    modified one a new [updatedAt]. *)
Definition stamp (env : Env) (d : live) : doc :=
  if isNew d then with_createdAt (now env) (with_updatedAt (now env) (cur d))
  else if bool_decide (modifiedPaths d ≠ [])
  then with_updatedAt (now env) (cur d)
  else cur d.

(** [doc.save()], the request's [k]-th write: validate, run the
    pre-save hook, stamp, write.  A loaded document that was not
    modified is not written. *)
Definition save (env : Env) (k : nat) (d : live) (coll : gmap ObjectId doc)
  : result (gmap ObjectId doc * doc) :=
  match validate d with
  | Some message => Throw message
  | None =>
      let e := stamp env (preSave d) in
      if negb (isNew d) && bool_decide (modifiedPaths d = [])
      then Return (coll, e)
      else if writeFails env k then Throw "storage error"
      else Return (<[_id e := e]> coll, e)
  end.

(** [Entry.findById(id)]: the document whose [_id] is [id]. *)
Definition findById (id : ObjectId) (coll : gmap ObjectId doc) : option doc :=
  match coll !! id with
  | Some e => if bool_decide (_id e = id) then Some e else None
  | None => None
  end.

(** [Entry.findOne({ _id: id, user: owner })] *)
Definition findOne (id owner : ObjectId) (coll : gmap ObjectId doc) : option doc :=
  match findById id coll with
  | Some e => if bool_decide (user e = owner) then Some e else None
  | None => None
  end.

(** [new Entry({ title, content, user })] *)
Definition create (env : Env) (title content : option jsstring) (user : ObjectId)
  : live :=
  set_content content
    (set_title title
       (mkLive (mk (newId env) user [] [] None [] 0 0) true ["user"] [])).

(** [Entry.findOneAndUpdate({ _id, user }, { content, title },
    { new: true })], the request's [k]-th write.  Setters run on the
    update and [updatedAt] is stamped; validators do not run. *)
Definition findOneAndUpdate (env : Env) (k : nat) (id owner : ObjectId)
    (content title : jsstring) (coll : gmap ObjectId doc)
  : result (gmap ObjectId doc * option doc) :=
  if writeFails env k then Throw "storage error"
  else match findOne id owner coll with
       | Some e =>
           let e' := with_updatedAt (now env)
                       (with_title (trim title) (with_content content e)) in
           Return (<[id := e']> coll, Some e')
       | None => Return (coll, None)
       end.

(** [doc.deleteOne()], the request's [k]-th write. *)
Definition deleteOne (env : Env) (k : nat) (e : doc) (coll : gmap ObjectId doc)
  : result (gmap ObjectId doc) :=
  if writeFails env k then Throw "storage error"
  else Return (delete (_id e) coll).

End Entry.

(* ================================================================== *)
(** * models/Version.js                                                *)
(* ================================================================== *)

Module Version.

Import Mongoose.

Definition versionSchema : list (string * SchemaType) :=
  [ ("entry",   mkPath TObjectId true false None None);
    ("user",    mkPath TObjectId true false None None);
    ("title",   mkPath TString true true None None);
    ("content", mkPath TString true false None None);
    ("tags",    mkPath TStringArray false false None (Some (VArr [])));
    ("note",    mkPath TString false true None None);
    ("source",  mkPath TString true false
                       (Some [js "auto"; js "manual"; js "restore"])
                       (Some (VStr (js "auto")))) ].

(** [mongoose.model('Version', versionSchema)] *)
Definition Version : Model := mkModel "Version" versionSchema.

(** [versionSchema.statics.createFromEntry] *)
Definition createFromEntry (env : Env) (k : nat) (entry : option Entry.doc)
    (source : jsstring) (coll : list Document)
  : result (list Document * Document) :=
  match entry with
  | Some e =>
      if bool_decide (Entry._id e = "")
      then Throw "A valid entry document must be provided to create a version."
      else create Version env k
             [ ("entry", VOid (Entry._id e));
               ("user", VOid (Entry.user e));
               ("title", VStr (Entry.title e));
               ("content", VStr (Entry.content e));
               ("tags", VArr (Entry.tags e));
               ("source", VStr source) ]
             coll
  | None => Throw "A valid entry document must be provided to create a version."
  end.

End Version.

(* ================================================================== *)
(** * The database                                                     *)
(* ================================================================== *)

Record DB := mkDB {
  users : gmap ObjectId User.doc;
  entries : gmap ObjectId Entry.doc;
  versions : list Mongoose.Document;
}.

(* ================================================================== *)
(** * Express handlers                                                 *)
(* ================================================================== *)

Module Http.

(** The JSON bodies the handlers send. *)
Inductive Body :=
| ErrorJson (message : string)
| EntryJson (entry : Entry.doc)
| VersionsJson (versions : list Mongoose.Document)
| VersionJson (version : Mongoose.Document)
| MessageJson (message : string)
| RestoredJson (message : string) (entry : Entry.doc).

Record Response := mkResponse {
  status : nat;
  body : Body;
}.

(** What a handler works on: the database and [res.statusCode]. *)
Record St := mkSt {
  db : DB;
  statusCode : nat;
}.

(** The body of an [async (req, res) => ...] handler: it reads and
    writes the state and either throws or ends with the body it
    sends. *)
Definition M (A : Type) : Type := St -> result A * St.

Definition ret {A} (a : A) : M A := fun st => (Return a, st).

Definition bind {A B} (m : M A) (k : A -> M B) : M B :=
  fun st =>
    match m st with
    | (Return a, st') => k a st'
    | (Throw message, st') => (Throw message, st')
    end.

(** [throw new Error(message)] *)
Definition throw {A} (message : string) : M A := fun st => (Throw message, st).

(** [res.status(code)] *)
Definition res_status (code : nat) : M unit :=
  fun st => (Return tt, mkSt (db st) code).

(** A read of the database. *)
Definition query {A} (f : DB -> A) : M A := fun st => (Return (f (db st)), st).

(** An awaited call on the entries collection. *)
Definition onEntries {A}
    (op : gmap ObjectId Entry.doc -> result (gmap ObjectId Entry.doc * A)) : M A :=
  fun st =>
    match op (entries (db st)) with
    | Return (coll, a) =>
        (Return a, mkSt (mkDB (users (db st)) coll (versions (db st))) (statusCode st))
    | Throw message => (Throw message, st)
    end.

(** An awaited call on the versions collection. *)
Definition onVersions {A}
    (op : list Mongoose.Document -> result (list Mongoose.Document * A)) : M A :=
  fun st =>
    match op (versions (db st)) with
    | Return (coll, a) =>
        (Return a, mkSt (mkDB (users (db st)) (entries (db st)) coll) (statusCode st))
    | Throw message => (Throw message, st)
    end.

(** middleware/errorMiddleware.js: an error thrown while the status
    is still 200 is answered 500.  The [stack] member of the body is
    left out. *)
Definition errorHandler (message : string) (statusCode : nat) : Response :=
  mkResponse (if (statusCode =? 200)%nat then 500%nat else statusCode)
             (ErrorJson message).

(** [asyncHandler(fn)]: a rejection goes to the error handler. *)
Definition asyncHandler (fn : M Body) (db0 : DB) : DB * Response :=
  match fn (mkSt db0 200%nat) with
  | (Return b, st) => (db st, mkResponse (statusCode st) b)
  | (Throw message, st) => (db st, errorHandler message (statusCode st))
  end.

End Http.

Notation "x <- m ;; k" := (Http.bind m (fun x => k))
  (at level 100, m at next level, right associativity).
Notation "m ;; k" := (Http.bind m (fun _ => k))
  (at level 100, right associativity).

(* ================================================================== *)
(** * controllers/journalController.js                                 *)
(* ================================================================== *)

Module journalController.

Import Http.

(** The cast of a request-body value to a String path: [null],
    [undefined], arrays and objects do not give a string, and a
    number gives its decimal digits (for the integers of absolute
    value at most 2^53, the numbers [JNum] stands for). *)
Definition castString (v : JS.value) : option jsstring :=
  match v with
  | JStr s => Some s
  | JNum n => Some (js (pretty n))
  | JBool b => Some (js (if b then "true" else "false"))
  | JUndefined | JNull | JOther => None
  end.

Definition createJournal (env : Env) (req_user : User.doc)
    (title content : JS.value) : M Body :=
  if negb (truthy title) || negb (truthy content) then
    res_status 400 ;;
    throw "Please provide both a title and content for the journal entry."
  else
    let journal :=
      Entry.create env (castString title) (castString content) (User._id req_user) in
    createdJournal <- onEntries (Entry.save env 0 journal) ;;
    res_status 201 ;;
    ret (EntryJson createdJournal).

Definition getJournalById (req_user : User.doc) (id : ObjectId) : M Body :=
  journal <- query (fun db => Entry.findById id (entries db)) ;;
  match journal with
  | None => res_status 404 ;; throw "Journal entry not found."
  | Some journal =>
      if negb (bool_decide (Entry.user journal = User._id req_user)) then
        res_status 401 ;;
        throw "You are not authorized to access this journal entry."
      else
        res_status 200 ;;
        ret (EntryJson journal)
  end.

Definition updateJournal (env : Env) (req_user : User.doc) (id : ObjectId)
    (title content : JS.value) : M Body :=
  journal <- query (fun db => Entry.findById id (entries db)) ;;
  match journal with
  | None => res_status 404 ;; throw "Journal entry not found."
  | Some journal =>
      if negb (bool_decide (Entry.user journal = User._id req_user)) then
        res_status 401 ;;
        throw "You are not authorized to update this journal entry."
      else
        let doc := Entry.hydrate journal in
        let doc :=
          Entry.set_title
            (castString (JS.or title (JStr (Entry.title (Entry.cur doc))))) doc in
        let doc :=
          Entry.set_content
            (castString (JS.or content (JStr (Entry.content (Entry.cur doc))))) doc in
        updatedJournal <- onEntries (Entry.save env 0 doc) ;;
        res_status 200 ;;
        ret (EntryJson updatedJournal)
  end.

Definition deleteJournal (env : Env) (req_user : User.doc) (id : ObjectId)
  : M Body :=
  journal <- query (fun db => Entry.findById id (entries db)) ;;
  match journal with
  | None => res_status 404 ;; throw "Journal entry not found."
  | Some journal =>
      if negb (bool_decide (Entry.user journal = User._id req_user)) then
        res_status 401 ;;
        throw "You are not authorized to delete this journal entry."
      else
        onEntries (fun coll =>
                     match Entry.deleteOne env 0 journal coll with
                     | Return coll' => Return (coll', tt)
                     | Throw message => Throw message
                     end) ;;
        res_status 200 ;;
        ret (MessageJson "Journal entry successfully deleted.")
  end.

End journalController.

(* ================================================================== *)
(** * controllers/versionController.js                                 *)
(* ================================================================== *)

Module versionController.

Import Http.

Section Controller.

(** [import Version from '../models/Version.js']: the controller is
    written against the model it imports, and against Mongoose's
    global [strictQuery] setting. *)
Variable Version : Mongoose.Model.
Variable strictQuery : bool.

(** The string a path of a version gives when it is assigned to a
    String path of an entry. *)
Definition stringOf (v : option Mongoose.value) : option jsstring :=
  match v with
  | Some (Mongoose.VStr s) => Some s
  | Some (Mongoose.VOid o) => Some (js o)
  | Some (Mongoose.VArr _) | None => None
  end.

Definition getEntryVersions (req_user : User.doc) (entryId : ObjectId)
  : M Body :=
  entry <- query (fun db =>
             Entry.findOne entryId (User._id req_user) (entries db)) ;;
  match entry with
  | None =>
      res_status 404 ;;
      throw "Entry not found or you do not have permission to view it."
  | Some _ =>
      versions <- onVersions (fun coll =>
                    match Mongoose.find Version strictQuery
                            [("entryId", Mongoose.VOid entryId)] coll with
                    | Return l => Return (coll, Mongoose.sortNewestFirst l)
                    | Throw message => Throw message
                    end) ;;
      res_status 200 ;;
      ret (VersionsJson versions)
  end.

Definition getSpecificVersion (req_user : User.doc)
    (entryId versionId : ObjectId) : M Body :=
  version <- onVersions (fun coll =>
               match Mongoose.findOne Version strictQuery
                       [("_id", Mongoose.VOid versionId);
                        ("entryId", Mongoose.VOid entryId)] coll with
               | Return v => Return (coll, v)
               | Throw message => Throw message
               end) ;;
  match version with
  | None =>
      res_status 404 ;;
      throw "Version not found for the specified entry."
  | Some version =>
      entry <- query (fun db =>
             Entry.findOne entryId (User._id req_user) (entries db)) ;;
      match entry with
      | None =>
          res_status 403 ;;
          throw "You are not authorized to view this version."
      | Some _ =>
          res_status 200 ;;
          ret (VersionJson version)
      end
  end.

(** The entry as the restore leaves it before saving:
    [entry.title = versionToRestore.title;
     entry.content = versionToRestore.content]. *)
Definition overwrite (entry : Entry.doc) (versionToRestore : Mongoose.Document)
  : Entry.live :=
  let doc := Entry.hydrate entry in
  let doc :=
    Entry.set_title (stringOf (Mongoose.prop versionToRestore "title")) doc in
  Entry.set_content (stringOf (Mongoose.prop versionToRestore "content")) doc.

(** The object the restore hands to [Version.create]. *)
Definition snapshotOf (entry : Entry.doc) : Mongoose.object :=
  [ ("entryId", Mongoose.VOid (Entry._id entry));
    ("title", Mongoose.VStr (Entry.title entry));
    ("content", Mongoose.VStr (Entry.content entry)) ].

Definition restoreVersion (env : Env) (req_user : User.doc)
    (entryId versionId : ObjectId) : M Body :=
  entry <- query (fun db => Entry.findById entryId (entries db)) ;;
  match entry with
  | None =>
      res_status 403 ;;
      throw "You are not authorized to modify this entry."
  | Some entry =>
      if negb (bool_decide (Entry.user entry = User._id req_user)) then
        res_status 403 ;;
        throw "You are not authorized to modify this entry."
      else
        versionToRestore <-
          query (fun db => Mongoose.findById versionId (versions db)) ;;
        match versionToRestore with
        | None =>
            res_status 404 ;;
            throw "Version to restore not found for this entry."
        | Some versionToRestore =>
            match Mongoose.prop versionToRestore "entryId" with
            | None =>
                (* [undefined.toString()] *)
                throw "Cannot read properties of undefined (reading 'toString')"
            | Some owner =>
                if negb (bool_decide (Mongoose.toString owner = js entryId)) then
                  res_status 404 ;;
                  throw "Version to restore not found for this entry."
                else
                  onVersions
                    (Mongoose.create Version env 0 (snapshotOf entry)) ;;
                  let doc := overwrite entry versionToRestore in
                  updatedEntry <- onEntries (Entry.save env 1 doc) ;;
                  res_status 200 ;;
                  ret (RestoredJson
                         "Entry successfully restored to a previous version."
                         updatedEntry)
            end
        end
  end.

End Controller.

End versionController.

(* ================================================================== *)
(** * realtime/socketServer.js                                         *)
(* ================================================================== *)

Module socketServer.

Abbreviation SocketId := string.

(** Events the server sends. *)
Inductive ServerEvent :=
| connect_error (message : string)
| typing (userId : ObjectId) (contentPreview : jsstring)
| synced (entryId : ObjectId) (updatedAt : Time) (message : string)
| saveError (entryId : string) (message : string).

(** Whom an emission addresses: [socket.emit], [io.to(room).emit],
    [socket.to(room).emit]. *)
Inductive Target :=
| ToSocket (socket : SocketId)
| ToRoom (room : string)
| ToRoomExcept (room : string) (socket : SocketId).

(** The gateway: the database, the accepted connections with the
    [userId] attached to each, and the rooms the connections have
    joined. *)
Record Server := mkServer {
  db : DB;
  sockets : gmap SocketId ObjectId;
  rooms : gset (SocketId * string);
}.

(** What arrives from a client. *)
Inductive ClientEvent :=
| Handshake (socket : SocketId) (token : option string)
| OnJoinEntry (socket : SocketId) (entryId : option string)
| OnTyping (socket : SocketId) (entryId : option string) (contentPreview : jsstring)
| OnSave (socket : SocketId) (entryId : option string) (content title : jsstring)
| OnDisconnect (socket : SocketId).

Definition sender (ev : ClientEvent) : SocketId :=
  match ev with
  | Handshake s _ | OnJoinEntry s _ | OnTyping s _ _ | OnSave s _ _ _
  | OnDisconnect s => s
  end.

(** A connection is in the rooms it joined and in the room named by
    its own id. *)
Definition inRoom (srv : Server) (socket : SocketId) (room : string) : bool :=
  bool_decide (is_Some (sockets srv !! socket))
  && (bool_decide (socket = room) || bool_decide ((socket, room) ∈ rooms srv)).

(** Whether an emission reaches a connection. *)
Definition delivered (srv : Server) (t : Target) (socket : SocketId) : bool :=
  match t with
  | ToSocket s => bool_decide (socket = s)
  | ToRoom room => inRoom srv socket room
  | ToRoomExcept room s => inRoom srv socket room && negb (bool_decide (socket = s))
  end.

Section Gateway.

(** [jwt.verify(token, process.env.JWT_SECRET)] at a given time: the
    [id] of the payload, or [None] when it throws (the token is
    malformed, wrongly signed or expired). *)
Variable jwt_verify : Time -> string -> option ObjectId.

(** The [io.use] middleware: the [userId] it attaches to the
    socket, or the error it hands to [next]. *)
Definition authenticate (env : Env) (users : gmap ObjectId User.doc)
    (token : option string) : result ObjectId :=
  match token with
  | Some t =>
      if negb (truthy_id token)
      then Throw "Authentication error: No token provided."
      else match jwt_verify (now env) t with
           | Some id =>
               match User.findById id users with
               | Some _ => Return id
               | None => Throw "Authentication error: User not found."
               end
           | None => Throw "Authentication error: Invalid token."
           end
  | None => Throw "Authentication error: No token provided."
  end.

(** The handlers [io.on('connection', ...)] registers on a socket. *)
Definition onJoinEntry (srv : Server) (socket : SocketId)
    (entryId : option string) : Server * list (Target * ServerEvent) :=
  match entryId with
  | Some room =>
      if truthy_id entryId
      then (mkServer (db srv) (sockets srv) ({[ (socket, room) ]} ∪ rooms srv), [])
      else (srv, [])
  | None => (srv, [])
  end.

Definition onTyping (srv : Server) (socket : SocketId) (userId : ObjectId)
    (entryId : option string) (contentPreview : jsstring)
  : Server * list (Target * ServerEvent) :=
  match entryId with
  | Some room =>
      if truthy_id entryId
      then (srv, [(ToRoomExcept room socket, typing userId contentPreview)])
      else (srv, [])
  | None => (srv, [])
  end.

Definition onSave (env : Env) (srv : Server) (socket : SocketId)
    (userId : ObjectId) (entryId : option string) (content title : jsstring)
  : Server * list (Target * ServerEvent) :=
  match entryId with
  | Some id =>
      if negb (truthy_id entryId) then (srv, [])
      else
        match Entry.findOneAndUpdate env 0 id userId content title
                (entries (db srv)) with
        | Return (coll, Some entry) =>
            (mkServer (mkDB (users (db srv)) coll (versions (db srv)))
                      (sockets srv) (rooms srv),
             [(ToRoom id,
               synced (Entry._id entry) (Entry.updatedAt entry)
                      "Entry saved successfully.")])
        | Return (coll, None) =>
            (mkServer (mkDB (users (db srv)) coll (versions (db srv)))
                      (sockets srv) (rooms srv),
             [(ToSocket socket,
               saveError id "Save failed: Entry not found or permission denied.")])
        | Throw _ =>
            (srv,
             [(ToSocket socket,
               saveError id "An error occurred on the server while saving.")])
        end
  | None => (srv, [])
  end.

(** One client event.  A handshake runs the middleware: an error
    refuses the connection and is sent to the client as
    [connect_error]; otherwise the connection handler runs and the
    socket has its handlers.  A socket that was not accepted has
    none.  Disconnecting leaves all rooms. *)
Definition step (env : Env) (srv : Server) (ev : ClientEvent)
  : Server * list (Target * ServerEvent) :=
  match ev with
  | Handshake socket token =>
      match authenticate env (users (db srv)) token with
      | Return userId =>
          (mkServer (db srv) (<[socket := userId]> (sockets srv)) (rooms srv), [])
      | Throw message => (srv, [(ToSocket socket, connect_error message)])
      end
  | OnJoinEntry socket entryId =>
      match sockets srv !! socket with
      | Some _ => onJoinEntry srv socket entryId
      | None => (srv, [])
      end
  | OnTyping socket entryId contentPreview =>
      match sockets srv !! socket with
      | Some userId => onTyping srv socket userId entryId contentPreview
      | None => (srv, [])
      end
  | OnSave socket entryId content title =>
      match sockets srv !! socket with
      | Some userId => onSave env srv socket userId entryId content title
      | None => (srv, [])
      end
  | OnDisconnect socket =>
      (mkServer (db srv) (delete socket (sockets srv))
                (filter (fun p : SocketId * string => p.1 ≠ socket) (rooms srv)),
       [])
  end.

(** A sequence of client events, each with its environment. *)
Fixpoint run (srv : Server) (trace : list (Env * ClientEvent))
  : Server * list (Target * ServerEvent) :=
  match trace with
  | [] => (srv, [])
  | (env, ev) :: trace' =>
      let '(srv1, out1) := step env srv ev in
      let '(srv2, out2) := run srv1 trace' in
      (srv2, out1 ++ out2)
  end.

End Gateway.

End socketServer.

(* ================================================================== *)
(** * The server: routes and gateway on one database                   *)
(* ================================================================== *)

Module server.

Import socketServer.

(** A request that has passed the [protect] middleware, which put the
    user of the bearer token in [req.user]
    (routes/entryRoutes.js, routes/versionRoutes.js). *)
Inductive Request :=
| POST_entry (req_user : User.doc) (title content : JS.value)
| GET_entry (req_user : User.doc) (id : ObjectId)
| PUT_entry (req_user : User.doc) (id : ObjectId) (title content : JS.value)
| DELETE_entry (req_user : User.doc) (id : ObjectId)
| GET_versions (req_user : User.doc) (entryId : ObjectId)
| GET_version (req_user : User.doc) (entryId versionId : ObjectId)
| POST_restore (req_user : User.doc) (entryId versionId : ObjectId).

Inductive Input :=
| Http (r : Request)
| Socket (ev : ClientEvent).

(** What the server answers to one input: the HTTP response, if the
    input was a request, and the socket events it emits. *)
Record Output := mkOutput {
  response : option Http.Response;
  emitted : list (Target * ServerEvent);
}.

Section Server.

Variable Version : Mongoose.Model.
Variable strictQuery : bool.
Variable jwt_verify : Time -> string -> option ObjectId.

Definition route (env : Env) (r : Request) : Http.M Http.Body :=
  match r with
  | POST_entry u title content => journalController.createJournal env u title content
  | GET_entry u id => journalController.getJournalById u id
  | PUT_entry u id title content =>
      journalController.updateJournal env u id title content
  | DELETE_entry u id => journalController.deleteJournal env u id
  | GET_versions u entryId =>
      versionController.getEntryVersions Version strictQuery u entryId
  | GET_version u entryId versionId =>
      versionController.getSpecificVersion Version strictQuery u entryId versionId
  | POST_restore u entryId versionId =>
      versionController.restoreVersion Version env u entryId versionId
  end.

Definition handle (env : Env) (srv : Server) (i : Input) : Server * Output :=
  match i with
  | Http r =>
      let '(db', res) := Http.asyncHandler (route env r) (db srv) in
      (mkServer db' (sockets srv) (rooms srv), mkOutput (Some res) [])
  | Socket ev =>
      let '(srv', out) := step jwt_verify env srv ev in
      (srv', mkOutput None out)
  end.

(** The server after a sequence of inputs, and what it answered to
    each. *)
Fixpoint serve (srv : Server) (inputs : list (Env * Input))
  : Server * list Output :=
  match inputs with
  | [] => (srv, [])
  | (env, i) :: inputs' =>
      let '(srv1, o) := handle env srv i in
      let '(srv2, os) := serve srv1 inputs' in
      (srv2, o :: os)
  end.

End Server.

End server.

(* ================================================================== *)
(** * Vocabulary of the statements                                     *)
(* ================================================================== *)

(** A run of whitespace. *)
Definition blank (s : jsstring) : Prop :=
  Forall (fun c => isWhiteSpace c = true) s.

(** A string that neither starts nor ends with whitespace. *)
Definition trimmedForm (s : jsstring) : Prop :=
  (forall c, head s = Some c -> isWhiteSpace c = false)
  /\ (forall c, last s = Some c -> isWhiteSpace c = false).

(** [t] is [s] without the whitespace around it. *)
Definition trimOf (s t : jsstring) : Prop :=
  trimmedForm t /\ exists a b, s = a ++ t ++ b /\ blank a /\ blank b.

(** [e'] has the fields of [e] other than the title, the content and
    the modification time. *)
Definition sameOtherFields (e e' : Entry.doc) : Prop :=
  Entry._id e' = Entry._id e
  /\ Entry.user e' = Entry.user e
  /\ Entry.mood e' = Entry.mood e
  /\ Entry.tags e' = Entry.tags e
  /\ Entry.createdAt e' = Entry.createdAt e.

(** The events a client can send on a connection that is open:
    everything but the handshake that opens it. *)
Definition inSession (ev : socketServer.ClientEvent) : Prop :=
  match ev with
  | socketServer.OnJoinEntry _ _ | socketServer.OnTyping _ _ _
  | socketServer.OnSave _ _ _ _ => True
  | socketServer.Handshake _ _ | socketServer.OnDisconnect _ => False
  end.

(** The ways a handshake fails to authenticate: no token, a token that
    does not verify, a token of a user that is not in the database. *)
Definition badToken (jwt_verify : Time -> string -> option ObjectId) (env : Env)
    (users : gmap ObjectId User.doc) (token : option string) : Prop :=
  truthy_id token = false
  \/ (exists t, token = Some t /\ jwt_verify (now env) t = None)
  \/ (exists t id, token = Some t /\ jwt_verify (now env) t = Some id
                   /\ User.findById id users = None).

(** In a trace, the socket [socket] never authenticates: each of its
    handshakes carries a bad token, and it sends no disconnect. *)
Definition neverAuthenticates (jwt_verify : Time -> string -> option ObjectId)
    (users : gmap ObjectId User.doc) (socket : socketServer.SocketId)
    (trace : list (Env * socketServer.ClientEvent)) : Prop :=
  Forall (fun x : Env * socketServer.ClientEvent =>
            socketServer.sender x.2 = socket ->
            match x.2 with
            | socketServer.Handshake _ token => badToken jwt_verify x.1 users token
            | socketServer.OnDisconnect _ => False
            | _ => True
            end)
         trace.

(** The trace without the events of one socket. *)
Definition withoutSocket (socket : socketServer.SocketId)
    (trace : list (Env * socketServer.ClientEvent))
  : list (Env * socketServer.ClientEvent) :=
  List.filter (fun x => negb (bool_decide (socketServer.sender x.2 = socket))) trace.

(** The versions of an entry: the documents of the versions
    collection whose [entry] path refers to it. *)
Definition versionsOf (entryId : ObjectId) (coll : list Mongoose.Document)
  : list Mongoose.Document :=
  List.filter
    (fun d => bool_decide (Mongoose.prop d "entry" = Some (Mongoose.VOid entryId)))
    coll.

(** Newest first. *)
Definition newestFirst (l : list Mongoose.Document) : Prop :=
  Sorted (fun a b => Mongoose.createdAt b <= Mongoose.createdAt a) l.

(** A model of versions keyed the way the versions controller reads
    and writes them, by an [entryId] path; the other paths are those
    of [Version.versionSchema]. *)
Definition VersionByEntryId : Mongoose.Model :=
  Mongoose.mkModel "Version"
    (("entryId", Mongoose.mkPath Mongoose.TObjectId true false None None)
       :: List.filter (fun p => negb (bool_decide (p.1 = "entry"))
                                && negb (bool_decide (p.1 = "user")))
                      Version.versionSchema).

(** ** Sample data *)

(** An environment at time [t] whose storage accepts every write. *)
Definition accepting (t : Time) (id : ObjectId) : Env := mkEnv t id (fun _ => false).

Definition alice : User.doc := User.mk "u1" (js "Alice") (js "alice@example.org") (js "user").
Definition bob : User.doc := User.mk "u2" (js "Bob") (js "bob@example.org") (js "user").

Definition diary : Entry.doc :=
  Entry.mk "e1" "u1" (js "Monday") (js "rain") None [js "weather"] 10 10.
Definition notes : Entry.doc :=
  Entry.mk "e2" "u2" (js "Todo") (js "milk") None [] 11 11.

(** Two versions as [Version.createFromEntry] stores them. *)
Definition diaryV1 : Mongoose.Document :=
  Mongoose.mkDocument "v1"
    (list_to_map
       [ ("entry", Mongoose.VOid "e1"); ("user", Mongoose.VOid "u1");
         ("title", Mongoose.VStr (js "Monday")); ("content", Mongoose.VStr (js "rain"));
         ("tags", Mongoose.VArr [js "weather"]); ("source", Mongoose.VStr (js "auto")) ])
    12 12.
Definition notesV1 : Mongoose.Document :=
  Mongoose.mkDocument "v2"
    (list_to_map
       [ ("entry", Mongoose.VOid "e2"); ("user", Mongoose.VOid "u2");
         ("title", Mongoose.VStr (js "Todo")); ("content", Mongoose.VStr (js "milk"));
         ("tags", Mongoose.VArr []); ("source", Mongoose.VStr (js "auto")) ])
    13 13.

Definition sampleDB : DB :=
  mkDB {[ "u1" := alice; "u2" := bob ]} {[ "e1" := diary; "e2" := notes ]}
       [diaryV1; notesV1].

(** A version of the diary as [VersionByEntryId] would store it. *)
Definition diaryOld : Mongoose.Document :=
  Mongoose.mkDocument "v1"
    (list_to_map
       [ ("entryId", Mongoose.VOid "e1");
         ("title", Mongoose.VStr (js "Sunday")); ("content", Mongoose.VStr (js "sun"));
         ("tags", Mongoose.VArr []); ("source", Mongoose.VStr (js "auto")) ])
    5 5.

Definition keyedDB : DB :=
  mkDB {[ "u1" := alice; "u2" := bob ]} {[ "e1" := diary; "e2" := notes ]} [diaryOld].

(** A token verifier that knows two tokens: Alice's, and one of a
    user who has since been removed. *)
Definition sampleJwt (t : Time) (token : string) : option ObjectId :=
  if bool_decide (token = "alice-token") then Some "u1"
  else if bool_decide (token = "ghost-token") then Some "u9"
  else None.

Definition sampleServer : socketServer.Server :=
  socketServer.mkServer sampleDB {[ "s1" := "u1"; "s2" := "u2" ]}
                        {[ ("s1", "e1"); ("s2", "e1") ]}.

(** The scenario of the specification up to the restore: Alice
    creates an entry titled "Draft", then saves it three times over
    her socket. *)
Definition draftScenario (u : User.doc) (socket : socketServer.SocketId)
    (id : ObjectId) (t0 t1 t2 t3 : Time) (content0 : jsstring)
  : list (Env * server.Input) :=
  [ (accepting t0 id, server.Http (server.POST_entry u (JStr (js "Draft")) (JStr content0)));
    (accepting t1 "", server.Socket (socketServer.OnSave socket (Some id) (js "v1") (js "Draft")));
    (accepting t2 "", server.Socket (socketServer.OnSave socket (Some id) (js "v2") (js "Draft")));
    (accepting t3 "", server.Socket (socketServer.OnSave socket (Some id) (js "v3") (js "Draft"))) ].

(** A server with Alice connected and nothing stored but the users. *)
Definition freshServer : socketServer.Server :=
  socketServer.mkServer (mkDB {[ "u1" := alice; "u2" := bob ]} ∅ [])
                        {[ "s1" := "u1" ]} ∅.



(** Every stored title is in the form the schema's [trim] setter
    leaves. *)
Definition titlesTrimmed (coll : gmap ObjectId Entry.doc) : Prop :=
  forall id e, coll !! id = Some e -> trim (Entry.title e) = Entry.title e.

(* ================================================================== *)
(** * middleware/authMiddleware.js                                     *)
(* ================================================================== *)

Module authMiddleware.

(** [s.split(' ')] *)
Fixpoint splitSpace (s : string) : list string :=
  match s with
  | EmptyString => [""]
  | String c s' =>
      if Ascii.eqb c " " then "" :: splitSpace s'
      else match splitSpace s' with
           | piece :: rest => String c piece :: rest
           | [] => [String c ""]
           end
  end.

Section Protect.

(** [jwt.verify], as in the gateway. *)
Variable jwt_verify : Time -> string -> option ObjectId.

Definition deny (message : string) : Http.Response + User.doc :=
  inl (Http.mkResponse 401 (Http.MessageJson message)).

(** [protect]: the user it puts in [req.user] before calling [next],
    or the response it sends.  The token is the second piece of the
    header split at spaces; [jwt.verify] throws on a token that is
    [undefined] or empty. *)
Definition protect (env : Env) (users : gmap ObjectId User.doc)
    (authorization : option string) : Http.Response + User.doc :=
  match authorization with
  | Some header =>
      if negb (bool_decide (header = "")) && String.prefix "Bearer" header then
        match splitSpace header !! 1%nat with
        | Some token =>
            if bool_decide (token = "") then deny "Not authorized, token failed"
            else
              match jwt_verify (now env) token with
              | Some id =>
                  match User.findById id users with
                  | Some user => inr user
                  | None => deny "Not authorized, user not found"
                  end
              | None => deny "Not authorized, token failed"
              end
        | None => deny "Not authorized, token failed"
        end
      else deny "Not authorized, no token provided"
  | None => deny "Not authorized, no token provided"
  end.

End Protect.

End authMiddleware.

(* ================================================================== *)
(** * journalController.getUserJournals and the routes                 *)
(* ================================================================== *)

Module entryRoutes.

(** [.sort({ createdAt: -1 })] on entries: newest first. *)
Fixpoint insertNewestFirst (e : Entry.doc) (l : list Entry.doc) : list Entry.doc :=
  match l with
  | [] => [e]
  | x :: l' =>
      if Entry.createdAt x <=? Entry.createdAt e then e :: l
      else x :: insertNewestFirst e l'
  end.

Definition sortNewestFirst (l : list Entry.doc) : list Entry.doc :=
  foldr insertNewestFirst [] l.

(** [Entry.find({ user: owner })] *)
Definition findByUser (owner : ObjectId) (coll : gmap ObjectId Entry.doc)
  : list Entry.doc :=
  List.map snd
    (List.filter
       (fun kv : ObjectId * Entry.doc =>
          bool_decide (Entry._id kv.2 = kv.1) && bool_decide (Entry.user kv.2 = owner))
       (map_to_list coll)).

(** [getUserJournals]: what it sends is the list of entries. *)
Definition getUserJournals (req_user : User.doc) : Http.M (list Entry.doc) :=
  journals <- Http.query (fun db =>
                sortNewestFirst (findByUser (User._id req_user) (entries db))) ;;
  Http.res_status 200 ;;
  Http.ret journals.

(** The requests the entry and version routers take, before [protect]
    has run (routes/entryRoutes.js, routes/versionRoutes.js). *)
Inductive Endpoint :=
| POST_entries (title content : JS.value)
| GET_entries
| GET_entry (id : ObjectId)
| PUT_entry (id : ObjectId) (title content : JS.value)
| DELETE_entry (id : ObjectId)
| GET_versions (entryId : ObjectId)
| GET_version (entryId versionId : ObjectId)
| POST_restore (entryId versionId : ObjectId).

(** What is sent back: a response of one of the handlers (or of
    [protect]), or the list [getUserJournals] sends with its status. *)
Inductive Answer :=
| Handled (res : Http.Response)
| Listed (status : nat) (journals : list Entry.doc).

Definition statusOf (a : Answer) : nat :=
  match a with
  | Handled res => Http.status res
  | Listed status _ => status
  end.

Section Routes.

Variable Version : Mongoose.Model.
Variable strictQuery : bool.
Variable jwt_verify : Time -> string -> option ObjectId.

(** [router.route(...).get(protect, handler)]: the handler runs with
    the user [protect] found, if it found one. *)
Definition receive (env : Env) (authorization : option string) (e : Endpoint)
    (db : DB) : DB * Answer :=
  match authMiddleware.protect jwt_verify env (users db) authorization with
  | inl res => (db, Handled res)
  | inr user =>
      let handled (r : server.Request) :=
        let '(db', res) :=
          Http.asyncHandler (server.route Version strictQuery env r) db in
        (db', Handled res) in
      match e with
      | POST_entries title content => handled (server.POST_entry user title content)
      | GET_entries =>
          match getUserJournals user (Http.mkSt db 200) with
          | (Return journals, st) => (Http.db st, Listed (Http.statusCode st) journals)
          | (Throw message, st) =>
              (Http.db st, Handled (Http.errorHandler message (Http.statusCode st)))
          end
      | GET_entry id => handled (server.GET_entry user id)
      | PUT_entry id title content => handled (server.PUT_entry user id title content)
      | DELETE_entry id => handled (server.DELETE_entry user id)
      | GET_versions entryId => handled (server.GET_versions user entryId)
      | GET_version entryId versionId =>
          handled (server.GET_version user entryId versionId)
      | POST_restore entryId versionId =>
          handled (server.POST_restore user entryId versionId)
      end
  end.

End Routes.

End entryRoutes.

(** ** More vocabulary *)

(** Entries, newest first. *)
Definition entriesNewestFirst (l : list Entry.doc) : Prop :=
  Sorted (fun a b => Entry.createdAt b <= Entry.createdAt a) l.

(** The user a request is made as. *)
Definition requester (r : server.Request) : User.doc :=
  match r with
  | server.POST_entry u _ _ | server.GET_entry u _ | server.PUT_entry u _ _ _
  | server.DELETE_entry u _ | server.GET_versions u _ | server.GET_version u _ _
  | server.POST_restore u _ _ => u
  end.

(** The requests that read. *)
Definition isRead (r : server.Request) : bool :=
  match r with
  | server.GET_entry _ _ | server.GET_versions _ _ | server.GET_version _ _ _ => true
  | _ => false
  end.

(** The statuses of an answer with and without an error body. *)
Definition statusFits (res : Http.Response) : Prop :=
  match Http.body res with
  | Http.ErrorJson _ => In (Http.status res) [400; 401; 403; 404; 500]%nat
  | _ => In (Http.status res) [200; 201]%nat
  end.

(** What a request made as [owner] may do to the database: it leaves
    the users; it appends at most one version; and it leaves the
    entries, or adds one entry of [owner]'s under the identifier the
    driver gives, or replaces one entry of [owner]'s by an entry with
    the same id, owner, mood, tags and creation time, or deletes one
    entry of [owner]'s. *)
Definition requestEffect (env : Env) (owner : ObjectId) (db db' : DB) : Prop :=
  users db' = users db
  /\ (exists added, versions db' = versions db ++ added /\ (length added <= 1)%nat)
  /\ (entries db' = entries db
      \/ (exists e', Entry.user e' = owner
                     /\ entries db' = <[newId env := e']> (entries db))
      \/ (exists id e e',
            Entry.findById id (entries db) = Some e /\ Entry.user e = owner
            /\ sameOtherFields e e' /\ entries db' = <[id := e']> (entries db))
      \/ (exists id e,
            Entry.findById id (entries db) = Some e /\ Entry.user e = owner
            /\ entries db' = delete id (entries db))).

(** The sources a version may have. *)
Definition versionSources : list jsstring := [js "auto"; js "manual"; js "restore"].

(** The version [Version.createFromEntry] stores for an entry and a
    source, in an environment. *)
Definition versionOfEntry (env : Env) (e : Entry.doc) (source : jsstring)
  : Mongoose.Document :=
  Mongoose.mkDocument (newId env)
    (list_to_map
       [ ("entry", Mongoose.VOid (Entry._id e)); ("user", Mongoose.VOid (Entry.user e));
         ("title", Mongoose.VStr (trim (Entry.title e)));
         ("content", Mongoose.VStr (Entry.content e));
         ("tags", Mongoose.VArr (Entry.tags e)); ("source", Mongoose.VStr source) ])
    (now env) (now env).

(** A string without a space. *)
Fixpoint spaceless (s : string) : bool :=
  match s with
  | EmptyString => true
  | String c s' => negb (Ascii.eqb c " ") && spaceless s'
  end.

(** A server that holds the sample database, with Alice connected and
    in no room. *)
Definition freshServerWithDiary : socketServer.Server :=
  socketServer.mkServer sampleDB {[ "s1" := "u1" ]} ∅.

(* ================================================================== *)
(** * String.prototype.trim                                            *)
(* ================================================================== *)

Lemma trimStart_split (s : jsstring) :
  exists a, s = a ++ trimStart s /\ blank a.
Proof.
  induction s as [|c s IH]; simpl.
  - exists []. split; [reflexivity | constructor].
  - destruct (isWhiteSpace c) eqn:Hc.
    + destruct IH as (a & Hs & Ha). exists (c :: a). split.
      * simpl. now rewrite <- Hs.
      * now constructor.
    + exists []. split; [reflexivity | constructor].
Qed.

Lemma trimStart_head (s : jsstring) (c : N) :
  head (trimStart s) = Some c -> isWhiteSpace c = false.
Proof.
  induction s as [|x s IH]; simpl; [discriminate |].
  destruct (isWhiteSpace x) eqn:Hx; [exact IH |].
  simpl. intros [= <-]. exact Hx.
Qed.

Lemma trimStart_fixed (s : jsstring) :
  (forall c, head s = Some c -> isWhiteSpace c = false) -> trimStart s = s.
Proof.
  destruct s as [|x s]; simpl; [reflexivity |].
  intros H. now rewrite (H x eq_refl).
Qed.

Lemma last_rev_head (s : jsstring) : last (rev s) = head s.
Proof.
  destruct s as [|x s]; [reflexivity |]. simpl. apply last_snoc.
Qed.

Lemma head_rev_last (s : jsstring) : head (rev s) = last s.
Proof. rewrite <- (rev_involutive s) at 2. now rewrite last_rev_head. Qed.

Lemma blank_rev (s : jsstring) : blank s -> blank (rev s).
Proof. unfold blank. intros H. now apply Forall_rev. Qed.

Lemma trimEnd_split (s : jsstring) :
  exists b, s = trimEnd s ++ b /\ blank b.
Proof.
  unfold trimEnd. destruct (trimStart_split (rev s)) as (a & Hs & Ha).
  exists (rev a). split; [| now apply blank_rev].
  rewrite <- rev_app_distr, <- Hs. now rewrite rev_involutive.
Qed.

Lemma trimEnd_last (s : jsstring) (c : N) :
  last (trimEnd s) = Some c -> isWhiteSpace c = false.
Proof.
  unfold trimEnd. rewrite last_rev_head. apply trimStart_head.
Qed.

(** Trimming the end keeps the first code unit unless nothing is
    left. *)
Lemma trimEnd_head (s : jsstring) (c : N) :
  head (trimEnd s) = Some c -> head s = Some c.
Proof.
  destruct (trimEnd_split s) as (b & Hs & _).
  destruct (trimEnd s) as [|x t]; simpl; [discriminate |].
  intros [= <-]. now rewrite Hs.
Qed.

(** [trim] removes a run of whitespace on each side and leaves a
    string with none at either end. *)
Lemma trim_spec (s : jsstring) : trimOf s (trim s).
Proof.
  unfold trimOf, trimmedForm, trim. split; [split |].
  - intros c Hc. apply trimEnd_head in Hc. now apply trimStart_head in Hc.
  - apply trimEnd_last.
  - destruct (trimStart_split s) as (a & Hs & Ha).
    destruct (trimEnd_split (trimStart s)) as (b & Ht & Hb).
    exists a, b. split; [| now split].
    rewrite <- Ht. exact Hs.
Qed.

Lemma trimEnd_fixed (s : jsstring) :
  (forall c, last s = Some c -> isWhiteSpace c = false) -> trimEnd s = s.
Proof.
  intros H. unfold trimEnd. rewrite trimStart_fixed.
  - apply rev_involutive.
  - intros c. rewrite head_rev_last. apply H.
Qed.

Lemma trim_fixed (s : jsstring) : trimmedForm s -> trim s = s.
Proof.
  intros [Hh Hl]. unfold trim. rewrite (trimStart_fixed s Hh).
  now apply trimEnd_fixed.
Qed.

Lemma trim_idempotent (s : jsstring) : trim (trim s) = trim s.
Proof. apply trim_fixed, trim_spec. Qed.

(* ================================================================== *)
(** * Entry: the pre-save hook and [save]                              *)
(* ================================================================== *)




Lemma sanitizeTags_idempotent (l : list jsstring) :
  Entry.sanitizeTags (Entry.sanitizeTags l) = Entry.sanitizeTags l.
Proof.
  unfold Entry.sanitizeTags. induction l as [|x l IH]; simpl; [reflexivity |].
  destruct (trim x) as [|c t] eqn:E; simpl; [exact IH |].
  rewrite <- E, trim_idempotent, E. simpl. now rewrite IH.
Qed.





(* ================================================================== *)
(** * journalController                                                *)
(* ================================================================== *)

Ltac unfold_handler :=
  unfold Http.asyncHandler, Http.bind, Http.query, Http.res_status,
    Http.throw, Http.ret, Http.onEntries, Http.onVersions, Http.errorHandler.

Lemma findById_id (id : ObjectId) (coll : gmap ObjectId Entry.doc) (e : Entry.doc) :
  Entry.findById id coll = Some e -> coll !! id = Some e /\ Entry._id e = id.
Proof.
  unfold Entry.findById. destruct (coll !! id) as [x|]; [| discriminate].
  case_bool_decide; [| discriminate]. intros [= ->]. now split.
Qed.

Lemma findById_Some (id : ObjectId) (coll : gmap ObjectId Entry.doc) (e : Entry.doc) :
  coll !! id = Some e -> Entry._id e = id -> Entry.findById id coll = Some e.
Proof.
  intros H1 H2. unfold Entry.findById. rewrite H1.
  now rewrite bool_decide_eq_true_2.
Qed.

(** C9.  Deleting an entry: the versions (and the users) are what they
    were, whatever the answer; an answer of 200 is given only when the
    requested entry exists and belongs to the requesting user, and
    then exactly that entry is gone; any other answer leaves the
    entries as they were; and the owner's request is answered 200
    when the storage accepts the write. *)
Theorem deleteJournal_owner_only_keeps_versions (env : Env) (u : User.doc)
    (id : ObjectId) (db : DB) :
  let out := Http.asyncHandler (journalController.deleteJournal env u id) db in
  versions out.1 = versions db
  /\ users out.1 = users db
  /\ (Http.status out.2 = 200%nat ->
      exists e, Entry.findById id (entries db) = Some e
                /\ Entry.user e = User._id u
                /\ entries out.1 = delete id (entries db))
  /\ (Http.status out.2 <> 200%nat -> entries out.1 = entries db)
  /\ (forall e, Entry.findById id (entries db) = Some e ->
                Entry.user e = User._id u ->
                writeFails env 0 = false ->
                Http.status out.2 = 200%nat).
Proof.
  unfold journalController.deleteJournal, Entry.deleteOne. unfold_handler. simpl.
  destruct (Entry.findById id (entries db)) as [e|] eqn:Hfind; simpl.
  - destruct (findById_id _ _ _ Hfind) as [_ Hid].
    case_bool_decide as Hown; simpl.
    + destruct (writeFails env 0) eqn:Hw; simpl; repeat split; try done.
      intros _. exists e. rewrite Hid. done.
    + repeat split; try done. intros e0 [= <-] ?. contradiction.
  - repeat split; done.
Qed.

(** Assigning the title or the content of a loaded document touches
    no other field, and marks no other path. *)
Lemma set_title_frame (v : option jsstring) (d : Entry.live) :
  let d' := Entry.set_title v d in
  sameOtherFields (Entry.cur d) (Entry.cur d')
  /\ Entry.content (Entry.cur d') = Entry.content (Entry.cur d)
  /\ Entry.updatedAt (Entry.cur d') = Entry.updatedAt (Entry.cur d)
  /\ Entry.isNew d' = Entry.isNew d
  /\ (forall p, In p (Entry.modifiedPaths d') ->
                p = "title" \/ In p (Entry.modifiedPaths d)).
Proof.
  unfold Entry.set_title, Entry.assign, sameOtherFields.
  destruct v as [s|]; simpl.
  - destruct (Entry.isNew d || negb (bool_decide (trim s = Entry.title (Entry.cur d))));
      simpl; repeat split; try done.
    + intros p [<- | H]; [now left | now right].
    + intros p H. now right.
  - repeat split; try done. intros p [<- | H]; [now left | now right].
Qed.

Lemma set_content_frame (v : option jsstring) (d : Entry.live) :
  let d' := Entry.set_content v d in
  sameOtherFields (Entry.cur d) (Entry.cur d')
  /\ Entry.title (Entry.cur d') = Entry.title (Entry.cur d)
  /\ Entry.updatedAt (Entry.cur d') = Entry.updatedAt (Entry.cur d)
  /\ Entry.isNew d' = Entry.isNew d
  /\ (forall p, In p (Entry.modifiedPaths d') ->
                p = "content" \/ In p (Entry.modifiedPaths d)).
Proof.
  unfold Entry.set_content, Entry.assign, sameOtherFields.
  destruct v as [s|]; simpl.
  - destruct (Entry.isNew d || negb (bool_decide (s = Entry.content (Entry.cur d))));
      simpl; repeat split; try done.
    + intros p [<- | H]; [now left | now right].
    + intros p H. now right.
  - repeat split; try done. intros p [<- | H]; [now left | now right].
Qed.

(** Saving a loaded document whose tags were not assigned: what is
    returned has the document's fields with, at most, a new
    modification time, and the collection is either untouched or has
    the returned document under its id. *)
Lemma save_loaded (env : Env) (k : nat) (d : Entry.live)
    (coll coll' : gmap ObjectId Entry.doc) (e' : Entry.doc) :
  Entry.save env k d coll = Return (coll', e') ->
  Entry.isNew d = false ->
  ~ In "tags" (Entry.modifiedPaths d) ->
  sameOtherFields (Entry.cur d) e'
  /\ Entry.title e' = Entry.title (Entry.cur d)
  /\ Entry.content e' = Entry.content (Entry.cur d)
  /\ (Entry.updatedAt e' = Entry.updatedAt (Entry.cur d)
      \/ Entry.updatedAt e' = now env)
  /\ (coll' = coll \/ coll' = <[Entry._id e' := e']> coll).
Proof.
  unfold Entry.save. destruct (Entry.validate d); [discriminate |].
  intros H Hnew Htags.
  assert (Hpre : Entry.preSave d = d).
  { unfold Entry.preSave, Entry.isModified.
    rewrite bool_decide_eq_false_2; [reflexivity |].
    now rewrite list_elem_of_In. }
  rewrite Hpre, Hnew in H. simpl in H.
  unfold Entry.stamp in H. rewrite Hnew in H.
  destruct (decide (Entry.modifiedPaths d = [])) as [Hm | Hm].
  - rewrite (bool_decide_eq_true_2 _ Hm) in H.
    rewrite bool_decide_eq_false_2 in H by (intros E; now apply E).
    injection H as <- <-. unfold sameOtherFields. repeat split; auto.
  - rewrite (bool_decide_eq_false_2 _ Hm) in H.
    rewrite bool_decide_eq_true_2 in H by exact Hm.
    destruct (writeFails env k); [discriminate |].
    injection H as <- <-. unfold sameOtherFields. simpl. repeat split; auto.
Qed.

Lemma save_throws_keeps (env : Env) (k : nat) (d : Entry.live) (s : Http.St)
    (message : string) :
  Entry.save env k d (entries (Http.db s)) = Throw message ->
  Http.onEntries (Entry.save env k d) s = (Throw message, s).
Proof. intros H. unfold Http.onEntries. now rewrite H. Qed.

(** C10, as amended.  An update through the HTTP handler leaves the
    users, the versions and every other entry as they were.  The
    updated entry keeps its title (stored, as titles are, in trimmed
    form) when the body's title is absent or falsy, keeps its content
    when the body's content is absent or falsy, and keeps every other
    field except the modification time, which is either kept or set
    to the time of the request. *)
Theorem updateJournal_frame (env : Env) (u : User.doc) (id : ObjectId)
    (title content : JS.value) (db : DB) :
  let out :=
    Http.asyncHandler (journalController.updateJournal env u id title content) db in
  users out.1 = users db
  /\ versions out.1 = versions db
  /\ (forall j, j <> id -> entries out.1 !! j = entries db !! j)
  /\ (forall e, Entry.findById id (entries db) = Some e ->
      exists e', Entry.findById id (entries out.1) = Some e'
        /\ (truthy title = false -> trim (Entry.title e) = Entry.title e ->
            Entry.title e' = Entry.title e)
        /\ (truthy content = false -> Entry.content e' = Entry.content e)
        /\ sameOtherFields e e'
        /\ (Entry.updatedAt e' = Entry.updatedAt e \/ Entry.updatedAt e' = now env)).
Proof.
  unfold journalController.updateJournal. unfold_handler. simpl.
  destruct (Entry.findById id (entries db)) as [e|] eqn:Hfind; simpl;
    [| repeat split; done].
  destruct (findById_id _ _ _ Hfind) as [Hlook Hid].
  assert (Hsame : exists e', Entry.findById id (entries db) = Some e'
     /\ (truthy title = false -> trim (Entry.title e) = Entry.title e ->
            Entry.title e' = Entry.title e)
        /\ (truthy content = false -> Entry.content e' = Entry.content e)
        /\ sameOtherFields e e'
        /\ (Entry.updatedAt e' = Entry.updatedAt e \/ Entry.updatedAt e' = now env)).
  { exists e. unfold sameOtherFields. repeat split; auto. }
  case_bool_decide as Hown; simpl.
  2: { repeat split; try done. intros e0 [= <-]. exact Hsame. }
  set (d1 := Entry.set_title _ (Entry.hydrate e)).
  set (d2 := Entry.set_content _ d1).
  destruct (set_title_frame
              (journalController.castString (JS.or title (JStr (Entry.title e))))
              (Entry.hydrate e)) as (Hf1 & Hc1 & Hu1 & Hn1 & Hm1).
  destruct (set_content_frame
              (journalController.castString (JS.or content (JStr (Entry.content d1.(Entry.cur)))))
              d1) as (Hf2 & Ht2 & Hu2 & Hn2 & Hm2).
  fold d1 in Hf1, Hc1, Hu1, Hn1, Hm1. simpl in Hf2, Ht2, Hu2, Hn2, Hm2.
  fold d1 in Hf2, Ht2, Hu2, Hn2, Hm2. fold d2 in Hf2, Ht2, Hu2, Hn2, Hm2.
  destruct (Entry.save env 0 d2 (entries db)) as [msg | [coll' e']] eqn:Hsave; simpl.
  { repeat split; try done. intros e0 [= <-]. exact Hsame. }
  destruct (save_loaded _ _ _ _ _ _ Hsave) as (Hf3 & Ht3 & Hc3 & Hu3 & Hcoll).
  { now rewrite Hn2, Hn1. }
  { intros Hin. apply Hm2 in Hin as [Hin | Hin]; [discriminate |].
    apply Hm1 in Hin as [Hin | Hin]; [discriminate | inversion Hin]. }
  assert (Hid' : Entry._id e' = id).
  { destruct Hf3 as [-> _]. destruct Hf2 as [-> _]. destruct Hf1 as [-> _].
    exact Hid. }
  assert (Htitle : truthy title = false -> trim (Entry.title e) = Entry.title e ->
                   Entry.title (Entry.cur d1) = Entry.title e).
  { intros Hf Htrim. subst d1. unfold JS.or. rewrite Hf. simpl.
    unfold Entry.assign. simpl. rewrite Htrim.
    now rewrite (bool_decide_eq_true_2 _ eq_refl). }
  assert (Hcontent : truthy content = false ->
                     Entry.content (Entry.cur d2) = Entry.content e).
  { intros Hf. change (Entry.content e) with
      (Entry.content (Entry.cur (Entry.hydrate e))).
    rewrite <- Hc1. subst d2. unfold JS.or. rewrite Hf. simpl.
    unfold Entry.assign. rewrite (bool_decide_eq_true_2 _ eq_refl).
    destruct (Entry.isNew d1); reflexivity. }
  assert (Hother : sameOtherFields e e').
  { unfold sameOtherFields in *. simpl in Hf1.
    destruct Hf1 as (a1 & a2 & a3 & a4 & a5), Hf2 as (b1 & b2 & b3 & b4 & b5),
             Hf3 as (c1 & c2 & c3 & c4 & c5).
    repeat split; congruence. }
  repeat split; try done.
  - intros j Hj. destruct Hcoll as [-> | ->]; [done |].
    rewrite Hid'. now rewrite lookup_insert_ne.
  - intros e0 [= <-].
    destruct Hcoll as [-> | ->].
    + exact Hsame.
    + exists e'. split; [| split; [| split; [| split]]].
      * apply findById_Some; [| exact Hid'].
        rewrite Hid'. apply lookup_insert_eq.
      * intros Hf Htrim. rewrite Ht3, Ht2. now apply Htitle.
      * intros Hf. rewrite Hc3. now apply Hcontent.
      * exact Hother.
      * simpl in Hu1. rewrite Hu2, Hu1 in Hu3. exact Hu3.
Qed.

(* ================================================================== *)
(** * socketServer                                                     *)
(* ================================================================== *)

Import socketServer.

Lemma db_eta (d : DB) : mkDB (users d) (entries d) (versions d) = d.
Proof. now destruct d. Qed.

Lemma server_eta (srv : Server) : mkServer (db srv) (sockets srv) (rooms srv) = srv.
Proof. now destruct srv. Qed.

Lemma truthy_id_Some (id : string) : id <> "" -> truthy_id (Some id) = true.
Proof. intros H. unfold truthy_id. now rewrite bool_decide_eq_false_2. Qed.

Lemma findOne_None (id owner : ObjectId) (coll : gmap ObjectId Entry.doc) :
  Entry.findOne id owner coll = None <->
  Entry.findById id coll = None
  \/ exists e, Entry.findById id coll = Some e /\ Entry.user e <> owner.
Proof.
  unfold Entry.findOne. destruct (Entry.findById id coll) as [e|].
  - case_bool_decide as H; split.
    + discriminate.
    + intros [? | (e0 & [= <-] & Hne)]; [discriminate | contradiction].
    + intros _. right. now exists e.
    + reflexivity.
  - split; [now left | reflexivity].
Qed.

Lemma findOne_Some (id owner : ObjectId) (coll : gmap ObjectId Entry.doc)
    (e : Entry.doc) :
  Entry.findById id coll = Some e -> Entry.user e = owner ->
  Entry.findOne id owner coll = Some e.
Proof.
  intros H1 H2. unfold Entry.findOne. rewrite H1.
  now rewrite bool_decide_eq_true_2.
Qed.

(** C3.  A save from an accepted connection that names an entry which
    does not exist, or which another user owns, changes nothing on the
    server (the entry and everything else stay as they were) and emits
    exactly one event: a [saveError] for that entry id, addressed to
    the sending socket and delivered to no other; no [synced] is
    emitted. *)
Theorem save_denied (jwt_verify : Time -> string -> option ObjectId) (env : Env)
    (srv : Server) (socket : SocketId) (userId : ObjectId) (id : string)
    (content title : jsstring) :
  sockets srv !! socket = Some userId ->
  id <> "" ->
  Entry.findById id (entries (db srv)) = None
  \/ (exists e, Entry.findById id (entries (db srv)) = Some e
                /\ Entry.user e <> userId) ->
  (exists message,
     step jwt_verify env srv (OnSave socket (Some id) content title)
     = (srv, [(ToSocket socket, saveError id message)]))
  /\ (forall s, delivered srv (ToSocket socket) s = true <-> s = socket).
Proof.
  intros Hsock Hid Hdenied. apply findOne_None in Hdenied. split.
  - unfold step. rewrite Hsock. unfold onSave.
    rewrite (truthy_id_Some id Hid). cbn [negb].
    unfold Entry.findOneAndUpdate.
    destruct (writeFails env 0); [eexists; reflexivity |].
    rewrite Hdenied. rewrite db_eta, server_eta. eexists; reflexivity.
  - intros s. simpl. apply bool_decide_eq_true.
Qed.

(** C5.  A save from an accepted connection that names an entry of the
    connection's user, and that the storage accepts, stores the new
    content and the (trimmed) title with the time of the request as
    modification time, and emits exactly one event: [synced] with the
    entry id and that modification time, addressed to the room of the
    entry.  It is delivered to exactly the connections in that room,
    the sender among them if it is in the room. *)
Theorem save_broadcasts_synced (jwt_verify : Time -> string -> option ObjectId)
    (env : Env) (srv : Server) (socket : SocketId) (userId : ObjectId)
    (id : string) (content title : jsstring) (e : Entry.doc) :
  sockets srv !! socket = Some userId ->
  id <> "" ->
  Entry.findById id (entries (db srv)) = Some e ->
  Entry.user e = userId ->
  writeFails env 0 = false ->
  let out := step jwt_verify env srv (OnSave socket (Some id) content title) in
  exists e',
    Entry.findById id (entries (db out.1)) = Some e'
    /\ Entry.updatedAt e' = now env
    /\ Entry.content e' = content
    /\ Entry.title e' = trim title
    /\ sameOtherFields e e'
    /\ out.2 = [(ToRoom id, synced id (Entry.updatedAt e') "Entry saved successfully.")]
    /\ sockets out.1 = sockets srv
    /\ rooms out.1 = rooms srv
    /\ (forall s, delivered out.1 (ToRoom id) s = true <-> inRoom srv s id = true)
    /\ (inRoom srv socket id = true -> delivered out.1 (ToRoom id) socket = true).
Proof.
  intros Hsock Hid Hfind Hown Hw. unfold step. rewrite Hsock. unfold onSave.
  rewrite (truthy_id_Some id Hid). cbn [negb]. unfold Entry.findOneAndUpdate.
  rewrite Hw, (findOne_Some _ _ _ _ Hfind Hown). simpl.
  destruct (findById_id _ _ _ Hfind) as [_ Hid'].
  eexists. split; [apply findById_Some; [apply lookup_insert_eq | exact Hid'] |].
  unfold sameOtherFields. simpl. rewrite Hid'.
  repeat split; try done; intros H; exact H.
Qed.

Section Authentication.

Variable jwt_verify : Time -> string -> option ObjectId.

Lemma authenticate_bad (env : Env) (users : gmap ObjectId User.doc)
    (token : option string) :
  badToken jwt_verify env users token ->
  exists reason, authenticate jwt_verify env users token = Throw reason.
Proof.
  unfold authenticate.
  intros [Hf | [(t & -> & Hv) | (t & id & -> & Hv & Hu)]].
  - destruct token as [t|]; [| eexists; reflexivity].
    rewrite Hf. eexists; reflexivity.
  - destruct (negb (truthy_id (Some t))); [eexists; reflexivity |].
    rewrite Hv. eexists; reflexivity.
  - destruct (negb (truthy_id (Some t))); [eexists; reflexivity |].
    rewrite Hv, Hu. eexists; reflexivity.
Qed.

(** An accepted handshake is one whose token verifies to a user of
    the database. *)
Lemma authenticate_ok (env : Env) (users : gmap ObjectId User.doc)
    (token : option string) (id : ObjectId) :
  authenticate jwt_verify env users token = Return id ->
  exists t, token = Some t /\ t <> "" /\ jwt_verify (now env) t = Some id
            /\ is_Some (User.findById id users).
Proof.
  unfold authenticate. destruct token as [t|]; [| discriminate].
  unfold truthy_id. case_bool_decide as Ht; [discriminate |]. simpl.
  destruct (jwt_verify (now env) t) as [i|] eqn:Hv; [| discriminate].
  destruct (User.findById i users) eqn:Hu; [| discriminate].
  intros [= <-]. exists t. rewrite Hu. repeat split; eauto.
Qed.

(** The handlers of a socket that was not accepted do nothing. *)
Lemma step_not_accepted (env : Env) (srv : Server) (ev : ClientEvent) :
  sockets srv !! sender ev = None -> inSession ev ->
  step jwt_verify env srv ev = (srv, []).
Proof.
  destruct ev; simpl; try contradiction; intros -> _; reflexivity.
Qed.

Lemma step_refused (env : Env) (srv : Server) (socket : SocketId)
    (token : option string) :
  badToken jwt_verify env (users (db srv)) token ->
  exists reason,
    step jwt_verify env srv (Handshake socket token)
    = (srv, [(ToSocket socket, connect_error reason)]).
Proof.
  intros H. destruct (authenticate_bad _ _ _ H) as [reason Hr].
  exists reason. unfold step. now rewrite Hr.
Qed.

(** No event changes the users, and an event changes the [userId] of
    no socket but its sender. *)
Lemma step_users (env : Env) (srv : Server) (ev : ClientEvent) :
  users (db (step jwt_verify env srv ev).1) = users (db srv).
Proof.
  destruct ev as [s tok | s eid | s eid p | s eid c t | s]; simpl.
  - now destruct (authenticate _ _ _ _).
  - destruct (sockets srv !! s); [| reflexivity]. unfold onJoinEntry.
    destruct eid; [| reflexivity]. now destruct (truthy_id _).
  - destruct (sockets srv !! s); [| reflexivity]. unfold onTyping.
    destruct eid; [| reflexivity]. now destruct (truthy_id _).
  - destruct (sockets srv !! s); [| reflexivity]. unfold onSave.
    destruct eid; [| reflexivity]. destruct (negb (truthy_id _)); [reflexivity |].
    destruct (Entry.findOneAndUpdate _ _ _ _ _ _ _) as [|[coll [e|]]]; reflexivity.
  - reflexivity.
Qed.

Lemma step_other_socket (env : Env) (srv : Server) (ev : ClientEvent)
    (socket : SocketId) :
  sender ev <> socket ->
  sockets (step jwt_verify env srv ev).1 !! socket = sockets srv !! socket.
Proof.
  destruct ev as [s tok | s eid | s eid p | s eid c t | s]; simpl; intros Hne.
  - destruct (authenticate _ _ _ _); [reflexivity |]. simpl.
    now rewrite lookup_insert_ne.
  - destruct (sockets srv !! s); [| reflexivity]. unfold onJoinEntry.
    destruct eid; [| reflexivity]. now destruct (truthy_id _).
  - destruct (sockets srv !! s); [| reflexivity]. unfold onTyping.
    destruct eid; [| reflexivity]. now destruct (truthy_id _).
  - destruct (sockets srv !! s); [| reflexivity]. unfold onSave.
    destruct eid; [| reflexivity]. destruct (negb (truthy_id _)); [reflexivity |].
    destruct (Entry.findOneAndUpdate _ _ _ _ _ _ _) as [|[coll [e|]]]; reflexivity.
  - now rewrite lookup_delete_ne.
Qed.

(** A socket that never authenticates is never accepted, and the
    server goes through the trace as if the socket had sent nothing. *)
Lemma run_never_authenticated (socket : SocketId)
    (trace : list (Env * ClientEvent)) (srv : Server) :
  sockets srv !! socket = None ->
  neverAuthenticates jwt_verify (users (db srv)) socket trace ->
  sockets (run jwt_verify srv trace).1 !! socket = None
  /\ (run jwt_verify srv trace).1
     = (run jwt_verify srv (withoutSocket socket trace)).1.
Proof.
  revert srv. induction trace as [|[env ev] trace IH]; intros srv Hs Hall.
  - now split.
  - apply Forall_cons in Hall as [Hev Hall]. simpl in Hev.
    simpl. destruct (decide (sender ev = socket)) as [Heq | Hne].
    + rewrite (bool_decide_eq_true_2 _ Heq). simpl.
      assert (Hstep : (step jwt_verify env srv ev).1 = srv).
      { specialize (Hev Heq). destruct ev as [s tok | s eid | s eid p | s eid c t | s];
          simpl in Heq; subst s; try contradiction.
        - destruct (step_refused env srv socket tok Hev) as [r ->]. reflexivity.
        - now rewrite step_not_accepted.
        - now rewrite step_not_accepted.
        - now rewrite step_not_accepted. }
      destruct (step jwt_verify env srv ev) as [srv1 out1]. simpl in Hstep. subst srv1.
      specialize (IH srv Hs Hall).
      destruct (run jwt_verify srv trace) as [srv2 out2]. exact IH.
    + rewrite (bool_decide_eq_false_2 _ Hne). simpl.
      pose proof (step_users env srv ev) as Hu.
      pose proof (step_other_socket env srv ev socket Hne) as Hk.
      destruct (step jwt_verify env srv ev) as [srv1 out1]. simpl in Hu, Hk.
      assert (Hs1 : sockets srv1 !! socket = None) by now rewrite Hk.
      rewrite <- Hu in Hall. specialize (IH srv1 Hs1 Hall).
      destruct (run jwt_verify srv1 trace) as [srv2 out2].
      destruct (run jwt_verify srv1 (withoutSocket socket trace)) as [srv3 out3].
      exact IH.
Qed.

(** C6.  A handshake with no token, with a token that does not verify
    (invalid or expired) or with the token of a user that no longer
    exists is refused: the server is unchanged, the socket is not
    accepted, and the client is sent a [connect_error] with a reason.
    A [joinEntry], [typing] or [save] from a socket that is not
    accepted changes nothing and emits nothing.  Over a whole trace: a
    socket that is not connected at the start and whose handshakes all
    fail is never accepted, and the server ends in the state it would
    be in had that socket sent nothing.  Conversely a socket is
    accepted only on a token that verifies to an existing user. *)
Theorem unauthenticated_refused (env : Env) (srv : Server) (socket : SocketId)
    (token : option string) :
  badToken jwt_verify env (users (db srv)) token ->
  (exists reason,
     step jwt_verify env srv (Handshake socket token)
     = (srv, [(ToSocket socket, connect_error reason)]))
  /\ (forall env' srv' ev,
        sockets srv' !! sender ev = None -> inSession ev ->
        step jwt_verify env' srv' ev = (srv', []))
  /\ (forall trace,
        sockets srv !! socket = None ->
        neverAuthenticates jwt_verify (users (db srv)) socket trace ->
        sockets (run jwt_verify srv trace).1 !! socket = None
        /\ (run jwt_verify srv trace).1
           = (run jwt_verify srv (withoutSocket socket trace)).1)
  /\ (forall env' srv' s tok,
        sockets srv' !! s = None ->
        is_Some (sockets (step jwt_verify env' srv' (Handshake s tok)).1 !! s) ->
        exists t id, tok = Some t /\ jwt_verify (now env') t = Some id
                     /\ is_Some (User.findById id (users (db srv')))).
Proof.
  intros Hbad. split; [| split; [| split]].
  - now apply step_refused.
  - intros env' srv' ev. apply step_not_accepted.
  - intros trace. apply run_never_authenticated.
  - intros env' srv' s tok Hnone. unfold step.
    destruct (authenticate jwt_verify env' (users (db srv')) tok) as [m | id] eqn:Ha.
    + simpl. rewrite Hnone. intros [? [=]].
    + intros _. destruct (authenticate_ok _ _ _ _ Ha) as (t & -> & _ & Hv & Hu).
      now exists t, id.
Qed.

End Authentication.

(* ================================================================== *)
(** * versionController                                                *)
(* ================================================================== *)

Example createFromEntry_diary :
  Version.createFromEntry (accepting 12 "v1") 0 (Some diary) (js "auto") []
  = Return ([diaryV1], diaryV1).
Proof. vm_compute. reflexivity. Qed.

Example createFromEntry_restore_source :
  exists d, Version.createFromEntry (accepting 12 "v1") 0 (Some diary) (js "restore") []
            = Return ([d], d)
            /\ Mongoose.prop d "source" = Some (Mongoose.VStr (js "restore"))
            /\ Mongoose.prop d "tags" = Some (Mongoose.VArr (Entry.tags diary)).
Proof. eexists. vm_compute. repeat split. Qed.

Lemma insertNewestFirst_perm (d : Mongoose.Document) (l : list Mongoose.Document) :
  Permutation (d :: l) (Mongoose.insertNewestFirst d l).
Proof.
  induction l as [|x l IH]; simpl; [reflexivity |].
  destruct (Mongoose.createdAt x <=? Mongoose.createdAt d); [reflexivity |].
  rewrite perm_swap. now apply perm_skip.
Qed.

Lemma sortNewestFirst_perm (l : list Mongoose.Document) :
  Permutation l (Mongoose.sortNewestFirst l).
Proof.
  induction l as [|x l IH]; simpl; [reflexivity |].
  rewrite <- insertNewestFirst_perm. now apply perm_skip.
Qed.

Lemma insertNewestFirst_sorted (d : Mongoose.Document) (l : list Mongoose.Document) :
  newestFirst l -> newestFirst (Mongoose.insertNewestFirst d l).
Proof.
  unfold newestFirst. induction l as [|x l IH]; simpl; intros Hs.
  - repeat constructor.
  - destruct (Z.leb_spec (Mongoose.createdAt x) (Mongoose.createdAt d)) as [Hle | Hgt].
    + constructor; [exact Hs | now constructor].
    + apply Sorted_inv in Hs as [Hs Hhd]. constructor; [now apply IH |].
      destruct l as [|y l]; simpl.
      * constructor. lia.
      * destruct (Mongoose.createdAt y <=? Mongoose.createdAt d);
          constructor; [lia | now inversion Hhd].
Qed.

Lemma sortNewestFirst_sorted (l : list Mongoose.Document) :
  newestFirst (Mongoose.sortNewestFirst l).
Proof.
  induction l as [|x l IH]; simpl; [constructor |].
  now apply insertNewestFirst_sorted.
Qed.

Section Listing.

Variable Version : Mongoose.Model.
Variable strictQuery : bool.

(** A listing for an entry that does not exist, or that the requesting
    user does not own, is answered 404 with no versions. *)
Lemma getEntryVersions_not_found (u : User.doc) (entryId : ObjectId) (db : DB) :
  Entry.findOne entryId (User._id u) (entries db) = None ->
  Http.asyncHandler (versionController.getEntryVersions Version strictQuery u entryId) db
  = (db, Http.mkResponse 404
           (Http.ErrorJson "Entry not found or you do not have permission to view it.")).
Proof.
  intros H. unfold versionController.getEntryVersions. unfold_handler.
  simpl. rewrite H. simpl. reflexivity.
Qed.

(** A listing that is answered with versions gives them newest
    first. *)
Lemma getEntryVersions_newest_first (u : User.doc) (entryId : ObjectId) (db : DB)
    (l : list Mongoose.Document) :
  Http.body
    (Http.asyncHandler (versionController.getEntryVersions Version strictQuery u entryId) db).2
  = Http.VersionsJson l ->
  newestFirst l.
Proof.
  unfold versionController.getEntryVersions. unfold_handler. simpl.
  destruct (Entry.findOne _ _ _); simpl; [| discriminate].
  destruct (Mongoose.find _ _ _ _) as [m | found]; simpl; [discriminate |].
  intros [= <-]. apply sortNewestFirst_sorted.
Qed.

End Listing.

(** The filter [{ entryId }] against the model of models/Version.js,
    whose schema has no [entryId] path: with [strictQuery] on the
    condition is dropped and every version matches ... *)
Lemma find_entryId_strict (entryId : ObjectId) (coll : list Mongoose.Document) :
  Mongoose.find Version.Version true [("entryId", Mongoose.VOid entryId)] coll
  = Return coll.
Proof.
  unfold Mongoose.find.
  replace (Mongoose.castFilter Version.Version true [("entryId", Mongoose.VOid entryId)])
    with (Some ([] : Mongoose.object)) by (vm_compute; reflexivity).
  f_equal. induction coll as [|x l IH]; simpl; [reflexivity |]. now rewrite IH.
Qed.

(** ... and with [strictQuery] off it selects the documents that hold
    an [entryId] path, which no document built from that schema
    does. *)
Lemma find_entryId_not_strict (entryId : ObjectId) (coll : list Mongoose.Document) :
  Mongoose.find Version.Version false [("entryId", Mongoose.VOid entryId)] coll
  = Return (List.filter
              (fun d => bool_decide
                          (Mongoose.prop d "entryId" = Some (Mongoose.VOid entryId)))
              coll).
Proof.
  unfold Mongoose.find.
  replace (Mongoose.castFilter Version.Version false [("entryId", Mongoose.VOid entryId)])
    with (Some [("entryId", Mongoose.VOid entryId)]) by (vm_compute; reflexivity).
  f_equal. apply filter_ext. intros d. unfold Mongoose.matches, Mongoose.prop. simpl.
  now rewrite andb_true_r.
Qed.

(** Under [strict], a document holds only paths of its schema. *)
Lemma build_strict (S : list (string * Mongoose.SchemaType)) (raw : Mongoose.object)
    (d : gmap string Mongoose.value) (p : string) :
  Mongoose.build S raw = Some d -> ~ In p (List.map fst S) -> d !! p = None.
Proof.
  revert d. induction S as [|[q t] S IH]; simpl; intros d Hb Hp.
  - injection Hb as <-. apply lookup_empty.
  - destruct (Mongoose.build S raw) as [rest|]; [| discriminate].
    assert (Hrest : rest !! p = None) by (apply IH; tauto).
    assert (Hq : q <> p) by tauto.
    destruct (Mongoose.get raw q) as [v|].
    + destruct (Mongoose.cast t v); [| discriminate].
      injection Hb as <-. now rewrite lookup_insert_ne.
    + destruct (Mongoose.default t); injection Hb as <-;
        [now rewrite lookup_insert_ne | exact Hrest].
Qed.

Lemma getEntryVersions_strict (u : User.doc) (entryId : ObjectId) (db : DB)
    (e : Entry.doc) :
  Entry.findOne entryId (User._id u) (entries db) = Some e ->
  Http.asyncHandler
    (versionController.getEntryVersions Version.Version true u entryId) db
  = (db, Http.mkResponse 200
           (Http.VersionsJson (Mongoose.sortNewestFirst (versions db)))).
Proof.
  intros H. unfold versionController.getEntryVersions. unfold_handler.
  simpl. rewrite H. simpl. rewrite find_entryId_strict. simpl. now rewrite db_eta.
Qed.

Lemma getEntryVersions_not_strict (u : User.doc) (entryId : ObjectId) (db : DB)
    (e : Entry.doc) :
  Entry.findOne entryId (User._id u) (entries db) = Some e ->
  Http.asyncHandler
    (versionController.getEntryVersions Version.Version false u entryId) db
  = (db, Http.mkResponse 200
           (Http.VersionsJson
              (Mongoose.sortNewestFirst
                 (List.filter
                    (fun d => bool_decide
                                (Mongoose.prop d "entryId" = Some (Mongoose.VOid entryId)))
                    (versions db))))).
Proof.
  intros H. unfold versionController.getEntryVersions. unfold_handler.
  simpl. rewrite H. simpl. rewrite find_entryId_not_strict. simpl. now rewrite db_eta.
Qed.

(** C7.  The listing does not return the versions of the entry.  In
    the sample database the diary has one version.  Its owner's
    listing is answered 200 with no version when [strictQuery] is off,
    and with the versions of every entry, another user's among them,
    when it is on. *)
Theorem getEntryVersions_not_the_entrys :
  versionsOf "e1" (versions sampleDB) = [diaryV1]
  /\ Http.asyncHandler
       (versionController.getEntryVersions Version.Version false alice "e1") sampleDB
     = (sampleDB, Http.mkResponse 200 (Http.VersionsJson []))
  /\ Http.asyncHandler
       (versionController.getEntryVersions Version.Version true alice "e1") sampleDB
     = (sampleDB, Http.mkResponse 200 (Http.VersionsJson [notesV1; diaryV1])).
Proof. repeat split; vm_compute; reflexivity. Qed.

(** ** Restore *)

(** What [Version.create] is handed by the restore: the paths [title]
    and [content] only.  Built with the schema of models/Version.js it
    has the default source, ["auto"], and the default tags, none; it
    lacks the required [entry] and [user]; and the write is
    rejected. *)
Lemma snapshot_of_restore (entry : Entry.doc) :
  exists d,
    Mongoose.build Version.versionSchema (versionController.snapshotOf entry) = Some d
    /\ d !! "source" = Some (Mongoose.VStr (js "auto"))
    /\ d !! "tags" = Some (Mongoose.VArr [])
    /\ d !! "entry" = None
    /\ d !! "user" = None.
Proof. eexists. split; [reflexivity |]. repeat split. Qed.

Lemma snapshot_rejected (env : Env) (k : nat) (entry : Entry.doc)
    (coll : list Mongoose.Document) :
  Mongoose.create Version.Version env k (versionController.snapshotOf entry) coll
  = Throw "Version validation failed".
Proof. reflexivity. Qed.

(** With a model that has the [entryId] path, the snapshot is written,
    and it is an ["auto"] version without tags. *)
Lemma snapshot_by_entryId (env : Env) (entry : Entry.doc)
    (coll : list Mongoose.Document) :
  trim (Entry.title entry) <> [] ->
  Entry.content entry <> [] -> writeFails env 0 = false ->
  exists d,
    Mongoose.create VersionByEntryId env 0 (versionController.snapshotOf entry) coll
    = Return (coll ++ [d], d)
    /\ Mongoose.prop d "source" = Some (Mongoose.VStr (js "auto"))
    /\ Mongoose.prop d "tags" = Some (Mongoose.VArr []).
Proof.
  intros Ht Hc Hw. unfold Mongoose.create.
  change (Mongoose.build (Mongoose.schema VersionByEntryId)
            (versionController.snapshotOf entry))
    with (Some (list_to_map
                  [ ("entryId", Mongoose.VOid (Entry._id entry));
                    ("title", Mongoose.VStr (trim (Entry.title entry)));
                    ("content", Mongoose.VStr (Entry.content entry));
                    ("tags", Mongoose.VArr []);
                    ("source", Mongoose.VStr (js "auto")) ]
                : gmap string Mongoose.value)).
  set (d := list_to_map _). cbv beta iota.
  assert (Hv : Mongoose.validate VersionByEntryId d = true).
  { subst d. destruct (trim (Entry.title entry)) as [|c t]; [congruence |].
    destruct (Entry.content entry) as [|c' t']; [congruence |].
    vm_compute. reflexivity. }
  rewrite Hv, Hw. simpl. eexists. split; [reflexivity |]. split; reflexivity.
Qed.

(** C1.  The restore does not keep the pre-restore state as a
    [restore] version.  With the model of models/Version.js, restoring
    the diary to its stored version is answered 500 and changes
    nothing: a version document has no [entryId] to read.  Had that
    check passed, the snapshot would still be rejected for every
    entry, since it lacks the required [entry] and [user].  And with a
    model keyed by [entryId], where the restore does succeed, the one
    version it adds has the source ["auto"], not ["restore"], and no
    tags, while the diary had one. *)
Theorem restoreVersion_snapshot_not_restore_sourced :
  Http.asyncHandler
    (versionController.restoreVersion Version.Version (accepting 20 "v3") alice "e1" "v1")
    sampleDB
  = (sampleDB,
     Http.mkResponse 500
       (Http.ErrorJson "Cannot read properties of undefined (reading 'toString')"))
  /\ (forall env k entry coll,
        Mongoose.create Version.Version env k (versionController.snapshotOf entry) coll
        = Throw "Version validation failed")
  /\ (let out :=
        Http.asyncHandler
          (versionController.restoreVersion VersionByEntryId (accepting 20 "v3")
             alice "e1" "v1")
          keyedDB in
      Http.status out.2 = 200%nat
      /\ Entry.findById "e1" (entries out.1)
         = Some (Entry.mk "e1" "u1" (js "Sunday") (js "sun") None [js "weather"] 10 20)
      /\ exists snap,
           versions out.1 = [diaryOld; snap]
           /\ Mongoose.prop snap "title" = Some (Mongoose.VStr (js "Monday"))
           /\ Mongoose.prop snap "content" = Some (Mongoose.VStr (js "rain"))
           /\ Mongoose.prop snap "source" = Some (Mongoose.VStr (js "auto"))
           /\ Mongoose.prop snap "tags" = Some (Mongoose.VArr [])
           /\ Entry.tags diary = [js "weather"]).
Proof.
  split; [vm_compute; reflexivity |]. split; [intros; apply snapshot_rejected |].
  cbv zeta. split; [vm_compute; reflexivity |]. split; [vm_compute; reflexivity |].
  eexists. split; [vm_compute; reflexivity |]. repeat split.
Qed.


Section Restore.

Variable strictQuery : bool.
Variable jwt_verify : Time -> string -> option ObjectId.


End Restore.

(** ** The scenario of the specification *)

Lemma createJournal_draft (env : Env) (u : User.doc) (content0 : jsstring) (db : DB) :
  content0 <> [] -> writeFails env 0 = false ->
  let e0 := Entry.mk (newId env) (User._id u) (js "Draft") content0 None []
                     (now env) (now env) in
  Http.asyncHandler
    (journalController.createJournal env u (JStr (js "Draft")) (JStr content0)) db
  = (mkDB (users db) (<[newId env := e0]> (entries db)) (versions db),
     Http.mkResponse 201 (Http.EntryJson e0)).
Proof.
  intros Hc Hw. unfold journalController.createJournal. unfold_handler.
  cbn [truthy journalController.castString].
  rewrite (bool_decide_eq_false_2 _ Hc).
  change (negb (negb (bool_decide (js "Draft" = []))) || negb (negb false))
    with false.
  cbv beta iota. unfold Entry.save, Entry.create, Entry.set_title, Entry.set_content,
    Entry.assign. cbn [Entry.isNew orb Entry.cur Entry.modifiedPaths Entry.invalidPaths].
  change (trim (js "Draft")) with (js "Draft").
  unfold Entry.validate. cbn [Entry.invalidPaths Entry.cur Entry.with_content
    Entry.with_title Entry.title Entry.content Entry.mood Entry._id Entry.user
    Entry.tags Entry.createdAt Entry.updatedAt].
  rewrite (bool_decide_eq_false_2 (content0 = []) Hc).
  change (bool_decide ([] ≠ [])) with false.
  change (bool_decide (js "Draft" = [])) with false.
  change ((100 <? length (js "Draft"))%nat) with false.
  cbv beta iota. rewrite Hw. reflexivity.
Qed.

(** An accepted save, in full. *)
Lemma step_save_ok (jwt_verify : Time -> string -> option ObjectId) (env : Env)
    (srv : socketServer.Server) (socket : socketServer.SocketId) (userId : ObjectId)
    (id : string) (content title : jsstring) (e : Entry.doc) :
  sockets srv !! socket = Some userId ->
  id <> "" ->
  Entry.findById id (entries (db srv)) = Some e ->
  Entry.user e = userId ->
  writeFails env 0 = false ->
  let e' := Entry.with_updatedAt (now env)
              (Entry.with_title (trim title) (Entry.with_content content e)) in
  step jwt_verify env srv (OnSave socket (Some id) content title)
  = (mkServer (mkDB (users (db srv)) (<[id := e']> (entries (db srv))) (versions (db srv)))
              (sockets srv) (rooms srv),
     [(ToRoom id, synced id (now env) "Entry saved successfully.")]).
Proof.
  intros Hsock Hid Hfind Hown Hw. unfold step. rewrite Hsock. unfold onSave.
  rewrite (truthy_id_Some id Hid). cbn [negb]. unfold Entry.findOneAndUpdate.
  rewrite Hw, (findOne_Some _ _ _ _ Hfind Hown).
  destruct (findById_id _ _ _ Hfind) as [_ Hid']. simpl. now rewrite Hid'.
Qed.

(** A restore that names a version the collection does not hold is
    answered 404 and changes nothing. *)
Lemma restoreVersion_no_version (Version : Mongoose.Model) (env : Env) (u : User.doc)
    (entryId versionId : ObjectId) (entry : Entry.doc) (db : DB) :
  Entry.findById entryId (entries db) = Some entry ->
  Entry.user entry = User._id u ->
  Mongoose.findById versionId (versions db) = None ->
  Http.asyncHandler (versionController.restoreVersion Version env u entryId versionId) db
  = (db, Http.mkResponse 404
           (Http.ErrorJson "Version to restore not found for this entry.")).
Proof.
  intros Hentry Hown Hversion. unfold versionController.restoreVersion.
  unfold_handler. simpl. rewrite Hentry. simpl.
  rewrite (bool_decide_eq_true_2 _ Hown). simpl. rewrite Hversion. reflexivity.
Qed.

Section Scenario.

Variable Version : Mongoose.Model.
Variable strictQuery : bool.
Variable jwt_verify : Time -> string -> option ObjectId.

(** C2, as amended.  In the scenario (an entry is created with the
    title "Draft" and a content that is not empty, and then saved
    three times over the owner's socket with the contents "v1", "v2",
    "v3"), the creation is answered 201 and each save is answered with
    a [synced] broadcast to the entry's room, but no save creates a
    version: the versions collection is what it was before, and the
    entry holds the title "Draft" and the content "v3".  If there was
    no version before, there is none to restore to: a restore of the
    entry, whatever version it names, is answered with an error, 404
    or 500 and never 200, emits nothing and changes nothing. *)
Theorem draft_scenario_saves_make_no_version (srv0 : socketServer.Server)
    (u : User.doc) (socket : socketServer.SocketId) (id : ObjectId)
    (t0 t1 t2 t3 : Time) (content0 : jsstring) :
  sockets srv0 !! socket = Some (User._id u) ->
  id <> "" ->
  content0 <> [] ->
  let out :=
    server.serve Version strictQuery jwt_verify srv0
      (draftScenario u socket id t0 t1 t2 t3 content0) in
  versions (db out.1) = versions (db srv0)
  /\ out.2 =
     [ server.mkOutput
         (Some (Http.mkResponse 201
                  (Http.EntryJson
                     (Entry.mk id (User._id u) (js "Draft") content0 None [] t0 t0))))
         [];
       server.mkOutput None [(ToRoom id, synced id t1 "Entry saved successfully.")];
       server.mkOutput None [(ToRoom id, synced id t2 "Entry saved successfully.")];
       server.mkOutput None [(ToRoom id, synced id t3 "Entry saved successfully.")] ]
  /\ Entry.findById id (entries (db out.1))
     = Some (Entry.mk id (User._id u) (js "Draft") (js "v3") None [] t0 t3)
  /\ (versions (db srv0) = [] ->
      forall env versionId,
        let restored :=
          server.handle Version strictQuery jwt_verify env out.1
            (server.Http (server.POST_restore u id versionId)) in
        restored.1 = out.1
        /\ server.emitted restored.2 = []
        /\ exists res message,
             server.response restored.2 = Some res
             /\ Http.body res = Http.ErrorJson message
             /\ (Http.status res = 404%nat \/ Http.status res = 500%nat)).
Proof.
  intros Hsock Hid Hc. unfold draftScenario.
  cbn [server.serve server.handle server.route].
  rewrite (createJournal_draft (accepting t0 id) u content0 (db srv0) Hc eq_refl).
  cbn [accepting newId now].
  set (e0 := Entry.mk id (User._id u) (js "Draft") content0 None [] t0 t0).
  set (srv1 := mkServer _ (sockets srv0) (rooms srv0)).
  assert (H1 : Entry.findById id (entries (db srv1)) = Some e0).
  { apply findById_Some; [apply lookup_insert_eq | reflexivity]. }
  rewrite (step_save_ok jwt_verify (accepting t1 "") srv1 socket (User._id u) id
             (js "v1") (js "Draft") e0 Hsock Hid H1 eq_refl eq_refl).
  cbn [accepting now]. change (trim (js "Draft")) with (js "Draft").
  set (e1 := Entry.with_updatedAt t1 _).
  set (srv2 := mkServer _ (sockets srv1) (rooms srv1)).
  assert (H2 : Entry.findById id (entries (db srv2)) = Some e1).
  { apply findById_Some; [apply lookup_insert_eq | reflexivity]. }
  rewrite (step_save_ok jwt_verify (accepting t2 "") srv2 socket (User._id u) id
             (js "v2") (js "Draft") e1 Hsock Hid H2 eq_refl eq_refl).
  cbn [accepting now]. change (trim (js "Draft")) with (js "Draft").
  set (e2 := Entry.with_updatedAt t2 _).
  set (srv3 := mkServer _ (sockets srv2) (rooms srv2)).
  assert (H3 : Entry.findById id (entries (db srv3)) = Some e2).
  { apply findById_Some; [apply lookup_insert_eq | reflexivity]. }
  rewrite (step_save_ok jwt_verify (accepting t3 "") srv3 socket (User._id u) id
             (js "v3") (js "Draft") e2 Hsock Hid H3 eq_refl eq_refl).
  cbn [accepting now]. change (trim (js "Draft")) with (js "Draft").
  set (e3 := Entry.with_updatedAt t3 _).
  set (srv4 := mkServer _ (sockets srv3) (rooms srv3)).
  assert (H4 : Entry.findById id (entries (db srv4)) = Some e3).
  { apply findById_Some; [apply lookup_insert_eq | reflexivity]. }
  cbn [fst snd]. split; [reflexivity |]. split; [reflexivity |].
  split; [exact H4 |].
  intros Hnone env versionId. cbv zeta. unfold server.handle, server.route.
  rewrite (restoreVersion_no_version Version env u id versionId e3 (db srv4) H4 eq_refl).
  - cbn [fst snd server.response server.emitted].
    split; [reflexivity |]. split; [reflexivity |].
    eexists. eexists. split; [reflexivity |]. split; [reflexivity |]. now left.
  - change (versions (db srv4)) with (versions (db srv0)). now rewrite Hnone.
Qed.

End Scenario.

Lemma draft_scenario_saves_make_no_version_witness :
  let out :=
    server.serve Version.Version false sampleJwt freshServer
      (draftScenario alice "s1" "e9" 1 2 3 4 (js "v0")) in
  versions (db out.1) = versions (db freshServer).
Proof.
  exact (proj1 (draft_scenario_saves_make_no_version Version.Version false sampleJwt
                  freshServer alice "s1" "e9" 1 2 3 4 (js "v0")
                  eq_refl ltac:(discriminate) ltac:(discriminate))).
Defined.

(** C2 as stated does not hold: after the scenario and a restore, the
    entry has no version, not four, and its content is "v3", not
    "v1". *)
Lemma draft_scenario_no_four_versions :
  let out :=
    server.serve Version.Version false sampleJwt freshServer
      (draftScenario alice "s1" "e9" 1 2 3 4 (js "v0")
         ++ [(accepting 5 "v9",
              server.Http (server.POST_restore alice "e9" "v1"))]) in
  length (versions (db out.1)) = 0%nat
  /\ versionsOf "e9" (versions (db out.1)) = []
  /\ (Entry.content <$> Entry.findById "e9" (entries (db out.1))) = Some (js "v3")
  /\ js "v3" <> js "v1"
  /\ (Http.status <$> (last out.2 ≫= server.response)) = Some 404%nat.
Proof. cbv zeta. repeat split; try (vm_compute; reflexivity). discriminate. Qed.

(* ================================================================== *)
(** * Stored titles are trimmed                                        *)
(* ================================================================== *)

Lemma set_title_trimmed (v : option jsstring) (d : Entry.live) :
  trim (Entry.title (Entry.cur d)) = Entry.title (Entry.cur d) ->
  trim (Entry.title (Entry.cur (Entry.set_title v d)))
  = Entry.title (Entry.cur (Entry.set_title v d)).
Proof.
  intros H. unfold Entry.set_title, Entry.assign. destruct v as [s|]; [| exact H].
  destruct (Entry.isNew d || _); [| exact H]. simpl. apply trim_idempotent.
Qed.

Lemma set_content_title (v : option jsstring) (d : Entry.live) :
  Entry.title (Entry.cur (Entry.set_content v d)) = Entry.title (Entry.cur d).
Proof.
  unfold Entry.set_content, Entry.assign. destruct v as [s|]; [| reflexivity].
  now destruct (Entry.isNew d || _).
Qed.

Lemma save_title (env : Env) (k : nat) (d : Entry.live)
    (coll coll' : gmap ObjectId Entry.doc) (e' : Entry.doc) :
  Entry.save env k d coll = Return (coll', e') ->
  Entry.title e' = Entry.title (Entry.cur d)
  /\ (coll' = coll \/ coll' = <[Entry._id e' := e']> coll).
Proof.
  unfold Entry.save. destruct (Entry.validate d); [discriminate |].
  assert (Ht : Entry.title (Entry.stamp env (Entry.preSave d))
               = Entry.title (Entry.cur d)).
  { unfold Entry.stamp, Entry.preSave.
    destruct (Entry.isModified "tags" d); simpl;
      destruct (Entry.isNew d); simpl; try reflexivity;
      case_bool_decide; reflexivity. }
  destruct (negb (Entry.isNew d) && _).
  - intros [= <- <-]. split; [exact Ht | now left].
  - destruct (writeFails env k); [discriminate |].
    intros [= <- <-]. split; [exact Ht | now right].
Qed.

Lemma titlesTrimmed_insert (coll : gmap ObjectId Entry.doc) (id : ObjectId)
    (e : Entry.doc) :
  titlesTrimmed coll -> trim (Entry.title e) = Entry.title e ->
  titlesTrimmed (<[id := e]> coll).
Proof.
  intros Hc He j x. destruct (decide (id = j)) as [<- | Hne].
  - rewrite lookup_insert_eq. now intros [= <-].
  - rewrite lookup_insert_ne by exact Hne. apply Hc.
Qed.

Lemma titlesTrimmed_save (env : Env) (k : nat) (d : Entry.live)
    (coll coll' : gmap ObjectId Entry.doc) (e' : Entry.doc) :
  Entry.save env k d coll = Return (coll', e') ->
  trim (Entry.title (Entry.cur d)) = Entry.title (Entry.cur d) ->
  titlesTrimmed coll -> titlesTrimmed coll'.
Proof.
  intros Hs Hd Hc. destruct (save_title _ _ _ _ _ _ Hs) as [Ht [-> | ->]];
    [exact Hc |].
  apply titlesTrimmed_insert; [exact Hc | now rewrite Ht].
Qed.

Lemma titlesTrimmed_found (coll : gmap ObjectId Entry.doc) (id : ObjectId)
    (e : Entry.doc) :
  titlesTrimmed coll -> Entry.findById id coll = Some e ->
  trim (Entry.title e) = Entry.title e.
Proof. intros Hc Hf. apply (Hc id). now apply findById_id in Hf. Qed.

Section Invariant.

Variable Version : Mongoose.Model.
Variable strictQuery : bool.
Variable jwt_verify : Time -> string -> option ObjectId.

(** No request leaves an untrimmed title in the entries. *)
Lemma route_titlesTrimmed (env : Env) (r : server.Request) (db : DB) :
  titlesTrimmed (entries db) ->
  titlesTrimmed
    (entries (Http.asyncHandler (server.route Version strictQuery env r) db).1).
Proof.
  intros Hc. destruct r as [u t c | u id | u id t c | u id | u eid | u eid vid | u eid vid];
    unfold server.route.
  - unfold journalController.createJournal. unfold_handler.
    destruct (negb (truthy t) || negb (truthy c)); simpl; [exact Hc |].
    destruct (Entry.save _ _ _ _) as [m | [coll' e']] eqn:Hs; simpl; [exact Hc |].
    apply (titlesTrimmed_save _ _ _ _ _ _ Hs); [| exact Hc].
    unfold Entry.create. rewrite set_content_title. now apply set_title_trimmed.
  - unfold journalController.getJournalById. unfold_handler. simpl.
    destruct (Entry.findById _ _); simpl; [| exact Hc].
    now case_bool_decide.
  - unfold journalController.updateJournal. unfold_handler. simpl.
    destruct (Entry.findById _ _) as [e|] eqn:Hf; simpl; [| exact Hc].
    case_bool_decide; simpl; [| exact Hc].
    destruct (Entry.save _ _ _ _) as [m | [coll' e']] eqn:Hs; simpl; [exact Hc |].
    apply (titlesTrimmed_save _ _ _ _ _ _ Hs); [| exact Hc].
    rewrite set_content_title. apply set_title_trimmed.
    apply (titlesTrimmed_found _ _ _ Hc Hf).
  - unfold journalController.deleteJournal, Entry.deleteOne. unfold_handler. simpl.
    destruct (Entry.findById _ _) as [e|] eqn:Hf; simpl; [| exact Hc].
    case_bool_decide; simpl; [| exact Hc].
    destruct (writeFails env 0); simpl; [exact Hc |].
    intros j x Hj. apply lookup_delete_Some in Hj as [_ Hj]. now apply (Hc j).
  - unfold versionController.getEntryVersions. unfold_handler. simpl.
    destruct (Entry.findOne _ _ _); simpl; [| exact Hc].
    now destruct (Mongoose.find _ _ _ _).
  - unfold versionController.getSpecificVersion. unfold_handler. simpl.
    destruct (Mongoose.findOne _ _ _ _) as [m | [v|]]; simpl; try exact Hc.
    now destruct (Entry.findOne _ _ _).
  - unfold versionController.restoreVersion. unfold_handler. simpl.
    destruct (Entry.findById _ _) as [e|] eqn:Hf; simpl; [| exact Hc].
    case_bool_decide; simpl; [| exact Hc].
    destruct (Mongoose.findById _ _) as [v|]; simpl; [| exact Hc].
    destruct (Mongoose.prop v "entryId") as [o|]; simpl; [| exact Hc].
    case_bool_decide; simpl; [| exact Hc].
    destruct (Mongoose.create _ _ _ _ _) as [m | [vs snap]]; simpl; [exact Hc |].
    destruct (Entry.save _ _ _ _) as [m | [coll' e']] eqn:Hs; simpl; [exact Hc |].
    apply (titlesTrimmed_save _ _ _ _ _ _ Hs); [| exact Hc].
    unfold versionController.overwrite. rewrite set_content_title.
    apply set_title_trimmed. apply (titlesTrimmed_found _ _ _ Hc Hf).
Qed.

(** Nor does any socket event. *)
Lemma step_titlesTrimmed (env : Env) (srv : socketServer.Server)
    (ev : socketServer.ClientEvent) :
  titlesTrimmed (entries (db srv)) ->
  titlesTrimmed (entries (db (step jwt_verify env srv ev).1)).
Proof.
  intros Hc. destruct ev as [s tok | s eid | s eid p | s eid c t | s]; simpl.
  - now destruct (authenticate _ _ _ _).
  - destruct (sockets srv !! s); [| exact Hc]. unfold onJoinEntry.
    destruct eid; [| exact Hc]. now destruct (truthy_id _).
  - destruct (sockets srv !! s); [| exact Hc]. unfold onTyping.
    destruct eid; [| exact Hc]. now destruct (truthy_id _).
  - destruct (sockets srv !! s) as [uid|]; [| exact Hc]. unfold onSave.
    destruct eid as [id|]; [| exact Hc].
    destruct (negb (truthy_id _)); [exact Hc |].
    unfold Entry.findOneAndUpdate. destruct (writeFails env 0); [exact Hc |].
    destruct (Entry.findOne id uid _) as [e|]; simpl; [| exact Hc].
    apply titlesTrimmed_insert; [exact Hc |]. simpl. apply trim_idempotent.
  - exact Hc.
Qed.

(** So the entries of a server that started without entries, or with
    trimmed titles, have trimmed titles whatever it has served. *)
Lemma serve_titlesTrimmed (inputs : list (Env * server.Input))
    (srv : socketServer.Server) :
  titlesTrimmed (entries (db srv)) ->
  titlesTrimmed
    (entries (db (server.serve Version strictQuery jwt_verify srv inputs).1)).
Proof.
  revert srv. induction inputs as [|[env i] inputs IH]; intros srv Hc; [exact Hc |].
  simpl.
  assert (H1 : titlesTrimmed
                 (entries (db (server.handle Version strictQuery jwt_verify env srv i).1))).
  { destruct i as [r | ev]; simpl.
    - pose proof (route_titlesTrimmed env r (db srv) Hc) as H.
      destruct (Http.asyncHandler _ _). exact H.
    - pose proof (step_titlesTrimmed env srv ev Hc) as H.
      destruct (step _ _ _ _). exact H. }
  destruct (server.handle _ _ _ _ _ _) as [srv1 o]. simpl in H1.
  specialize (IH srv1 H1).
  destruct (server.serve _ _ _ _ _) as [srv2 os]. exact IH.
Qed.

End Invariant.

(* ================================================================== *)
(** * The statements at sample inputs                                  *)
(* ================================================================== *)


Lemma save_denied_witness :
  exists message,
    socketServer.step sampleJwt (accepting 30 "") sampleServer
      (socketServer.OnSave "s2" (Some "e1") (js "snow") (js "Tuesday"))
    = (sampleServer, [(socketServer.ToSocket "s2", socketServer.saveError "e1" message)]).
Proof.
  refine (proj1 (save_denied sampleJwt (accepting 30 "") sampleServer "s2" "u2" "e1"
                   (js "snow") (js "Tuesday") eq_refl _ _)).
  - discriminate.
  - right. exists diary. split; [vm_compute; reflexivity | discriminate].
Defined.

Lemma save_broadcasts_synced_witness :
  let out :=
    socketServer.step sampleJwt (accepting 30 "") sampleServer
      (socketServer.OnSave "s1" (Some "e1") (js "snow") (js " Tuesday ")) in
  exists e',
    Entry.findById "e1" (entries (socketServer.db out.1)) = Some e'
    /\ Entry.updatedAt e' = 30
    /\ out.2 = [(socketServer.ToRoom "e1",
                 socketServer.synced "e1" (Entry.updatedAt e') "Entry saved successfully.")]
    /\ socketServer.delivered out.1 (socketServer.ToRoom "e1") "s1" = true
    /\ socketServer.delivered out.1 (socketServer.ToRoom "e1") "s2" = true.
Proof.
  destruct (save_broadcasts_synced sampleJwt (accepting 30 "") sampleServer "s1" "u1"
              "e1" (js "snow") (js " Tuesday ") diary)
    as (e' & H1 & H2 & _ & _ & _ & H6 & _ & _ & H9 & _);
    [vm_compute; reflexivity | discriminate | vm_compute; reflexivity
    | reflexivity | reflexivity |].
  exists e'. split; [exact H1 |]. split; [exact H2 |]. split; [exact H6 |].
  split; apply H9; vm_compute; reflexivity.
Defined.

Lemma unauthenticated_refused_witness :
  exists reason,
    socketServer.step sampleJwt (accepting 30 "") sampleServer
      (socketServer.Handshake "s3" (Some "ghost-token"))
    = (sampleServer, [(socketServer.ToSocket "s3", socketServer.connect_error reason)]).
Proof.
  refine (proj1 (unauthenticated_refused sampleJwt (accepting 30 "") sampleServer "s3"
                   (Some "ghost-token") _)).
  right. right. exists "ghost-token", "u9". repeat split; vm_compute; reflexivity.
Defined.

(** C10 as stated does not hold: an update of the title alone gives
    the entry a new modification time. *)
Lemma updateJournal_stamps_updatedAt :
  let out :=
    Http.asyncHandler
      (journalController.updateJournal (accepting 30 "") alice "e1"
         (JStr (js "Tuesday")) JUndefined)
      sampleDB in
  (Entry.updatedAt <$> Entry.findById "e1" (entries sampleDB)) = Some 10
  /\ (Entry.updatedAt <$> Entry.findById "e1" (entries out.1)) = Some 30.
Proof. cbv zeta. split; vm_compute; reflexivity. Qed.

Example updateJournal_empty_title_kept :
  let out :=
    Http.asyncHandler
      (journalController.updateJournal (accepting 30 "") alice "e1"
         (JStr []) (JStr (js "snow")))
      sampleDB in
  Entry.findById "e1" (entries out.1)
  = Some (Entry.mk "e1" "u1" (js "Monday") (js "snow") None [js "weather"] 10 30).
Proof. vm_compute. reflexivity. Qed.

Example restoreVersion_diary_refused :
  server.handle Version.Version false sampleJwt (accepting 20 "v3") sampleServer
    (server.Http (server.POST_restore alice "e1" "v1"))
  = (sampleServer,
     server.mkOutput
       (Some (Http.mkResponse 500
                (Http.ErrorJson
                   "Cannot read properties of undefined (reading 'toString')")))
       []).
Proof. vm_compute. reflexivity. Qed.

Example handshake_without_token :
  socketServer.step sampleJwt (accepting 30 "") sampleServer
    (socketServer.Handshake "s3" None)
  = (sampleServer,
     [(socketServer.ToSocket "s3",
       socketServer.connect_error "Authentication error: No token provided.")]).
Proof. reflexivity. Qed.

Example handshake_with_alices_token :
  sockets (socketServer.step sampleJwt (accepting 30 "") sampleServer
             (socketServer.Handshake "s3" (Some "alice-token"))).1 !! "s3"
  = Some "u1".
Proof. vm_compute. reflexivity. Qed.

(* ================================================================== *)
(** * authMiddleware                                                   *)
(* ================================================================== *)

Lemma User_findById_id (id : ObjectId) (coll : gmap ObjectId User.doc) (u : User.doc) :
  User.findById id coll = Some u -> coll !! id = Some u /\ User._id u = id.
Proof.
  unfold User.findById. destruct (coll !! id) as [x|]; [| discriminate].
  case_bool_decide; [| discriminate]. intros [= ->]. now split.
Qed.

(** X1.  [protect] lets a request through exactly when the
    Authorization header starts with "Bearer", its second
    space-separated piece is a non-empty token that verifies, and the
    user the token names is in the database; [req.user] is then that
    user.  Every other request is answered 401 with a message, and
    "no token provided" is the answer only when the header is missing
    or does not start with "Bearer". *)
Theorem protect_admits_only_verified_users
    (jwt_verify : Time -> string -> option ObjectId) (env : Env)
    (users : gmap ObjectId User.doc) (authorization : option string) :
  (forall user,
     authMiddleware.protect jwt_verify env users authorization = inr user <->
     exists header token,
       authorization = Some header
       /\ String.prefix "Bearer" header = true
       /\ authMiddleware.splitSpace header !! 1%nat = Some token
       /\ token <> ""
       /\ jwt_verify (now env) token = Some (User._id user)
       /\ User.findById (User._id user) users = Some user)
  /\ (forall res,
        authMiddleware.protect jwt_verify env users authorization = inl res ->
        Http.status res = 401%nat
        /\ exists message, Http.body res = Http.MessageJson message
           /\ (message = "Not authorized, no token provided" <->
               forall header, authorization = Some header ->
                              String.prefix "Bearer" header = false)).
Proof.
  unfold authMiddleware.protect, authMiddleware.deny. split.
  - intros user. split.
    + destruct authorization as [header|]; [| discriminate].
      destruct (negb (bool_decide (header = ""))); simpl; [| discriminate].
      destruct (String.prefix "Bearer" header) eqn:Hp; [| discriminate].
      destruct (authMiddleware.splitSpace header !! 1%nat) as [token|] eqn:Ht;
        [| discriminate].
      case_bool_decide as Hne; [discriminate |].
      destruct (jwt_verify (now env) token) as [id|] eqn:Hv; [| discriminate].
      destruct (User.findById id users) as [u|] eqn:Hu; [| discriminate].
      intros [= ->]. destruct (User_findById_id _ _ _ Hu) as [_ <-].
      exists header, token. repeat split; assumption.
    + intros (header & token & -> & Hp & Ht & Hne & Hv & Hu).
      assert (Hh : header <> "") by (intros ->; discriminate).
      rewrite (bool_decide_eq_false_2 _ Hh), Hp, Ht. simpl.
      rewrite (bool_decide_eq_false_2 _ Hne), Hv, Hu. reflexivity.
  - intros res. destruct authorization as [header|].
    2: { intros [= <-]. split; [reflexivity |]. eexists. split; [reflexivity |].
         split; [intros _ h; discriminate | reflexivity]. }
    assert (Hcase : forall m : string,
              m <> "Not authorized, no token provided" ->
              String.prefix "Bearer" header = true ->
              (inl (Http.mkResponse 401 (Http.MessageJson m)) : Http.Response + User.doc)
              = inl res ->
              Http.status res = 401%nat
              /\ exists message, Http.body res = Http.MessageJson message
                 /\ (message = "Not authorized, no token provided" <->
                     forall h, Some header = Some h -> String.prefix "Bearer" h = false)).
    { intros m Hm Hp [= <-]. split; [reflexivity |]. exists m. split; [reflexivity |].
      split; [contradiction |]. intros H. specialize (H header eq_refl). congruence. }
    destruct (String.prefix "Bearer" header) eqn:Hp.
    + assert (Hh : header <> "") by (intros ->; discriminate).
      rewrite (bool_decide_eq_false_2 _ Hh). simpl.
      destruct (authMiddleware.splitSpace header !! 1%nat) as [token|];
        [| apply Hcase; [discriminate | reflexivity]].
      case_bool_decide; [apply Hcase; [discriminate | reflexivity] |].
      destruct (jwt_verify (now env) token) as [id|];
        [| apply Hcase; [discriminate | reflexivity]].
      destruct (User.findById id users);
        [discriminate | apply Hcase; [discriminate | reflexivity]].
    + rewrite andb_false_r. intros [= <-]. split; [reflexivity |].
      eexists. split; [reflexivity |]. split; [| reflexivity].
      intros _ h [= <-]. exact Hp.
Qed.

Example protect_bearer_alone :
  authMiddleware.protect sampleJwt (accepting 30 "") (users sampleDB) (Some "Bearer")
  = authMiddleware.deny "Not authorized, token failed".
Proof. reflexivity. Qed.

Example protect_two_spaces :
  authMiddleware.protect sampleJwt (accepting 30 "") (users sampleDB)
    (Some "Bearer  alice-token")
  = authMiddleware.deny "Not authorized, token failed".
Proof. reflexivity. Qed.

Example protect_other_scheme :
  authMiddleware.protect sampleJwt (accepting 30 "") (users sampleDB)
    (Some "Token alice-token")
  = authMiddleware.deny "Not authorized, no token provided".
Proof. reflexivity. Qed.

Example protect_alice :
  authMiddleware.protect sampleJwt (accepting 30 "") (users sampleDB)
    (Some "Bearer alice-token")
  = inr alice.
Proof. vm_compute. reflexivity. Qed.

Example protect_removed_user :
  authMiddleware.protect sampleJwt (accepting 30 "") (users sampleDB)
    (Some "Bearer ghost-token")
  = authMiddleware.deny "Not authorized, user not found".
Proof. vm_compute. reflexivity. Qed.

(* ================================================================== *)
(** * socketServer: rooms, typing, disconnection                       *)
(* ================================================================== *)

Section Rooms.

Variable jwt_verify : Time -> string -> option ObjectId.

(** X2.  A [typing] event from an accepted connection that names a
    room changes nothing on the server and emits one [typing] event
    with the sender's user id and the preview; it reaches exactly the
    other connections of the room, never the sender.  Without a room
    name nothing is emitted. *)
Theorem typing_reaches_the_others (env : Env) (srv : Server) (socket : SocketId)
    (userId : ObjectId) (room : string) (contentPreview : jsstring) :
  sockets srv !! socket = Some userId ->
  room <> "" ->
  step jwt_verify env srv (OnTyping socket (Some room) contentPreview)
  = (srv, [(ToRoomExcept room socket, typing userId contentPreview)])
  /\ (forall s, delivered srv (ToRoomExcept room socket) s = true <->
                inRoom srv s room = true /\ s <> socket)
  /\ delivered srv (ToRoomExcept room socket) socket = false
  /\ step jwt_verify env srv (OnTyping socket None contentPreview) = (srv, [])
  /\ step jwt_verify env srv (OnTyping socket (Some "") contentPreview) = (srv, []).
Proof.
  intros Hs Hr. unfold step. rewrite Hs. unfold onTyping.
  rewrite (truthy_id_Some room Hr). split; [reflexivity |]. split; [| split].
  - intros s. simpl. rewrite andb_true_iff, negb_true_iff, bool_decide_eq_false.
    reflexivity.
  - simpl. rewrite (bool_decide_eq_true_2 (socket = socket) eq_refl).
    apply andb_false_r.
  - split; reflexivity.
Qed.

(** An accepted join, in full. *)
Lemma step_join (env : Env) (srv : Server) (socket : SocketId) (userId : ObjectId)
    (room : string) :
  sockets srv !! socket = Some userId ->
  room <> "" ->
  step jwt_verify env srv (OnJoinEntry socket (Some room))
  = (mkServer (db srv) (sockets srv) ({[ (socket, room) ]} ∪ rooms srv), []).
Proof.
  intros Hs Hr. unfold step. rewrite Hs. unfold onJoinEntry.
  now rewrite (truthy_id_Some room Hr).
Qed.

(** X3.  A [joinEntry] from an accepted connection that names a room
    puts the connection in that room and changes nothing else: the
    database and the accepted connections are the same, nothing is
    emitted, and every other membership is as it was. *)
Theorem joinEntry_joins_one_room (env : Env) (srv : Server) (socket : SocketId)
    (userId : ObjectId) (room : string) :
  sockets srv !! socket = Some userId ->
  room <> "" ->
  let out := step jwt_verify env srv (OnJoinEntry socket (Some room)) in
  out.2 = []
  /\ db out.1 = db srv
  /\ sockets out.1 = sockets srv
  /\ inRoom out.1 socket room = true
  /\ (forall s r, (s, r) <> (socket, room) -> inRoom out.1 s r = inRoom srv s r).
Proof.
  intros Hs Hr. rewrite (step_join env srv socket userId room Hs Hr).
  cbn [fst snd db sockets]. repeat split.
  - unfold inRoom. cbn [sockets rooms]. rewrite Hs.
    rewrite (bool_decide_eq_true_2 (is_Some (Some userId))) by eauto.
    rewrite (bool_decide_eq_true_2 ((socket, room) ∈ _));
      [now rewrite orb_true_r |].
    apply elem_of_union. left. now apply elem_of_singleton.
  - intros s r Hne. unfold inRoom. cbn [sockets rooms]. f_equal. f_equal.
    apply bool_decide_ext. rewrite elem_of_union, elem_of_singleton. tauto.
Qed.

(** X4.  A connection that joins the room of one of its user's
    entries and then saves the entry receives the [synced] event of
    its own save. *)
Theorem join_then_save_reaches_sender (env1 env2 : Env) (srv : Server)
    (socket : SocketId) (userId : ObjectId) (id : string) (content title : jsstring)
    (e : Entry.doc) :
  sockets srv !! socket = Some userId ->
  id <> "" ->
  Entry.findById id (entries (db srv)) = Some e ->
  Entry.user e = userId ->
  writeFails env2 0 = false ->
  let out :=
    run jwt_verify srv
      [ (env1, OnJoinEntry socket (Some id));
        (env2, OnSave socket (Some id) content title) ] in
  out.2 = [(ToRoom id, synced id (now env2) "Entry saved successfully.")]
  /\ delivered out.1 (ToRoom id) socket = true.
Proof.
  intros Hs Hid Hfind Hown Hw. cbn [run].
  rewrite (step_join env1 srv socket userId id Hs Hid).
  set (srv1 := mkServer (db srv) (sockets srv) _).
  rewrite (step_save_ok jwt_verify env2 srv1 socket userId id content title e
             Hs Hid Hfind Hown Hw).
  cbn [fst snd app]. split; [reflexivity |].
  subst srv1. unfold delivered, inRoom. cbn [sockets rooms]. rewrite Hs.
  rewrite (bool_decide_eq_true_2 (is_Some (Some userId))) by eauto.
  rewrite (bool_decide_eq_true_2 ((socket, id) ∈ _)); [now rewrite orb_true_r |].
  apply elem_of_union. left. now apply elem_of_singleton.
Qed.

(** X5.  A disconnection removes the connection from the accepted
    sockets and from every room, leaves the database and the other
    connections as they were, emits nothing, and what the socket sends
    afterwards has no effect. *)
Theorem disconnect_leaves_everything (env : Env) (srv : Server) (socket : SocketId) :
  let out := step jwt_verify env srv (OnDisconnect socket) in
  out.2 = []
  /\ db out.1 = db srv
  /\ sockets out.1 !! socket = None
  /\ (forall room, inRoom out.1 socket room = false)
  /\ (forall t, t <> ToSocket socket -> delivered out.1 t socket = false)
  /\ (forall s room, s <> socket -> inRoom out.1 s room = inRoom srv s room)
  /\ (forall env' ev, sender ev = socket -> inSession ev ->
                      step jwt_verify env' out.1 ev = (out.1, [])).
Proof.
  cbn [step fst snd].
  assert (Hnone : forall room,
            inRoom (mkServer (db srv) (delete socket (sockets srv))
                      (filter (fun p : SocketId * string => p.1 ≠ socket) (rooms srv)))
                   socket room = false).
  { intros room. unfold inRoom. cbn [sockets]. rewrite lookup_delete_eq.
    rewrite bool_decide_eq_false_2; [reflexivity |]. intros [? [=]]. }
  repeat split.
  - apply lookup_delete_eq.
  - exact Hnone.
  - intros [s | room | room s] Ht; cbn [delivered].
    + apply bool_decide_eq_false_2. congruence.
    + apply Hnone.
    + rewrite Hnone. reflexivity.
  - intros s room Hne. unfold inRoom. cbn [sockets rooms].
    rewrite lookup_delete_ne by congruence. f_equal. f_equal.
    apply bool_decide_ext. rewrite elem_of_filter. simpl. tauto.
  - intros env' ev Hev Hin. apply step_not_accepted; [| exact Hin].
    rewrite Hev. cbn [sockets]. apply lookup_delete_eq.
Qed.

Lemma step_versions (env : Env) (srv : Server) (ev : ClientEvent) :
  versions (db (step jwt_verify env srv ev).1) = versions (db srv).
Proof.
  destruct ev as [s tok | s eid | s eid p | s eid c t | s]; simpl.
  - now destruct (authenticate _ _ _ _).
  - destruct (sockets srv !! s); [| reflexivity]. unfold onJoinEntry.
    destruct eid; [| reflexivity]. now destruct (truthy_id _).
  - destruct (sockets srv !! s); [| reflexivity]. unfold onTyping.
    destruct eid; [| reflexivity]. now destruct (truthy_id _).
  - destruct (sockets srv !! s); [| reflexivity]. unfold onSave.
    destruct eid; [| reflexivity]. destruct (negb (truthy_id _)); [reflexivity |].
    destruct (Entry.findOneAndUpdate _ _ _ _ _ _ _) as [|[coll [e|]]]; reflexivity.
  - reflexivity.
Qed.

(** X6.  No socket event touches the users or the versions, creates
    or deletes an entry, or changes an entry's id, owner, mood, tags
    or creation time; and an entry is left exactly as it was unless
    the event comes from a connection of the entry's owner. *)
Theorem socket_events_change_only_own_entries (env : Env) (srv : Server)
    (ev : ClientEvent) :
  let srv' := (step jwt_verify env srv ev).1 in
  users (db srv') = users (db srv)
  /\ versions (db srv') = versions (db srv)
  /\ (forall id, entries (db srv') !! id = None <-> entries (db srv) !! id = None)
  /\ (forall id e, entries (db srv) !! id = Some e ->
        exists e', entries (db srv') !! id = Some e'
                   /\ sameOtherFields e e'
                   /\ (sockets srv !! sender ev <> Some (Entry.user e) -> e' = e)).
Proof.
  assert (Hsame : forall (Q : Entry.doc -> Prop) id e,
            entries (db srv) !! id = Some e ->
            exists e', entries (db srv) !! id = Some e'
                       /\ sameOtherFields e e' /\ (Q e -> e' = e)).
  { intros Q id e H. exists e. unfold sameOtherFields. repeat split; auto. }
  assert (Hkeep : forall Q : Entry.doc -> Prop,
            users (db srv) = users (db srv)
            /\ versions (db srv) = versions (db srv)
            /\ (forall id, entries (db srv) !! id = None <-> entries (db srv) !! id = None)
            /\ (forall id e, entries (db srv) !! id = Some e ->
                  exists e', entries (db srv) !! id = Some e'
                             /\ sameOtherFields e e' /\ (Q e -> e' = e))).
  { intros Q. repeat split; auto. }
  destruct ev as [s tok | s eid | s eid p | s eid c t | s]; cbn [step sender].
  - destruct (authenticate _ _ _ _); cbn [fst db]; apply Hkeep.
  - destruct (sockets srv !! s); [| apply Hkeep].
    unfold onJoinEntry. destruct eid; [| apply Hkeep].
    destruct (truthy_id _); cbn [fst db]; apply Hkeep.
  - destruct (sockets srv !! s); [| apply Hkeep].
    unfold onTyping. destruct eid; [| apply Hkeep].
    destruct (truthy_id _); cbn [fst db]; apply Hkeep.
  - destruct (sockets srv !! s) as [uid|] eqn:Hs; [| apply Hkeep].
    unfold onSave. destruct eid as [id0|]; [| apply Hkeep].
    destruct (negb (truthy_id _)); [apply Hkeep |].
    unfold Entry.findOneAndUpdate.
    destruct (writeFails env 0); [apply Hkeep |].
    destruct (Entry.findOne id0 uid (entries (db srv))) as [e0|] eqn:Hf;
      cbn [fst db users versions entries]; [| apply Hkeep].
    assert (Hf' : Entry.findById id0 (entries (db srv)) = Some e0
                  /\ Entry.user e0 = uid).
    { unfold Entry.findOne in Hf.
      destruct (Entry.findById id0 (entries (db srv))) as [x|]; [| discriminate].
      case_bool_decide; [| discriminate]. injection Hf as ->. now split. }
    destruct Hf' as [Hfind Hown]. destruct (findById_id _ _ _ Hfind) as [Hlook Hid0].
    split; [reflexivity |]. split; [reflexivity |]. split.
    + intros id. destruct (decide (id0 = id)) as [<- | Hne].
      * rewrite lookup_insert_eq, Hlook. split; discriminate.
      * now rewrite lookup_insert_ne.
    + intros id e He. destruct (decide (id0 = id)) as [<- | Hne].
      * rewrite lookup_insert_eq. rewrite Hlook in He. injection He as <-.
        eexists. split; [reflexivity |]. split.
        -- unfold sameOtherFields. repeat split; reflexivity.
        -- intros Hn. congruence.
      * rewrite lookup_insert_ne by exact Hne. exists e.
        unfold sameOtherFields. repeat split; auto.
  - cbn [fst db]. apply Hkeep.
Qed.

End Rooms.

(* ================================================================== *)
(** * The routes: what a request may change                            *)
(* ================================================================== *)

Lemma save_shape (env : Env) (k : nat) (d : Entry.live)
    (coll coll' : gmap ObjectId Entry.doc) (e' : Entry.doc) :
  Entry.save env k d coll = Return (coll', e') ->
  Entry._id e' = Entry._id (Entry.cur d)
  /\ Entry.user e' = Entry.user (Entry.cur d)
  /\ (coll' = coll \/ coll' = <[Entry._id (Entry.cur d) := e']> coll).
Proof.
  unfold Entry.save. destruct (Entry.validate d); [discriminate |].
  assert (Hid : Entry._id (Entry.stamp env (Entry.preSave d)) = Entry._id (Entry.cur d)
                /\ Entry.user (Entry.stamp env (Entry.preSave d))
                   = Entry.user (Entry.cur d)).
  { unfold Entry.stamp, Entry.preSave.
    destruct (Entry.isModified "tags" d); simpl;
      destruct (Entry.isNew d); simpl; try (split; reflexivity);
      case_bool_decide; split; reflexivity. }
  destruct Hid as [Hid Hu].
  destruct (negb (Entry.isNew d) && _).
  - intros [= <- <-]. repeat split; auto.
  - destruct (writeFails env k); [discriminate |].
    intros [= <- <-]. repeat split; auto. right. now rewrite Hid.
Qed.

Lemma requestEffect_none (env : Env) (owner : ObjectId) (db : DB) :
  requestEffect env owner db db.
Proof.
  split; [reflexivity |]. split; [| now left].
  exists []. split; [now rewrite app_nil_r | simpl; lia].
Qed.

Lemma create_appends (M : Mongoose.Model) (env : Env) (k : nat)
    (raw : Mongoose.object) (coll coll' : list Mongoose.Document)
    (d : Mongoose.Document) :
  Mongoose.create M env k raw coll = Return (coll', d) -> coll' = coll ++ [d].
Proof.
  unfold Mongoose.create. destruct (Mongoose.build _ _); [| discriminate].
  destruct (negb _); [discriminate |]. destruct (writeFails env k); [discriminate |].
  now intros [= <- <-].
Qed.

Section Effects.

Variable Version : Mongoose.Model.
Variable strictQuery : bool.

(** Whatever the request, its effect on the database is one of those
    of [requestEffect], for the user it is made as. *)
Lemma route_effect (env : Env) (r : server.Request) (db : DB) :
  requestEffect env (User._id (requester r)) db
    (Http.asyncHandler (server.route Version strictQuery env r) db).1.
Proof.
  destruct r as [u t c | u id | u id t c | u id | u eid | u eid vid | u eid vid];
    unfold server.route, requester.
  - unfold journalController.createJournal. unfold_handler.
    destruct (negb (truthy t) || negb (truthy c)); simpl;
      [apply requestEffect_none |].
    destruct (Entry.save _ _ _ _) as [m | [coll' e']] eqn:Hs; simpl;
      [apply requestEffect_none |].
    destruct (save_shape _ _ _ _ _ _ Hs) as (Hid & Hu & Hcoll).
    assert (Hid0 : Entry._id (Entry.cur
                     (Entry.create env (journalController.castString t)
                        (journalController.castString c) (User._id u))) = newId env
                   /\ Entry.user (Entry.cur
                        (Entry.create env (journalController.castString t)
                           (journalController.castString c) (User._id u))) = User._id u).
    { unfold Entry.create.
      destruct (set_content_frame (journalController.castString c)
                  (Entry.set_title (journalController.castString t)
                     (Entry.mkLive (Entry.mk (newId env) (User._id u) [] [] None [] 0 0)
                        true ["user"] []))) as ((a1 & a2 & _) & _).
      destruct (set_title_frame (journalController.castString t)
                  (Entry.mkLive (Entry.mk (newId env) (User._id u) [] [] None [] 0 0)
                     true ["user"] [])) as ((b1 & b2 & _) & _).
      simpl in *. split; congruence. }
    destruct Hid0 as [Hid0 Hu0]. rewrite Hid0 in Hcoll. rewrite Hu0 in Hu.
    destruct Hcoll as [-> | ->]; [rewrite db_eta; apply requestEffect_none |].
    split; [reflexivity |]. split.
    + exists []. split; [now rewrite app_nil_r | simpl; lia].
    + right. left. now exists e'.
  - unfold journalController.getJournalById. unfold_handler. simpl.
    destruct (Entry.findById _ _); simpl; [| apply requestEffect_none].
    case_bool_decide; apply requestEffect_none.
  - unfold journalController.updateJournal. unfold_handler. simpl.
    destruct (Entry.findById _ _) as [e|] eqn:Hf; simpl; [| apply requestEffect_none].
    case_bool_decide as Hown; simpl; [| apply requestEffect_none].
    set (d1 := Entry.set_title _ (Entry.hydrate e)).
    set (d2 := Entry.set_content _ d1).
    destruct (Entry.save env 0 d2 (entries db)) as [m | [coll' e']] eqn:Hs; simpl;
      [apply requestEffect_none |].
    destruct (set_title_frame
                (journalController.castString (JS.or t (JStr (Entry.title e))))
                (Entry.hydrate e)) as (Hf1 & _ & _ & Hn1 & Hm1).
    destruct (set_content_frame
                (journalController.castString
                   (JS.or c (JStr (Entry.content (Entry.cur d1))))) d1)
      as (Hf2 & _ & _ & Hn2 & Hm2).
    fold d1 in Hf1, Hn1, Hm1. simpl in Hf2, Hn2, Hm2.
    fold d1 in Hf2, Hn2, Hm2. fold d2 in Hf2, Hn2, Hm2.
    destruct (save_loaded _ _ _ _ _ _ Hs) as (Hf3 & _ & _ & _ & Hcoll).
    { now rewrite Hn2, Hn1. }
    { intros Hin. apply Hm2 in Hin as [Hin | Hin]; [discriminate |].
      apply Hm1 in Hin as [Hin | Hin]; [discriminate | inversion Hin]. }
    assert (Hother : sameOtherFields e e').
    { unfold sameOtherFields in *. simpl in Hf1.
      destruct Hf1 as (a1 & a2 & a3 & a4 & a5), Hf2 as (b1 & b2 & b3 & b4 & b5),
               Hf3 as (c1 & c2 & c3 & c4 & c5).
      repeat split; congruence. }
    destruct (findById_id _ _ _ Hf) as [_ Hid].
    destruct Hcoll as [-> | ->]; [rewrite db_eta; apply requestEffect_none |].
    split; [reflexivity |]. split.
    + exists []. split; [now rewrite app_nil_r | simpl; lia].
    + right. right. left. exists id, e, e'. repeat split; try apply Hother; auto.
      simpl. destruct Hother as [-> _]. now rewrite Hid.
  - unfold journalController.deleteJournal, Entry.deleteOne. unfold_handler. simpl.
    destruct (Entry.findById _ _) as [e|] eqn:Hf; simpl; [| apply requestEffect_none].
    case_bool_decide as Hown; simpl; [| apply requestEffect_none].
    destruct (writeFails env 0); simpl; [apply requestEffect_none |].
    destruct (findById_id _ _ _ Hf) as [_ Hid].
    split; [reflexivity |]. split.
    + exists []. split; [now rewrite app_nil_r | simpl; lia].
    + right. right. right. exists id, e. repeat split; auto. simpl. now rewrite Hid.
  - unfold versionController.getEntryVersions. unfold_handler. simpl.
    destruct (Entry.findOne _ _ _); simpl; [| apply requestEffect_none].
    destruct (Mongoose.find _ _ _ _); simpl; [apply requestEffect_none |].
    rewrite db_eta. apply requestEffect_none.
  - unfold versionController.getSpecificVersion. unfold_handler. simpl.
    destruct (Mongoose.findOne _ _ _ _) as [m | [v|]]; simpl;
      try apply requestEffect_none; rewrite db_eta.
    + destruct (Entry.findOne _ _ _); apply requestEffect_none.
    + apply requestEffect_none.
  - unfold versionController.restoreVersion. unfold_handler. simpl.
    destruct (Entry.findById _ _) as [e|] eqn:Hf; simpl; [| apply requestEffect_none].
    case_bool_decide as Hown; simpl; [| apply requestEffect_none].
    destruct (Mongoose.findById _ _) as [v|]; simpl; [| apply requestEffect_none].
    destruct (Mongoose.prop v "entryId") as [o|]; simpl; [| apply requestEffect_none].
    case_bool_decide; simpl; [| apply requestEffect_none].
    destruct (Mongoose.create _ _ _ _ _) as [m | [vs snap]] eqn:Hc; simpl;
      [apply requestEffect_none |].
    apply create_appends in Hc. subst vs.
    assert (Hver : exists added,
              versions db ++ [snap] = versions db ++ added /\ (length added <= 1)%nat).
    { exists [snap]. split; [reflexivity | simpl; lia]. }
    unfold versionController.overwrite.
    set (d1 := Entry.set_title _ (Entry.hydrate e)).
    set (d2 := Entry.set_content _ d1).
    destruct (Entry.save env 1 d2 (entries db)) as [m | [coll' e']] eqn:Hs; simpl.
    { split; [reflexivity |]. split; [exact Hver | now left]. }
    destruct (set_title_frame
                (versionController.stringOf (Mongoose.prop v "title"))
                (Entry.hydrate e)) as (Hf1 & _ & _ & Hn1 & Hm1).
    destruct (set_content_frame
                (versionController.stringOf (Mongoose.prop v "content")) d1)
      as (Hf2 & _ & _ & Hn2 & Hm2).
    fold d1 in Hf1, Hn1, Hm1. fold d2 in Hf2, Hn2, Hm2.
    destruct (save_loaded _ _ _ _ _ _ Hs) as (Hf3 & _ & _ & _ & Hcoll).
    { now rewrite Hn2, Hn1. }
    { intros Hin. apply Hm2 in Hin as [Hin | Hin]; [discriminate |].
      apply Hm1 in Hin as [Hin | Hin]; [discriminate | inversion Hin]. }
    assert (Hother : sameOtherFields e e').
    { unfold sameOtherFields in *. simpl in Hf1.
      destruct Hf1 as (a1 & a2 & a3 & a4 & a5), Hf2 as (b1 & b2 & b3 & b4 & b5),
               Hf3 as (c1 & c2 & c3 & c4 & c5).
      repeat split; congruence. }
    destruct (findById_id _ _ _ Hf) as [_ Hid].
    split; [reflexivity |]. split; [exact Hver |].
    destruct Hcoll as [-> | ->]; [now left |].
    right. right. left. exists eid, e, e'. repeat split; try apply Hother; auto.
    simpl. destruct Hother as [-> _]. now rewrite Hid.
Qed.

End Effects.

Section Answers.

Variable Version : Mongoose.Model.
Variable strictQuery : bool.

(** X8.  Every answer of a route has a status that fits its body: an
    error body comes with 400, 401, 403, 404 or 500 and never with a
    success status, and every other body comes with 200 or 201.  A
    request that reads (an entry, a listing of versions, one version)
    leaves the database as it was. *)
Theorem answers_fit_and_reads_do_not_write (env : Env) (r : server.Request) (db : DB) :
  let out := Http.asyncHandler (server.route Version strictQuery env r) db in
  statusFits out.2 /\ (isRead r = true -> out.1 = db).
Proof.
  unfold statusFits.
  destruct r as [u t c | u id | u id t c | u id | u eid | u eid vid | u eid vid];
    unfold server.route, isRead; cbv zeta.
  - unfold journalController.createJournal. unfold_handler.
    destruct (negb (truthy t) || negb (truthy c)); simpl; [split; [tauto | discriminate] |].
    destruct (Entry.save _ _ _ _) as [m | [coll' e']]; simpl;
      (split; [tauto | discriminate]).
  - unfold journalController.getJournalById. unfold_handler. simpl.
    destruct (Entry.findById _ _); simpl; [| split; [tauto | reflexivity]].
    case_bool_decide; simpl; (split; [tauto | reflexivity]).
  - unfold journalController.updateJournal. unfold_handler. simpl.
    destruct (Entry.findById _ _); simpl; [| split; [tauto | discriminate]].
    case_bool_decide; simpl; [| split; [tauto | discriminate]].
    destruct (Entry.save _ _ _ _) as [m | [coll' e']]; simpl;
      (split; [tauto | discriminate]).
  - unfold journalController.deleteJournal, Entry.deleteOne. unfold_handler. simpl.
    destruct (Entry.findById _ _); simpl; [| split; [tauto | discriminate]].
    case_bool_decide; simpl; [| split; [tauto | discriminate]].
    destruct (writeFails env 0); simpl; (split; [tauto | discriminate]).
  - unfold versionController.getEntryVersions. unfold_handler. simpl.
    destruct (Entry.findOne _ _ _); simpl; [| split; [tauto | reflexivity]].
    destruct (Mongoose.find _ _ _ _); simpl; (split; [tauto |]); intros _;
      [reflexivity | apply db_eta].
  - unfold versionController.getSpecificVersion. unfold_handler. simpl.
    destruct (Mongoose.findOne _ _ _ _) as [m | [v|]]; simpl.
    + split; [tauto | reflexivity].
    + destruct (Entry.findOne _ _ _); simpl; (split; [tauto |]); intros _;
        apply db_eta.
    + split; [tauto |]. intros _. apply db_eta.
  - unfold versionController.restoreVersion. unfold_handler. simpl.
    destruct (Entry.findById _ _); simpl; [| split; [tauto | discriminate]].
    case_bool_decide; simpl; [| split; [tauto | discriminate]].
    destruct (Mongoose.findById _ _) as [v|]; simpl; [| split; [tauto | discriminate]].
    destruct (Mongoose.prop v "entryId"); simpl; [| split; [tauto | discriminate]].
    case_bool_decide; simpl; [| split; [tauto | discriminate]].
    destruct (Mongoose.create _ _ _ _ _) as [m | [vs snap]]; simpl;
      [split; [tauto | discriminate] |].
    destruct (Entry.save _ _ _ _) as [m | [coll' e']]; simpl;
      (split; [tauto | discriminate]).
Qed.

End Answers.

(* ================================================================== *)
(** * journalController: create, then read                             *)
(* ================================================================== *)

(** The entry [createJournal] stores for a title and a content given
    as strings. *)
Lemma createJournal_created (env : Env) (u : User.doc) (t c : jsstring) (db : DB) :
  trim t <> [] -> (length (trim t) <= 100)%nat -> c <> [] ->
  writeFails env 0 = false ->
  let e0 := Entry.mk (newId env) (User._id u) (trim t) c None [] (now env) (now env) in
  Http.asyncHandler (journalController.createJournal env u (JStr t) (JStr c)) db
  = (mkDB (users db) (<[newId env := e0]> (entries db)) (versions db),
     Http.mkResponse 201 (Http.EntryJson e0)).
Proof.
  intros Ht Hlen Hc Hw.
  assert (Ht0 : t <> []) by (intros ->; now apply Ht).
  unfold journalController.createJournal. unfold_handler.
  cbn [truthy journalController.castString].
  rewrite (bool_decide_eq_false_2 _ Ht0), (bool_decide_eq_false_2 _ Hc).
  cbn [negb orb].
  unfold Entry.save, Entry.create, Entry.set_title, Entry.set_content, Entry.assign.
  cbn [Entry.isNew orb Entry.cur Entry.modifiedPaths Entry.invalidPaths].
  unfold Entry.validate.
  cbn [Entry.invalidPaths Entry.cur Entry.with_content Entry.with_title Entry.title
       Entry.content Entry.mood Entry._id Entry.user Entry.tags Entry.createdAt
       Entry.updatedAt].
  rewrite (bool_decide_eq_false_2 (trim t = []) Ht).
  rewrite (bool_decide_eq_false_2 (c = []) Hc).
  change (bool_decide ([] ≠ [])) with false.
  assert (Hl : (100 <? length (trim t))%nat = false) by (apply Nat.ltb_ge; exact Hlen).
  rewrite Hl. cbv beta iota. rewrite Hw. reflexivity.
Qed.

Lemma getJournalById_found (u : User.doc) (id : ObjectId) (db : DB) (e : Entry.doc) :
  Entry.findById id (entries db) = Some e ->
  Http.asyncHandler (journalController.getJournalById u id) db
  = (db,
     if bool_decide (Entry.user e = User._id u)
     then Http.mkResponse 200 (Http.EntryJson e)
     else Http.mkResponse 401
            (Http.ErrorJson "You are not authorized to access this journal entry.")).
Proof.
  intros Hf. unfold journalController.getJournalById. unfold_handler. simpl.
  rewrite Hf. simpl. now case_bool_decide.
Qed.

(** X9.  Creating an entry and reading it back.  When the title is a
    string that is not blank and has at most 100 code units once
    trimmed, the content is a non-empty string and the storage accepts
    the write, [createJournal] answers 201 with the new entry (the
    trimmed title, the content, the requesting user as owner, no tags,
    both timestamps at the time of the request); [getJournalById] on
    its id then answers the owner 200 with that same entry and any
    other user 401, both without changing the database. *)
Theorem create_then_get (env : Env) (u other : User.doc) (t c : jsstring) (db : DB) :
  trim t <> [] -> (length (trim t) <= 100)%nat -> c <> [] ->
  writeFails env 0 = false ->
  User._id other <> User._id u ->
  let e0 := Entry.mk (newId env) (User._id u) (trim t) c None [] (now env) (now env) in
  let created :=
    Http.asyncHandler (journalController.createJournal env u (JStr t) (JStr c)) db in
  created.2 = Http.mkResponse 201 (Http.EntryJson e0)
  /\ Http.asyncHandler (journalController.getJournalById u (newId env)) created.1
     = (created.1, Http.mkResponse 200 (Http.EntryJson e0))
  /\ Http.asyncHandler (journalController.getJournalById other (newId env)) created.1
     = (created.1,
        Http.mkResponse 401
          (Http.ErrorJson "You are not authorized to access this journal entry.")).
Proof.
  intros Ht Hlen Hc Hw Hne. cbv zeta.
  rewrite (createJournal_created env u t c db Ht Hlen Hc Hw). cbn [fst snd].
  split; [reflexivity |].
  set (e0 := Entry.mk _ _ _ _ _ _ _ _). set (db1 := mkDB _ _ _).
  assert (Hf : Entry.findById (newId env) (entries db1) = Some e0).
  { apply findById_Some; [apply lookup_insert_eq | reflexivity]. }
  rewrite !(getJournalById_found _ _ _ _ Hf). subst e0. cbn [Entry.user].
  rewrite (bool_decide_eq_true_2 (User._id u = User._id u) eq_refl).
  rewrite (bool_decide_eq_false_2 (User._id u = User._id other)) by congruence.
  split; reflexivity.
Qed.

(** X10.  What [createJournal] refuses.  A title or a content that is
    missing or falsy is answered 400.  A title that is a string of
    whitespace only passes that check and is refused by the schema:
    the answer is 500.  So is a title of more than 100 code units.  In
    each case the database is left as it was. *)
Theorem createJournal_refusals (env : Env) (u : User.doc) (title content : JS.value)
    (db : DB) :
  let out := Http.asyncHandler (journalController.createJournal env u title content) db in
  (truthy title = false \/ truthy content = false ->
   out = (db, Http.mkResponse 400
                (Http.ErrorJson
                   "Please provide both a title and content for the journal entry.")))
  /\ (forall t c, title = JStr t -> content = JStr c -> t <> [] -> trim t = [] ->
        c <> [] ->
        out = (db, Http.mkResponse 500
                     (Http.ErrorJson
                        "Entry validation failed: title: Please provide a title for your entry.")))
  /\ (forall t c, title = JStr t -> content = JStr c -> c <> [] ->
        (100 < length (trim t))%nat ->
        out = (db, Http.mkResponse 500
                     (Http.ErrorJson
                        "Entry validation failed: title: Title cannot be more than 100 characters.")))
  /\ (Http.status out.2 <> 201%nat -> out.1 = db).
Proof.
  cbv zeta. unfold journalController.createJournal. unfold_handler.
  split; [| split; [| split]].
  - intros [H | H]; rewrite H; simpl; [reflexivity |].
    now rewrite orb_true_r.
  - intros t c -> -> Ht Hblank Hc.
    cbn [truthy]. rewrite (bool_decide_eq_false_2 _ Ht), (bool_decide_eq_false_2 _ Hc).
    cbn [negb orb journalController.castString].
    unfold Entry.save, Entry.create, Entry.set_title, Entry.set_content, Entry.assign.
    cbn [Entry.isNew orb Entry.cur]. rewrite Hblank. reflexivity.
  - intros t c -> -> Hc Hlen.
    assert (Ht : t <> []) by (intros ->; simpl in Hlen; lia).
    assert (Htt : trim t <> []) by (intros E; rewrite E in Hlen; simpl in Hlen; lia).
    cbn [truthy]. rewrite (bool_decide_eq_false_2 _ Ht), (bool_decide_eq_false_2 _ Hc).
    cbn [negb orb journalController.castString].
    unfold Entry.save, Entry.create, Entry.set_title, Entry.set_content, Entry.assign.
    cbn [Entry.isNew orb Entry.cur]. unfold Entry.validate.
    cbn [Entry.invalidPaths Entry.cur Entry.with_content Entry.with_title Entry.title].
    rewrite (bool_decide_eq_false_2 (trim t = []) Htt).
    change (bool_decide ([] ≠ [])) with false.
    assert (Hl : (100 <? length (trim t))%nat = true) by (apply Nat.ltb_lt; exact Hlen).
    rewrite Hl. reflexivity.
  - destruct (negb (truthy title) || negb (truthy content)); simpl; [reflexivity |].
    destruct (Entry.save _ _ _ _) as [m | [coll' e']]; simpl; [reflexivity |].
    intros H. contradiction.
Qed.

(* ================================================================== *)
(** * Version.createFromEntry                                          *)
(* ================================================================== *)

Lemma validate_version (en us : ObjectId) (ti co so : jsstring) (tg : list jsstring) :
  Mongoose.validate Version.Version
    (list_to_map
       [ ("entry", Mongoose.VOid en); ("user", Mongoose.VOid us);
         ("title", Mongoose.VStr ti); ("content", Mongoose.VStr co);
         ("tags", Mongoose.VArr tg); ("source", Mongoose.VStr so) ])
  = negb (bool_decide (ti = [])) && negb (bool_decide (co = []))
    && negb (bool_decide (so = [])) && bool_decide (so ∈ versionSources).
Proof.
  unfold Mongoose.validate, Version.Version, Version.versionSchema, versionSources.
  cbn [Mongoose.schema forallb].
  set (d := list_to_map _).
  assert (H1 : d !! "entry" = Some (Mongoose.VOid en)) by reflexivity.
  assert (H2 : d !! "user" = Some (Mongoose.VOid us)) by reflexivity.
  assert (H3 : d !! "title" = Some (Mongoose.VStr ti)) by reflexivity.
  assert (H4 : d !! "content" = Some (Mongoose.VStr co)) by reflexivity.
  assert (H5 : d !! "source" = Some (Mongoose.VStr so)) by reflexivity.
  unfold Mongoose.validPath.
  cbn [fst snd Mongoose.required Mongoose.enum].
  rewrite H1, H2, H3, H4, H5. cbn [Mongoose.checkRequired andb].
  destruct (d !! "tags"), (d !! "note"); cbn [andb];
    rewrite ?andb_true_r, ?andb_assoc; reflexivity.
Qed.

(** X11.  [Version.createFromEntry] stores a version exactly when it
    is given an entry with an id, a title that is not blank, a
    non-empty content, and a source that is "auto", "manual" or
    "restore", and the storage accepts the write.  The version is then
    appended to the collection; it holds the entry's id and owner, the
    trimmed title, the content, the tags and the source; it is listed
    after the earlier versions of that entry and of no other entry. *)
Theorem createFromEntry_captures_entry (env : Env) (k : nat)
    (entry : option Entry.doc) (source : jsstring) (coll : list Mongoose.Document) :
  ((exists coll' d, Version.createFromEntry env k entry source coll = Return (coll', d))
   <-> (exists e, entry = Some e /\ Entry._id e <> ""
                  /\ trim (Entry.title e) <> [] /\ Entry.content e <> []
                  /\ In source versionSources /\ writeFails env k = false))
  /\ (forall e coll' d,
        entry = Some e ->
        Version.createFromEntry env k entry source coll = Return (coll', d) ->
        d = versionOfEntry env e source
        /\ coll' = coll ++ [d]
        /\ versionsOf (Entry._id e) coll' = versionsOf (Entry._id e) coll ++ [d]
        /\ (forall other, other <> Entry._id e ->
                          versionsOf other coll' = versionsOf other coll)).
Proof.
  assert (Hcreate : forall e,
            Entry._id e <> "" ->
            Version.createFromEntry env k (Some e) source coll
            = if negb (bool_decide (trim (Entry.title e) = []))
                 && negb (bool_decide (Entry.content e = []))
                 && negb (bool_decide (source = []))
                 && bool_decide (source ∈ versionSources)
              then if writeFails env k then Throw "storage error"
                   else Return (coll ++ [versionOfEntry env e source],
                                versionOfEntry env e source)
              else Throw "Version validation failed").
  { intros e Hid. unfold Version.createFromEntry.
    rewrite (bool_decide_eq_false_2 _ Hid). unfold Mongoose.create.
    change (Mongoose.build (Mongoose.schema Version.Version) _)
      with (Some (list_to_map
                    [ ("entry", Mongoose.VOid (Entry._id e));
                      ("user", Mongoose.VOid (Entry.user e));
                      ("title", Mongoose.VStr (trim (Entry.title e)));
                      ("content", Mongoose.VStr (Entry.content e));
                      ("tags", Mongoose.VArr (Entry.tags e));
                      ("source", Mongoose.VStr source) ]
                  : gmap string Mongoose.value)).
    cbv beta iota. rewrite validate_version.
    destruct (_ && _); reflexivity. }
  assert (Hsrc : In source versionSources -> source <> []).
  { unfold versionSources. simpl. intros [<- | [<- | [<- | []]]]; discriminate. }
  split; [split |].
  - intros (coll' & d & H). destruct entry as [e|]; [| discriminate].
    destruct (decide (Entry._id e = "")) as [Hid | Hid].
    { unfold Version.createFromEntry in H.
      rewrite (bool_decide_eq_true_2 _ Hid) in H. discriminate. }
    rewrite (Hcreate e Hid) in H. exists e.
    destruct (bool_decide (trim (Entry.title e) = [])) eqn:E1; [discriminate |].
    destruct (bool_decide (Entry.content e = [])) eqn:E2; [discriminate |].
    destruct (bool_decide (source = [])) eqn:E3; [discriminate |].
    destruct (bool_decide (source ∈ versionSources)) eqn:E4; [| discriminate].
    destruct (writeFails env k) eqn:E5; [discriminate |].
    apply bool_decide_eq_false in E1, E2. apply bool_decide_eq_true in E4.
    rewrite list_elem_of_In in E4. repeat split; auto.
  - intros (e & -> & Hid & Ht & Hc & Hs & Hw). rewrite (Hcreate e Hid).
    rewrite (bool_decide_eq_false_2 _ Ht), (bool_decide_eq_false_2 _ Hc).
    rewrite (bool_decide_eq_false_2 _ (Hsrc Hs)).
    rewrite (bool_decide_eq_true_2 (source ∈ versionSources))
      by now rewrite list_elem_of_In.
    rewrite Hw. simpl. eauto.
  - intros e coll' d -> H.
    destruct (decide (Entry._id e = "")) as [Hid | Hid].
    { unfold Version.createFromEntry in H.
      rewrite (bool_decide_eq_true_2 _ Hid) in H. discriminate. }
    rewrite (Hcreate e Hid) in H.
    destruct (_ && _); [| discriminate].
    destruct (writeFails env k); [discriminate |]. injection H as <- <-.
    split; [reflexivity |]. split; [reflexivity |].
    unfold versionsOf. split.
    + rewrite List.filter_app. f_equal. simpl.
      now rewrite (bool_decide_eq_true_2 _ eq_refl).
    + intros other Hne. rewrite List.filter_app. simpl.
      rewrite bool_decide_eq_false_2; [apply app_nil_r |].
      unfold Mongoose.prop, versionOfEntry. simpl.
      change (_ !! "entry") with (Some (Mongoose.VOid (Entry._id e))).
      congruence.
Qed.

Example createFromEntry_unknown_source :
  Version.createFromEntry (accepting 12 "v1") 0 (Some diary) (js "draft") []
  = Throw "Version validation failed".
Proof. vm_compute. reflexivity. Qed.

(* ================================================================== *)
(** * versionController: one version, and the restore as linked        *)
(* ================================================================== *)

Lemma cast_VOid (t : Mongoose.SchemaType) (o : ObjectId) :
  exists v, Mongoose.cast t (Mongoose.VOid o) = Some v.
Proof. unfold Mongoose.cast. destruct (Mongoose.type t); eauto. Qed.

(** The filter [{ _id, entryId }] always casts, and keeps its [_id]
    condition. *)
Lemma castFilter_id_entryId (M : Mongoose.Model) (strictQuery : bool)
    (versionId entryId : ObjectId) :
  exists rest,
    Mongoose.castFilter M strictQuery
      [("_id", Mongoose.VOid versionId); ("entryId", Mongoose.VOid entryId)]
    = Some (("_id", Mongoose.VOid versionId) :: rest).
Proof.
  cbn [Mongoose.castFilter].
  change (bool_decide ("entryId" = "_id")) with false.
  change (bool_decide ("_id" = "_id")) with true. cbv beta iota.
  destruct (_ !! "entryId") as [t|].
  - destruct (cast_VOid t entryId) as [v ->]. eauto.
  - destruct strictQuery; eauto.
Qed.

Lemma findOne_id_entryId (M : Mongoose.Model) (strictQuery : bool)
    (versionId entryId : ObjectId) (coll : list Mongoose.Document) :
  exists found,
    Mongoose.findOne M strictQuery
      [("_id", Mongoose.VOid versionId); ("entryId", Mongoose.VOid entryId)] coll
    = Return found
    /\ (forall v, found = Some v -> In v coll /\ Mongoose._id v = versionId)
    /\ ((forall v, In v coll -> Mongoose._id v <> versionId) -> found = None).
Proof.
  unfold Mongoose.findOne, Mongoose.find.
  destruct (castFilter_id_entryId M strictQuery versionId entryId) as [rest ->].
  eexists. split; [reflexivity |].
  assert (Hin : forall v, In v (List.filter
                                  (Mongoose.matches (("_id", Mongoose.VOid versionId) :: rest))
                                  coll) ->
                          In v coll /\ Mongoose._id v = versionId).
  { intros v Hv. apply filter_In in Hv as [Hv Hm]. split; [exact Hv |].
    unfold Mongoose.matches in Hm. cbn [forallb] in Hm.
    apply andb_true_iff in Hm as [Hm _]. cbn [fst snd] in Hm.
    change (bool_decide ("_id" = "_id")) with true in Hm. cbv beta iota in Hm.
    apply bool_decide_eq_true in Hm. congruence. }
  split.
  - intros v Hv. apply Hin. destruct (List.filter _ coll); [discriminate |].
    injection Hv as ->. now left.
  - intros Hnone. destruct (List.filter _ coll) as [|v l] eqn:E; [reflexivity |].
    destruct (Hin v) as [Hv Hid]; [now left |]. now apply Hnone in Hv.
Qed.

(** X12.  [getSpecificVersion] never changes the database and
    answers 200, 403, 404 or 500; every answer but a 200 is an error.
    A 200 carries a version of the collection whose id is the
    requested one, and is given only to a user who owns the entry
    named in the request.  When no version has the requested id the
    answer is 404 or 500, whoever asks. *)
Theorem getSpecificVersion_owner_only (Version : Mongoose.Model) (strictQuery : bool)
    (u : User.doc) (entryId versionId : ObjectId) (db : DB) :
  let out :=
    Http.asyncHandler
      (versionController.getSpecificVersion Version strictQuery u entryId versionId) db in
  out.1 = db
  /\ In (Http.status out.2) [200; 403; 404; 500]%nat
  /\ (Http.status out.2 = 200%nat ->
      exists v e,
        Http.body out.2 = Http.VersionJson v
        /\ In v (versions db) /\ Mongoose._id v = versionId
        /\ Entry.findOne entryId (User._id u) (entries db) = Some e)
  /\ (Http.status out.2 <> 200%nat ->
      exists message, Http.body out.2 = Http.ErrorJson message)
  /\ ((forall v, In v (versions db) -> Mongoose._id v <> versionId) ->
      Http.status out.2 = 404%nat \/ Http.status out.2 = 500%nat).
Proof.
  cbv zeta. unfold versionController.getSpecificVersion. unfold_handler. simpl.
  destruct (findOne_id_entryId Version strictQuery versionId entryId (versions db))
    as (found & -> & Hsome & Hnone).
  destruct found as [v|]; simpl.
  - destruct (Hsome v eq_refl) as [Hin Hid].
    destruct (Entry.findOne entryId (User._id u) (entries db)) as [e|] eqn:Hf; simpl.
    + rewrite db_eta. split; [reflexivity |]. split; [tauto |]. split; [| split].
      * intros _. exists v, e. repeat split; auto.
      * intros H. now contradiction H.
      * intros H. now apply H in Hin.
    + rewrite db_eta. split; [reflexivity |]. split; [tauto |]. split; [| split].
      * discriminate.
      * intros _. eauto.
      * intros H. now apply H in Hin.
  - rewrite db_eta. split; [reflexivity |]. split; [tauto |]. split; [| split].
    + discriminate.
    + intros _. eauto.
    + intros _. now left.
Qed.

(** With the model of models/Version.js the restore gets past neither
    of its two obstacles: a version document built from the schema has
    no [entryId], and the snapshot lacks required paths. *)
Lemma restoreVersion_linked (env : Env) (u : User.doc) (entryId versionId : ObjectId)
    (db : DB) :
  let out :=
    Http.asyncHandler
      (versionController.restoreVersion Version.Version env u entryId versionId) db in
  out.1 = db /\ In (Http.status out.2) [403; 404; 500]%nat.
Proof.
  cbv zeta. unfold versionController.restoreVersion. unfold_handler. simpl.
  destruct (Entry.findById _ _) as [e|]; simpl; [| split; [reflexivity | tauto]].
  case_bool_decide; simpl; [| split; [reflexivity | tauto]].
  destruct (Mongoose.findById _ _) as [v|]; simpl; [| split; [reflexivity | tauto]].
  destruct (Mongoose.prop v "entryId"); simpl; [| split; [reflexivity | tauto]].
  case_bool_decide; simpl; [| split; [reflexivity | tauto]].
  rewrite snapshot_rejected. simpl. split; [reflexivity | tauto].
Qed.

Section Linked.

Variable strictQuery : bool.
Variable jwt_verify : Time -> string -> option ObjectId.

Lemma handle_versions_linked (env : Env) (srv : Server) (i : server.Input) :
  versions (db (server.handle Version.Version strictQuery jwt_verify env srv i).1)
  = versions (db srv).
Proof.
  destruct i as [r | ev]; cbn [server.handle].
  - destruct r as [u t c | u id | u id t c | u id | u eid | u eid vid | u eid vid];
      cbn [server.route].
    + unfold journalController.createJournal. unfold_handler.
      destruct (negb (truthy t) || negb (truthy c)); simpl; [reflexivity |].
      now destruct (Entry.save _ _ _ _) as [m | [coll' e']].
    + unfold journalController.getJournalById. unfold_handler. simpl.
      destruct (Entry.findById _ _); simpl; [| reflexivity]. now case_bool_decide.
    + unfold journalController.updateJournal. unfold_handler. simpl.
      destruct (Entry.findById _ _); simpl; [| reflexivity].
      case_bool_decide; simpl; [| reflexivity].
      now destruct (Entry.save _ _ _ _) as [m | [coll' e']].
    + unfold journalController.deleteJournal, Entry.deleteOne. unfold_handler. simpl.
      destruct (Entry.findById _ _); simpl; [| reflexivity].
      case_bool_decide; simpl; [| reflexivity].
      now destruct (writeFails env 0).
    + unfold versionController.getEntryVersions. unfold_handler. simpl.
      destruct (Entry.findOne _ _ _); simpl; [| reflexivity].
      now destruct (Mongoose.find _ _ _ _).
    + unfold versionController.getSpecificVersion. unfold_handler. simpl.
      destruct (Mongoose.findOne _ _ _ _) as [m | [v|]]; simpl; try reflexivity.
      now destruct (Entry.findOne _ _ _).
    + pose proof (restoreVersion_linked env u eid vid (db srv)) as [Hdb _].
      destruct (Http.asyncHandler _ _) as [db' res]. simpl in *. now rewrite Hdb.
  - pose proof (step_versions jwt_verify env srv ev) as H.
    destruct (step jwt_verify env srv ev). exact H.
Qed.

(** X13.  As linked with models/Version.js, the restore never answers
    200 and never changes the database; and whatever inputs the server
    is given, requests and socket events of any users in any order,
    the versions collection stays exactly as it was: the server never
    stores a version. *)
Theorem linked_server_never_stores_a_version :
  (forall env u entryId versionId db,
     let out :=
       Http.asyncHandler
         (versionController.restoreVersion Version.Version env u entryId versionId) db in
     out.1 = db /\ In (Http.status out.2) [403; 404; 500]%nat)
  /\ (forall inputs srv,
        versions (db (server.serve Version.Version strictQuery jwt_verify srv inputs).1)
        = versions (db srv)).
Proof.
  split; [intros; apply restoreVersion_linked |].
  induction inputs as [|[env i] inputs IH]; intros srv; [reflexivity |].
  cbn [server.serve].
  pose proof (handle_versions_linked env srv i) as H1.
  destruct (server.handle _ _ _ _ _ _) as [srv1 o]. cbn [fst] in H1.
  specialize (IH srv1).
  destruct (server.serve _ _ _ _ _) as [srv2 os]. cbn [fst] in *. congruence.
Qed.

End Linked.

(* ================================================================== *)
(** * getUserJournals                                                  *)
(* ================================================================== *)

Lemma entries_insert_perm (e : Entry.doc) (l : list Entry.doc) :
  Permutation (e :: l) (entryRoutes.insertNewestFirst e l).
Proof.
  induction l as [|x l IH]; simpl; [reflexivity |].
  destruct (Entry.createdAt x <=? Entry.createdAt e); [reflexivity |].
  rewrite perm_swap. now apply perm_skip.
Qed.

Lemma entries_sort_perm (l : list Entry.doc) :
  Permutation l (entryRoutes.sortNewestFirst l).
Proof.
  induction l as [|x l IH]; simpl; [reflexivity |].
  rewrite <- entries_insert_perm. now apply perm_skip.
Qed.

Lemma entries_insert_sorted (e : Entry.doc) (l : list Entry.doc) :
  entriesNewestFirst l -> entriesNewestFirst (entryRoutes.insertNewestFirst e l).
Proof.
  unfold entriesNewestFirst. induction l as [|x l IH]; simpl; intros Hs.
  - repeat constructor.
  - destruct (Z.leb_spec (Entry.createdAt x) (Entry.createdAt e)) as [Hle | Hgt].
    + constructor; [exact Hs | now constructor].
    + apply Sorted_inv in Hs as [Hs Hhd]. constructor; [now apply IH |].
      destruct l as [|y l]; simpl.
      * constructor. lia.
      * destruct (Entry.createdAt y <=? Entry.createdAt e);
          constructor; [lia | now inversion Hhd].
Qed.

Lemma entries_sort_sorted (l : list Entry.doc) :
  entriesNewestFirst (entryRoutes.sortNewestFirst l).
Proof.
  induction l as [|x l IH]; simpl; [constructor |].
  now apply entries_insert_sorted.
Qed.

Lemma findByUser_In (owner : ObjectId) (coll : gmap ObjectId Entry.doc) (e : Entry.doc) :
  In e (entryRoutes.findByUser owner coll)
  <-> Entry.findById (Entry._id e) coll = Some e /\ Entry.user e = owner.
Proof.
  unfold entryRoutes.findByUser. rewrite in_map_iff. split.
  - intros ([k x] & <- & Hin). apply filter_In in Hin as [Hin Hc].
    apply andb_true_iff in Hc as [Hk Hu]. simpl in *.
    apply bool_decide_eq_true in Hk, Hu. subst k.
    apply list_elem_of_In, elem_of_map_to_list in Hin.
    split; [now apply findById_Some | exact Hu].
  - intros [Hf Hu]. apply findById_id in Hf as [Hl _].
    exists (Entry._id e, e). split; [reflexivity |]. apply filter_In. split.
    + now apply list_elem_of_In, elem_of_map_to_list.
    + simpl. rewrite (bool_decide_eq_true_2 _ eq_refl).
      now rewrite (bool_decide_eq_true_2 _ Hu).
Qed.

Lemma findByUser_NoDup (owner : ObjectId) (coll : gmap ObjectId Entry.doc) :
  NoDup (entryRoutes.findByUser owner coll).
Proof.
  unfold entryRoutes.findByUser. apply NoDup_ListNoDup.
  apply NoDup_map_NoDup_ForallPairs.
  - intros [k1 e1] [k2 e2] H1 H2 Heq. simpl in Heq. subst e2.
    apply filter_In in H1 as [_ H1]. apply filter_In in H2 as [_ H2].
    apply andb_true_iff in H1 as [H1 _]. apply andb_true_iff in H2 as [H2 _].
    simpl in *. apply bool_decide_eq_true in H1, H2. congruence.
  - apply List.NoDup_filter. apply NoDup_ListNoDup, NoDup_map_to_list.
Qed.

(** X14.  [getUserJournals] answers 200 with the entries of the
    requesting user, each once and no entry of anyone else, newest
    first, and leaves the database as it was. *)
Theorem getUserJournals_lists_own_entries (u : User.doc) (db : DB) :
  exists journals,
    entryRoutes.getUserJournals u (Http.mkSt db 200) = (Return journals, Http.mkSt db 200)
    /\ entriesNewestFirst journals
    /\ NoDup journals
    /\ (forall e, In e journals <->
                  Entry.findById (Entry._id e) (entries db) = Some e
                  /\ Entry.user e = User._id u).
Proof.
  eexists. split; [reflexivity |]. split; [apply entries_sort_sorted |]. split.
  - apply NoDup_ListNoDup.
    eapply Permutation_NoDup; [apply entries_sort_perm |].
    apply NoDup_ListNoDup, findByUser_NoDup.
  - intros e. rewrite <- findByUser_In. split; apply Permutation_in;
      [symmetry |]; apply entries_sort_perm.
Qed.

(* ================================================================== *)
(** * The routes behind [protect]                                      *)
(* ================================================================== *)

Lemma requestEffect_foreign (env : Env) (owner : ObjectId) (db db' : DB)
    (id : ObjectId) (e : Entry.doc) :
  requestEffect env owner db db' ->
  entries db !! newId env = None ->
  entries db !! id = Some e -> Entry.user e <> owner ->
  entries db' !! id = Some e.
Proof.
  intros (_ & _ & Heff) Hfresh He Hne.
  destruct Heff as [-> | [(e' & _ & ->) | [(id0 & e0 & e' & Hf & Hu & _ & ->)
                                          | (id0 & e0 & Hf & Hu & ->)]]].
  - exact He.
  - rewrite lookup_insert_ne; [exact He | congruence].
  - apply findById_id in Hf as [Hl _].
    rewrite lookup_insert_ne; [exact He | intros <-; congruence].
  - apply findById_id in Hf as [Hl _].
    rewrite lookup_delete_ne; [exact He | intros <-; congruence].
Qed.

Section Protected.

Variable Version : Mongoose.Model.
Variable strictQuery : bool.
Variable jwt_verify : Time -> string -> option ObjectId.

Lemma receive_effect (env : Env) (authorization : option string)
    (ep : entryRoutes.Endpoint) (db : DB) (u : User.doc) :
  authMiddleware.protect jwt_verify env (users db) authorization = inr u ->
  requestEffect env (User._id u) db
    (entryRoutes.receive Version strictQuery jwt_verify env authorization ep db).1.
Proof.
  intros Hp. unfold entryRoutes.receive. rewrite Hp. cbv zeta.
  assert (Hh : forall r,
            requester r = u ->
            requestEffect env (User._id u) db
              (let '(db', res) :=
                 Http.asyncHandler (server.route Version strictQuery env r) db in
               (db', entryRoutes.Handled res)).1).
  { intros r <-. pose proof (route_effect Version strictQuery env r db) as H.
    destruct (Http.asyncHandler _ _). exact H. }
  destruct ep as [t c | | id | id t c | id | eid | eid vid | eid vid];
    try (apply Hh; reflexivity).
  apply requestEffect_none.
Qed.

(** X7.  A request reaches a handler only through [protect].  If
    [protect] refuses it, the answer is 401 and the database is
    untouched.  If [protect] admits it as a user, the users stay, at
    most one version is appended, and the entries stay or change in
    one entry of that user (a new one under the fresh id, an update
    that keeps id, owner, mood, tags and creation time, or a
    deletion).  In both cases, when the fresh id is not in use, every
    entry that belongs to another user is exactly as it was. *)
Theorem requests_touch_only_own_entries (env : Env) (authorization : option string)
    (ep : entryRoutes.Endpoint) (db : DB) :
  let out :=
    entryRoutes.receive Version strictQuery jwt_verify env authorization ep db in
  (forall res,
     authMiddleware.protect jwt_verify env (users db) authorization = inl res ->
     out = (db, entryRoutes.Handled res) /\ entryRoutes.statusOf out.2 = 401%nat)
  /\ (forall u,
        authMiddleware.protect jwt_verify env (users db) authorization = inr u ->
        requestEffect env (User._id u) db out.1)
  /\ (entries db !! newId env = None ->
      forall id e,
        entries db !! id = Some e ->
        (forall u,
           authMiddleware.protect jwt_verify env (users db) authorization = inr u ->
           Entry.user e <> User._id u) ->
        entries out.1 !! id = Some e).
Proof.
  cbv zeta. split; [| split].
  - intros res Hp. unfold entryRoutes.receive. rewrite Hp. split; [reflexivity |].
    unfold authMiddleware.protect, authMiddleware.deny in Hp.
    repeat match type of Hp with
           | match ?x with _ => _ end = _ => destruct x
           | (if ?x then _ else _) = _ => destruct x
           end; try discriminate; injection Hp as <-; reflexivity.
  - intros u Hp. now apply receive_effect.
  - intros Hfresh id e He Hown.
    destruct (authMiddleware.protect jwt_verify env (users db) authorization)
      as [res | u] eqn:Hp.
    + unfold entryRoutes.receive. rewrite Hp. exact He.
    + apply (requestEffect_foreign env (User._id u) db _ id e); auto.
      now apply receive_effect.
Qed.

(** X16.  Whatever the server has been given, every stored title is
    in trimmed form if the titles it started with were: no handler and
    no socket event stores a title with whitespace around it. *)
Theorem stored_titles_stay_trimmed (inputs : list (Env * server.Input)) (srv : Server) :
  titlesTrimmed (entries (db srv)) ->
  let srv' := (server.serve Version strictQuery jwt_verify srv inputs).1 in
  titlesTrimmed (entries (db srv'))
  /\ (forall id e, Entry.findById id (entries (db srv')) = Some e ->
                   trimmedForm (Entry.title e)).
Proof.
  intros H. cbv zeta.
  pose proof (serve_titlesTrimmed Version strictQuery jwt_verify inputs srv H) as H'.
  split; [exact H' |]. intros id e Hf.
  rewrite <- (titlesTrimmed_found _ _ _ H' Hf). apply trim_spec.
Qed.

End Protected.

(* ================================================================== *)
(** * One token, two doors                                             *)
(* ================================================================== *)

Lemma splitSpace_spaceless (t : string) :
  spaceless t = true -> authMiddleware.splitSpace t = [t].
Proof.
  induction t as [|c t IH]; simpl; [reflexivity |].
  intros H. apply andb_true_iff in H as [Hc Ht]. apply negb_true_iff in Hc.
  rewrite Hc, (IH Ht). reflexivity.
Qed.

(** X17.  The gateway and the HTTP middleware admit the same tokens:
    a token without spaces is accepted by the socket handshake for a
    user id exactly when [protect] admits the header
    "Bearer <token>" as the user with that id. *)
Theorem gateway_and_protect_agree (jwt_verify : Time -> string -> option ObjectId)
    (env : Env) (users : gmap ObjectId User.doc) (token : string) (id : ObjectId) :
  spaceless token = true ->
  socketServer.authenticate jwt_verify env users (Some token) = Return id
  <-> exists user,
        authMiddleware.protect jwt_verify env users (Some ("Bearer " +:+ token))
        = inr user
        /\ User._id user = id.
Proof.
  intros Hs. unfold authenticate, authMiddleware.protect, authMiddleware.deny.
  change (negb (bool_decide ("Bearer " +:+ token = ""))
          && String.prefix "Bearer" ("Bearer " +:+ token)) with true.
  cbv beta iota.
  change (authMiddleware.splitSpace ("Bearer " +:+ token))
    with ("Bearer" :: authMiddleware.splitSpace token).
  rewrite (splitSpace_spaceless token Hs). cbn [lookup list_lookup].
  unfold truthy_id. destruct (bool_decide (token = "")); cbn [negb].
  - split; [discriminate | intros (u & [=] & _)].
  - destruct (jwt_verify (now env) token) as [i|];
      [| split; [discriminate | intros (u & [=] & _)]].
    destruct (User.findById i users) as [u|] eqn:Hu.
    + destruct (User_findById_id _ _ _ Hu) as [_ Hid]. split.
      * intros [= <-]. now exists u.
      * intros (u' & [= <-] & <-). now rewrite Hid.
    + split; [discriminate | intros (u' & [=] & _)].
Qed.

Lemma gateway_and_protect_agree_witness :
  socketServer.authenticate sampleJwt (accepting 30 "") (users sampleDB)
    (Some "alice-token") = Return "u1"
  <-> exists user,
        authMiddleware.protect sampleJwt (accepting 30 "") (users sampleDB)
          (Some "Bearer alice-token") = inr user
        /\ User._id user = "u1".
Proof.
  exact (gateway_and_protect_agree sampleJwt (accepting 30 "") (users sampleDB)
           "alice-token" "u1" eq_refl).
Defined.

(* ================================================================== *)
(** * versionController: the listing, for any model                    *)
(* ================================================================== *)

(** X15.  [getEntryVersions] never changes the database and answers
    200, 404 or 500.  A user who does not own the entry is answered
    with an error, 404 or 500, and is sent no version; when the answer
    is 200, what is sent is the documents the filter matches, each as
    often as it is stored, ordered newest first. *)
Theorem getEntryVersions_owner_only_newest_first (Version : Mongoose.Model)
    (strictQuery : bool) (u : User.doc) (entryId : ObjectId) (db : DB) :
  let out :=
    Http.asyncHandler
      (versionController.getEntryVersions Version strictQuery u entryId) db in
  out.1 = db
  /\ In (Http.status out.2) [200; 404; 500]%nat
  /\ (Entry.findOne entryId (User._id u) (entries db) = None ->
      (Http.status out.2 = 404%nat \/ Http.status out.2 = 500%nat)
      /\ exists message, Http.body out.2 = Http.ErrorJson message)
  /\ (Http.status out.2 = 200%nat ->
      exists e filter l,
        Entry.findOne entryId (User._id u) (entries db) = Some e
        /\ Mongoose.castFilter Version strictQuery [("entryId", Mongoose.VOid entryId)]
           = Some filter
        /\ Http.body out.2 = Http.VersionsJson l
        /\ Permutation (List.filter (Mongoose.matches filter) (versions db)) l
        /\ newestFirst l).
Proof.
  cbv zeta. unfold versionController.getEntryVersions. unfold_handler.
  unfold Mongoose.find.
  destruct (Mongoose.castFilter Version strictQuery [("entryId", Mongoose.VOid entryId)])
    as [f|] eqn:Hcf; cbn [fst snd Http.db Http.statusCode];
    destruct (Entry.findOne entryId (User._id u) (entries db)) as [e|];
    cbn [fst snd Http.db Http.statusCode Http.status Http.body Nat.eqb].
  - rewrite db_eta. split; [reflexivity |]. split; [simpl; tauto |].
    split; [discriminate |].
    intros _. exists e, f. eexists. repeat split.
    + apply sortNewestFirst_perm.
    + apply sortNewestFirst_sorted.
  - split; [reflexivity |]. split; [simpl; tauto |]. split; [| discriminate].
    intros _. split; [now left | eauto].
  - split; [reflexivity |]. split; [simpl; tauto |]. split; discriminate.
  - split; [reflexivity |]. split; [simpl; tauto |]. split; [| discriminate].
    intros _. split; [now left | eauto].
Qed.

(* ================================================================== *)
(** * Further statements at sample inputs                              *)
(* ================================================================== *)

Lemma typing_reaches_the_others_witness :
  socketServer.step sampleJwt (accepting 30 "") sampleServer
    (OnTyping "s1" (Some "e1") (js "It rai"))
  = (sampleServer, [(ToRoomExcept "e1" "s1", typing "u1" (js "It rai"))]).
Proof.
  refine (proj1 (typing_reaches_the_others sampleJwt (accepting 30 "") sampleServer
                   "s1" "u1" "e1" (js "It rai") eq_refl _)).
  discriminate.
Defined.

Example typing_reaches_bob_not_alice :
  delivered sampleServer (ToRoomExcept "e1" "s1") "s2" = true
  /\ delivered sampleServer (ToRoomExcept "e1" "s1") "s1" = false.
Proof. split; vm_compute; reflexivity. Qed.

Lemma joinEntry_joins_one_room_witness :
  inRoom (socketServer.step sampleJwt (accepting 30 "") sampleServer
            (OnJoinEntry "s1" (Some "e2"))).1 "s1" "e2" = true.
Proof.
  refine (proj1 (proj2 (proj2 (proj2
            (joinEntry_joins_one_room sampleJwt (accepting 30 "") sampleServer
               "s1" "u1" "e2" eq_refl _))))).
  discriminate.
Defined.

Lemma join_then_save_reaches_sender_witness :
  let out :=
    run sampleJwt freshServerWithDiary
      [ (accepting 30 "", OnJoinEntry "s1" (Some "e1"));
        (accepting 31 "", OnSave "s1" (Some "e1") (js "snow") (js "Tuesday")) ] in
  out.2 = [(ToRoom "e1", synced "e1" 31 "Entry saved successfully.")]
  /\ delivered out.1 (ToRoom "e1") "s1" = true.
Proof.
  refine (join_then_save_reaches_sender sampleJwt (accepting 30 "") (accepting 31 "")
            freshServerWithDiary "s1" "u1" "e1" (js "snow") (js "Tuesday") diary
            eq_refl _ _ eq_refl eq_refl).
  - discriminate.
  - vm_compute. reflexivity.
Defined.

Lemma create_then_get_witness :
  (Http.asyncHandler
     (journalController.createJournal (accepting 40 "e9") alice
        (JStr (js " Trip ")) (JStr (js "sea")))
     sampleDB).2
  = Http.mkResponse 201
      (Http.EntryJson (Entry.mk "e9" "u1" (js "Trip") (js "sea") None [] 40 40)).
Proof.
  refine (proj1 (create_then_get (accepting 40 "e9") alice bob (js " Trip ") (js "sea")
                   sampleDB _ _ _ eq_refl _)).
  - discriminate.
  - vm_compute. lia.
  - discriminate.
  - discriminate.
Defined.

Lemma stored_titles_stay_trimmed_witness :
  titlesTrimmed
    (entries (db (server.serve Version.Version false sampleJwt freshServer
                    (draftScenario alice "s1" "e9" 1 2 3 4 (js "v0"))).1)).
Proof.
  refine (proj1 (stored_titles_stay_trimmed Version.Version false sampleJwt
                   (draftScenario alice "s1" "e9" 1 2 3 4 (js "v0")) freshServer _)).
  intros id e H. change (entries (db freshServer)) with (∅ : gmap ObjectId Entry.doc) in H.
  rewrite lookup_empty in H. discriminate.
Defined.

(* ================================================================== *)
(** * Entry: the hook twice, and an update that changes something      *)
(* ================================================================== *)

(** X19.  The pre-save hook is idempotent: running it on a document
    it has already run on changes nothing.  It never touches a
    document whose tags were not assigned; and the tags it leaves on
    one whose tags were assigned are in stored form, so that a later
    save stores them unchanged. *)
Theorem preSave_idempotent (d : Entry.live) :
  Entry.preSave (Entry.preSave d) = Entry.preSave d
  /\ (Entry.isModified "tags" d = false -> Entry.preSave d = d)
  /\ (Entry.isModified "tags" d = true ->
      Entry.tags (Entry.cur (Entry.preSave d))
      = Entry.sanitizeTags (Entry.tags (Entry.cur d))
      /\ Entry.sanitizeTags (Entry.tags (Entry.cur (Entry.preSave d)))
         = Entry.tags (Entry.cur (Entry.preSave d))).
Proof.
  unfold Entry.preSave. destruct (Entry.isModified "tags" d) eqn:Hm.
  - unfold Entry.isModified in *. cbn [Entry.modifiedPaths]. rewrite Hm.
    cbn [Entry.cur Entry.tags Entry.with_tags Entry.isNew Entry.invalidPaths
         Entry.modifiedPaths Entry._id Entry.user Entry.title Entry.content Entry.mood
         Entry.createdAt Entry.updatedAt].
    rewrite sanitizeTags_idempotent.
    split; [reflexivity |]. split; [discriminate |]. intros _. split; reflexivity.
  - rewrite Hm. split; [reflexivity |]. split; [reflexivity | discriminate].
Qed.

Lemma with_title_same (e : Entry.doc) : Entry.with_title (Entry.title e) e = e.
Proof. now destruct e. Qed.

Lemma with_content_same (e : Entry.doc) : Entry.with_content (Entry.content e) e = e.
Proof. now destruct e. Qed.

(** X20.  An update by the owner with a title and a content given as
    strings: when the title is not blank and, trimmed, has at most 100
    code units, the content is not empty, the stored mood is one of
    the schema's, and the storage accepts the write, the answer is 200
    with the stored entry.  If the trimmed title or the content
    differs from what is stored, the entry gets both and the time of
    the request as modification time; if neither differs, nothing is
    written and the modification time stays. *)
Theorem updateJournal_replaces_title_and_content (env : Env) (u : User.doc)
    (id : ObjectId) (t c : jsstring) (db : DB) (e : Entry.doc) :
  Entry.findById id (entries db) = Some e ->
  Entry.user e = User._id u ->
  trim t <> [] -> (length (trim t) <= 100)%nat -> c <> [] ->
  (forall m, Entry.mood e = Some m -> In m Entry.moods) ->
  writeFails env 0 = false ->
  let out :=
    Http.asyncHandler (journalController.updateJournal env u id (JStr t) (JStr c)) db in
  let e' :=
    Entry.with_updatedAt (now env) (Entry.with_content c (Entry.with_title (trim t) e)) in
  (trim t <> Entry.title e \/ c <> Entry.content e ->
   out = (mkDB (users db) (<[id := e']> (entries db)) (versions db),
          Http.mkResponse 200 (Http.EntryJson e')))
  /\ (trim t = Entry.title e -> c = Entry.content e ->
      out = (db, Http.mkResponse 200 (Http.EntryJson e))).
Proof.
  intros Hf Hown Ht Hlen Hc Hmood Hw. cbv zeta.
  assert (Ht0 : t <> []) by (intros ->; now apply Ht).
  destruct (findById_id _ _ _ Hf) as [_ Hid].
  assert (Hval : forall d,
            Entry.invalidPaths d = [] -> Entry.title (Entry.cur d) = trim t ->
            Entry.content (Entry.cur d) = c -> Entry.mood (Entry.cur d) = Entry.mood e ->
            Entry.validate d = None).
  { intros d Hi Htl Hcl Hml. unfold Entry.validate. rewrite Hi, Htl, Hcl, Hml.
    rewrite (bool_decide_eq_false_2 ([] <> [])) by (intros E; now apply E).
    rewrite (bool_decide_eq_false_2 _ Ht), (bool_decide_eq_false_2 _ Hc).
    assert (Hl : (100 <? length (trim t))%nat = false) by (apply Nat.ltb_ge; exact Hlen).
    rewrite Hl. destruct (Entry.mood e) as [m|]; [| reflexivity].
    rewrite bool_decide_eq_true_2; [reflexivity |].
    apply list_elem_of_In. now apply Hmood. }
  set (d1 := Entry.set_title (Some t) (Entry.hydrate e)).
  set (d2 := Entry.set_content (Some c) d1).
  assert (Hd2 : Entry.cur d2 = Entry.with_content c (Entry.with_title (trim t) e)
                /\ Entry.isNew d2 = false /\ Entry.invalidPaths d2 = []
                /\ Entry.isModified "tags" d2 = false
                /\ (trim t = Entry.title e -> c = Entry.content e ->
                    Entry.modifiedPaths d2 = [] /\ Entry.cur d2 = e)
                /\ (trim t <> Entry.title e \/ c <> Entry.content e ->
                    Entry.modifiedPaths d2 <> [])).
  { subst d2 d1. unfold Entry.set_content, Entry.set_title, Entry.assign, Entry.hydrate.
    cbn [Entry.isNew Entry.cur orb].
    destruct (decide (trim t = Entry.title e)) as [Et | Et].
    - rewrite (bool_decide_eq_true_2 _ Et). cbn [negb Entry.cur Entry.isNew orb].
      destruct (decide (c = Entry.content e)) as [Ec | Ec].
      + rewrite (bool_decide_eq_true_2 _ Ec). cbn [negb Entry.cur Entry.isNew orb].
        rewrite Et, Ec, with_title_same, with_content_same.
        repeat split; try reflexivity. intros [? | ?]; contradiction.
      + rewrite (bool_decide_eq_false_2 _ Ec).
        cbn [negb Entry.cur Entry.isNew Entry.invalidPaths Entry.modifiedPaths].
        rewrite Et, with_title_same.
        repeat split; try reflexivity; try contradiction. discriminate.
    - rewrite (bool_decide_eq_false_2 _ Et).
      cbn [negb Entry.cur Entry.isNew orb Entry.with_title Entry.content].
      destruct (decide (c = Entry.content e)) as [Ec | Ec].
      + rewrite (bool_decide_eq_true_2 _ Ec).
        cbn [negb Entry.cur Entry.isNew Entry.invalidPaths Entry.modifiedPaths].
        replace (Entry.with_content c (Entry.with_title (trim t) e))
          with (Entry.with_title (trim t) e) by (rewrite Ec; now destruct e).
        repeat split; try reflexivity; try contradiction. discriminate.
      + rewrite (bool_decide_eq_false_2 _ Ec).
        cbn [negb Entry.cur Entry.isNew Entry.invalidPaths Entry.modifiedPaths].
        repeat split; try reflexivity; try contradiction. discriminate. }
  destruct Hd2 as (Hcur & Hnew & Hinv & Htags & Hsame & Hdiff).
  assert (Hv : Entry.validate d2 = None).
  { apply Hval; [exact Hinv | now rewrite Hcur ..]. }
  assert (Hpre : Entry.preSave d2 = d2) by (unfold Entry.preSave; now rewrite Htags).
  assert (Hrun : Http.asyncHandler
                   (journalController.updateJournal env u id (JStr t) (JStr c)) db
                 = match Entry.save env 0 d2 (entries db) with
                   | Return (coll, e') =>
                       (mkDB (users db) coll (versions db),
                        Http.mkResponse 200 (Http.EntryJson e'))
                   | Throw m => (db, Http.mkResponse 500 (Http.ErrorJson m))
                   end).
  { unfold journalController.updateJournal. unfold_handler.
    cbn [Http.db Http.statusCode]. rewrite Hf.
    rewrite (bool_decide_eq_true_2 _ Hown). cbn [negb].
    unfold JS.or. cbn [truthy]. rewrite (bool_decide_eq_false_2 _ Ht0).
    rewrite (bool_decide_eq_false_2 _ Hc). cbn [negb journalController.castString].
    fold d1. fold d2. cbn [Http.db Http.statusCode].
    destruct (Entry.save env 0 d2 (entries db)) as [m | [coll e']]; reflexivity. }
  rewrite Hrun. unfold Entry.save, Entry.stamp. rewrite Hv, Hpre, Hnew. cbn [negb andb].
  split.
  - intros Hne. specialize (Hdiff Hne).
    rewrite (bool_decide_eq_false_2 _ Hdiff), (bool_decide_eq_true_2 _ Hdiff), Hw, Hcur.
    cbn [Entry._id Entry.with_updatedAt Entry.with_content Entry.with_title].
    rewrite Hid. reflexivity.
  - intros Et Ec. destruct (Hsame Et Ec) as [Hm Hc2].
    rewrite (bool_decide_eq_true_2 _ Hm).
    rewrite (bool_decide_eq_false_2 (Entry.modifiedPaths d2 <> [])) by (intros E; now apply E).
    rewrite Hc2, db_eta. reflexivity.
Qed.

Lemma updateJournal_replaces_title_and_content_witness :
  Http.asyncHandler
    (journalController.updateJournal (accepting 30 "") alice "e1"
       (JStr (js " Tuesday ")) (JStr (js "snow")))
    sampleDB
  = (mkDB (users sampleDB)
       (<["e1" := Entry.mk "e1" "u1" (js "Tuesday") (js "snow") None [js "weather"] 10 30]>
          (entries sampleDB))
       (versions sampleDB),
     Http.mkResponse 200
       (Http.EntryJson
          (Entry.mk "e1" "u1" (js "Tuesday") (js "snow") None [js "weather"] 10 30))).
Proof.
  refine (proj1 (updateJournal_replaces_title_and_content (accepting 30 "") alice "e1"
                   (js " Tuesday ") (js "snow") sampleDB diary _ eq_refl _ _ _ _ eq_refl)
            _).
  - vm_compute. reflexivity.
  - discriminate.
  - vm_compute. lia.
  - discriminate.
  - intros m [=].
  - left. discriminate.
Defined.

Example createJournal_blank_title :
  Http.asyncHandler
    (journalController.createJournal (accepting 40 "e9") alice
       (JStr (js "   ")) (JStr (js "sea")))
    sampleDB
  = (sampleDB,
     Http.mkResponse 500
       (Http.ErrorJson
          "Entry validation failed: title: Please provide a title for your entry.")).
Proof. vm_compute. reflexivity. Qed.

Example updateJournal_same_values :
  Http.asyncHandler
    (journalController.updateJournal (accepting 30 "") alice "e1"
       (JStr (js " Monday ")) JUndefined)
    sampleDB
  = (sampleDB, Http.mkResponse 200 (Http.EntryJson diary)).
Proof. vm_compute. reflexivity. Qed.
